(** * Gamification engine of the Smart Speak English-learning app

    Shallow embedding of [database.py] (XP/levels, badges, weekly
    challenges, leaderboard, conversation contexts, security questions)
    and of the star scoring of [app.py].

    Modelling conventions.
    - Python [int] is [Z]; Python [str] is [string] over ASCII.
    - A MongoDB collection is the list of its documents in insertion
      order; [find_one] returns the first match, [update_one] rewrites
      the first match.
    - A collection handle that is [None] (connection failed at import) is
      [None : option _].
    - Code that can raise inside a [try] returns [option]; [None] is the
      raised exception, mapped to the default result by the [except].
    - The clock ([datetime.now()], [get_week_key()]) is an explicit input. *)

From Stdlib Require Import ZArith QArith List String Ascii Bool Lia.
From Stdlib Require Import Sorting.Sorted Sorting.Permutation.
Import ListNotations.
Set Warnings "-register-all".

Open Scope string_scope.
Open Scope Z_scope.

(** Option monad for code paths that may raise. *)
Notation "'let?' x ':=' m 'in' k" :=
  (match m with Some x => k | None => None end)
  (at level 200, x pattern, m at level 100, right associativity).

(* ================================================================== *)
(** ** Python string helpers (ASCII) *)

Module Py.

(** [str.isspace] on ASCII: \t \n \v \f \r, \x1c-\x1f and space. *)
Definition is_space (c : ascii) : bool :=
  let n := nat_of_ascii c in
  ((9 <=? n) && (n <=? 13))%nat || ((28 <=? n) && (n <=? 32))%nat.

Fixpoint lstrip (s : string) : string :=
  match s with
  | EmptyString => EmptyString
  | String c r => if is_space c then lstrip r else s
  end.

Fixpoint rstrip (s : string) : string :=
  match s with
  | EmptyString => EmptyString
  | String c r =>
      let r' := rstrip r in
      match r' with
      | EmptyString => if is_space c then EmptyString else String c EmptyString
      | _ => String c r'
      end
  end.

(** [s.strip()] *)
Definition strip (s : string) : string := rstrip (lstrip s).

Definition lower_char (c : ascii) : ascii :=
  let n := nat_of_ascii c in
  if ((65 <=? n) && (n <=? 90))%nat then ascii_of_nat (n + 32) else c.

Definition upper_char (c : ascii) : ascii :=
  let n := nat_of_ascii c in
  if ((97 <=? n) && (n <=? 122))%nat then ascii_of_nat (n - 32) else c.

Fixpoint map_chars (f : ascii -> ascii) (s : string) : string :=
  match s with
  | EmptyString => EmptyString
  | String c r => String (f c) (map_chars f r)
  end.

(** [s.lower()] and [s.upper()] *)
Definition lower (s : string) : string := map_chars lower_char s.
Definition upper (s : string) : string := map_chars upper_char s.

Definition nl : ascii := Ascii.ascii_of_nat 10.

(** [s.split(sep)] for a one-character separator: always at least one
    piece, [''.split('\n') == ['']]. *)
Fixpoint split (sep : ascii) (s : string) : list string :=
  match s with
  | EmptyString => [EmptyString]
  | String c r =>
      let rest := split sep r in
      if Ascii.eqb c sep then EmptyString :: rest
      else match rest with
           | h :: t => String c h :: t
           | [] => [String c EmptyString]
           end
  end.

(** [sep.join(l)] *)
Fixpoint join (sep : string) (l : list string) : string :=
  match l with
  | [] => EmptyString
  | [x] => x
  | x :: t => x ++ sep ++ join sep t
  end.

(** [l[-k:]] for [0 < k]. *)
Definition last_n {A} (k : nat) (l : list A) : list A :=
  skipn (List.length l - k) l.

(** [s.count(c)] for one character. *)
Fixpoint count (c : ascii) (s : string) : nat :=
  match s with
  | EmptyString => 0
  | String d r => (if Ascii.eqb d c then 1 else 0) + count c r
  end.

(** Python truthiness of a string. *)
Definition truthy (s : string) : bool :=
  match s with EmptyString => false | _ => true end.

End Py.

(* ================================================================== *)
(** ** XP / level formula ([xp_threshold_for_level], [calculate_level_from_xp]) *)

Module Level.

(** [total] after [for l in range(1, level)]: the loop runs for
    [l = 1 .. level-1] and adds [25 * 2 ** (l - 1)]. *)
Fixpoint threshold_sum (n : nat) : Z :=
  match n with
  | O => 0
  | S k => threshold_sum k + 25 * 2 ^ Z.of_nat k
  end.

Definition xp_threshold_for_level (level : Z) : Z :=
  if level <=? 1 then 0 else threshold_sum (Z.to_nat (level - 1)).

(** The [while True] loop of [calculate_level_from_xp]: each iteration
    either increments [level] or breaks.  It is run with fuel; the lemma
    [calc_loop_spec] below shows that the fuel given by
    [calculate_level_from_xp] is never exhausted before the loop breaks
    or reaches the level Python returns. *)
Fixpoint calc_loop (fuel : nat) (level xp : Z) : Z :=
  match fuel with
  | O => level
  | S f =>
      let next_threshold := xp_threshold_for_level (level + 1) in
      if next_threshold <=? xp then calc_loop f (level + 1) xp else level
  end.

Definition calculate_level_from_xp (xp : Z) : Z :=
  calc_loop (S (Z.to_nat xp)) 1 xp.

End Level.

(* ================================================================== *)
(** ** Star scoring of [check_repeat] and [check_spelling] (app.py) *)

Module Scoring.

Section Scoring.

(** [difflib.SequenceMatcher(None, a, b)] is library code: we take the
    total size of its matching blocks as a parameter and compute
    [ratio()] the way difflib does, [_calculate_ratio(matches, len(a) +
    len(b))].  The ratio is the exact rational [2*M/T]; Python computes
    it as a correctly rounded float and compares it with the float
    literals [0.9], [0.75], ... which are the correctly rounded band
    limits, so the comparisons agree for strings of realistic length. *)
Variable matching_size : string -> string -> nat.

Definition calculate_ratio (matches length : nat) : Q :=
  if Nat.eqb length 0 then 1%Q
  else (2 * Z.of_nat matches # Pos.of_nat length)%Q.

Definition ratio (a b : string) : Q :=
  calculate_ratio (matching_size a b) (String.length a + String.length b).

(** The [if/elif] chain of [check_repeat] on [score]. *)
Definition repeat_stars (score : Q) : Z :=
  if Qle_bool (9 # 10) score then 3
  else if Qle_bool (3 # 4) score then 2
  else if Qle_bool (3 # 5) score then 1
  else 0.

(** [check_repeat]: [score = SequenceMatcher(None, student.lower(),
    correct.lower()).ratio()], then the bands. *)
Definition check_repeat_stars (student correct : string) : Z :=
  repeat_stars (ratio (Py.lower student) (Py.lower correct)).

(** [check_spelling]: normalise with [.lower().strip()], exact match
    gives 3 stars, otherwise similarity bands 0.8 / 0.5. *)
Definition check_spelling_stars (student_spelling correct_word : string) : Z :=
  let student := Py.strip (Py.lower student_spelling) in
  let correct := Py.strip (Py.lower correct_word) in
  if String.eqb student correct then 3
  else
    let similarity := ratio student correct in
    if Qle_bool (4 # 5) similarity then 2
    else if Qle_bool (1 # 2) similarity then 1
    else 0.

End Scoring.

End Scoring.

(* ================================================================== *)
(** ** The [users] collection *)

Module Users.

(** Values stored under [achievements.*]: counters, the
    [badges_earned] list, strings, [None]. *)
Inductive aval :=
| ANum (z : Z)
| AStr (s : string)
| AStrList (l : list string)
| ANone.

(** A Python dict as an association list in insertion order. *)
Fixpoint dict_get {A} (d : list (string * A)) (k : string) : option A :=
  match d with
  | [] => None
  | (k', v) :: t => if String.eqb k' k then Some v else dict_get t k
  end.

(** [d[k] = v]: overwrite in place, or append a new key. *)
Fixpoint dict_set {A} (d : list (string * A)) (k : string) (v : A)
  : list (string * A) :=
  match d with
  | [] => [(k, v)]
  | (k', v') :: t =>
      if String.eqb k' k then (k', v) :: t else (k', v') :: dict_set t k v
  end.

(** The [achievements] field: a dict, or some other (malformed) value. *)
Inductive ach :=
| ADict (entries : list (string * aval))
| ANonDict.

(** The [weekly_xp] field: [{week_key: xp}], or a malformed value. *)
Inductive weekly :=
| WDict (entries : list (string * Z))
| WNonDict.

(** One challenge slot [{'type','target','current','completed','xp'}]. *)
Record slot := mk_slot {
  s_type : string; s_target : Z; s_current : Z; s_completed : bool; s_xp : Z }.

(** A weekly challenge set as [get_daily_challenges] builds it.  The
    empty dict [{}] written by [create_user], like an absent field, is
    [None] in [u_daily]: [user.get('daily_challenges', {})] reads both
    as [{}]. *)
Record challenges := mk_challenges {
  c_week : string;
  c_challenge1 : slot; c_challenge2 : slot; c_challenge3 : slot;
  c_completed_today : Z;
  c_streak : Z }.

(** A user document; [option] fields may be absent ([s.get(k, default)]). *)
Record user := mk_user {
  u_id : string;
  u_username : option string;
  u_name : option string;
  u_class : option string;
  u_division : option string;
  u_user_type : option string;
  u_total_xp : option Z;
  u_level : option Z;
  u_achievements : option ach;
  u_weekly_xp : option weekly;
  u_daily : option challenges;
  u_security_question : option string;
  u_security_answer : option string }.

Definition set_achievements (a : ach) (u : user) : user :=
  mk_user (u_id u) (u_username u) (u_name u) (u_class u) (u_division u)
    (u_user_type u) (u_total_xp u) (u_level u) (Some a) (u_weekly_xp u)
    (u_daily u) (u_security_question u) (u_security_answer u).

Definition set_daily (c : challenges) (u : user) : user :=
  mk_user (u_id u) (u_username u) (u_name u) (u_class u) (u_division u)
    (u_user_type u) (u_total_xp u) (u_level u) (u_achievements u)
    (u_weekly_xp u) (Some c) (u_security_question u)
    (u_security_answer u).

Definition set_xp_level (xp level : Z) (u : user) : user :=
  mk_user (u_id u) (u_username u) (u_name u) (u_class u) (u_division u)
    (u_user_type u) (Some xp) (Some level) (u_achievements u)
    (u_weekly_xp u) (u_daily u) (u_security_question u)
    (u_security_answer u).

Definition set_security (q a : string) (u : user) : user :=
  mk_user (u_id u) (u_username u) (u_name u) (u_class u) (u_division u)
    (u_user_type u) (u_total_xp u) (u_level u) (u_achievements u)
    (u_weekly_xp u) (u_daily u) (Some q) (Some a).

(** [{'$set': {'achievements.<k>': v}}]: creates the sub-document when
    absent, fails (MongoDB write error) when it is not a document. *)
Definition set_ach_field (k : string) (v : aval) (u : user) : option user :=
  match u_achievements u with
  | None => Some (set_achievements (ADict [(k, v)]) u)
  | Some (ADict e) => Some (set_achievements (ADict (dict_set e k v)) u)
  | Some ANonDict => None
  end.

(** *** Collection operations in an exception/state monad

    A computation reads and writes the collection; a raised exception
    ([None]) keeps the writes already made, as MongoDB does. *)

Definition M (A : Type) := list user -> option A * list user.

Definition ret {A} (a : A) : M A := fun us => (Some a, us).

Definition bind {A B} (m : M A) (k : A -> M B) : M B :=
  fun us => match m us with
            | (Some a, us') => k a us'
            | (None, us') => (None, us')
            end.

Notation "x <- m ;; k" := (bind m (fun x => k))
  (at level 61, m at next level, right associativity).

(** [try: body except Exception: return default] *)
Definition catch {A} (m : M A) (default : A) : list user -> A * list user :=
  fun us => match m us with
            | (Some a, us') => (a, us')
            | (None, us') => (default, us')
            end.

Definition catch_m {A} (m : M A) (default : A) : M A :=
  fun us => let (a, us') := catch m default us in (Some a, us').

Definition find_user (us : list user) (uid : string) : option user :=
  find (fun u => String.eqb (u_id u) uid) us.

(** [users_collection.find_one({'_id': uid})] *)
Definition find_one (uid : string) : M (option user) :=
  fun us => (Some (find_user us uid), us).

Fixpoint update_first (uid : string) (f : user -> option user) (us : list user)
  : option (list user) :=
  match us with
  | [] => Some []
  | u :: t =>
      if String.eqb (u_id u) uid
      then match f u with Some u' => Some (u' :: t) | None => None end
      else match update_first uid f t with
           | Some t' => Some (u :: t')
           | None => None
           end
  end.

(** [users_collection.update_one({'_id': uid}, ...)]: no-op when no
    document matches, raises on a write error. *)
Definition update_one (uid : string) (f : user -> option user) : M unit :=
  fun us => match update_first uid f us with
            | Some us' => (Some tt, us')
            | None => (None, us)
            end.

(** *** Badges *)

(** [ALL_BADGES] in dict order: (id, type, req). *)
Definition ALL_BADGES : list (string * string * Z) := [
  ("level_2", "level", 2); ("level_5", "level", 5);
  ("level_10", "level", 10); ("level_15", "level", 15);
  ("xp_25", "total_xp", 25); ("xp_100", "total_xp", 100);
  ("xp_500", "total_xp", 500); ("xp_1000", "total_xp", 1000);
  ("conv_5", "conversation_count", 5); ("conv_25", "conversation_count", 25);
  ("roleplay_5", "roleplay_count", 5); ("roleplay_20", "roleplay_count", 20);
  ("repeat_10", "repeat_count", 10); ("repeat_50", "repeat_count", 50);
  ("repeat_200", "repeat_count", 200);
  ("spell_5", "spelling_count", 5); ("spell_25", "spelling_count", 25);
  ("spell_100", "spelling_count", 100);
  ("vocab_10", "vocabulary_count", 10); ("vocab_50", "vocabulary_count", 50);
  ("perfect_5", "high_pronunciation_count", 5);
  ("perfect_25", "high_pronunciation_count", 25) ].

Definition init_user_achievements : list (string * aval) := [
  ("badges_earned", AStrList []); ("daily_login_streak", ANum 0);
  ("max_login_streak", ANum 0); ("last_login", ANone);
  ("conversation_count", ANum 0); ("roleplay_count", ANum 0);
  ("repeat_count", ANum 0); ("spelling_count", ANum 0);
  ("vocabulary_count", ANum 0); ("high_pronunciation_count", ANum 0);
  ("challenge_streak", ANum 0) ].

Definition str_mem (x : string) (l : list string) : bool :=
  existsb (String.eqb x) l.

(** [earned = achievements.get('badges_earned', [])], reset to [[]]
    when not a list. *)
Definition earned_of (achievements : list (string * aval)) : list string :=
  match dict_get achievements "badges_earned" with
  | Some (AStrList l) => l
  | _ => []
  end.

(** The comparison value [current] of a badge, [None] when it is not
    an [int]. *)
Definition current_value (user : user) (achievements : list (string * aval))
    (vt : string) : option Z :=
  if String.eqb vt "level" then Some (match u_level user with Some l => l | None => 1 end)
  else if String.eqb vt "total_xp" then
    Some (match u_total_xp user with Some x => x | None => 0 end)
  else match dict_get achievements vt with
       | None => Some 0
       | Some (ANum z) => Some z
       | Some _ => None
       end.

(** The loop over [ALL_BADGES.items()]. *)
Definition new_badges_of (user : user) (achievements : list (string * aval))
    (earned : list string) : list string :=
  map (fun b => fst (fst b))
    (filter (fun '(bid, vt, req) =>
               negb (str_mem bid earned) &&
               match current_value user achievements vt with
               | Some current => req <=? current
               | None => false
               end) ALL_BADGES).

Definition check_and_award_badges_body (uid : string) : M (list string) :=
  ou <- find_one uid ;;
  match ou with
  | None => ret []
  | Some user =>
      let '(achievements, reset) :=
        match u_achievements user with
        | None => (init_user_achievements, false)
        | Some (ADict e) => (e, false)
        | Some ANonDict => (init_user_achievements, true)
        end in
      _ <- (if reset
            then update_one uid (fun u => Some (set_achievements (ADict init_user_achievements) u))
            else ret tt) ;;
      let earned := earned_of achievements in
      let new_badges := new_badges_of user achievements earned in
      match new_badges with
      | [] => ret new_badges
      | _ :: _ =>
          _ <- update_one uid (set_ach_field "badges_earned" (AStrList (earned ++ new_badges))) ;;
          ret new_badges
      end
  end.

(** [check_and_award_badges] once [users_collection] is known not to be
    [None] (as it is when called from the other functions). *)
Definition check_and_award_badges_m (uid : string) : M (list string) :=
  catch_m (check_and_award_badges_body uid) [].

Definition check_and_award_badges (coll : option (list user)) (uid : string)
  : list string * option (list user) :=
  match coll with
  | None => ([], None)
  | Some us => let (r, us') := check_and_award_badges_m uid us in
               (match r with Some l => l | None => [] end, Some us')
  end.

(** *** Observations used by the specification *)

(** The achievements dict [check_and_award_badges] evaluates against. *)
Definition effective_achievements (u : user) : list (string * aval) :=
  match u_achievements u with
  | Some (ADict e) => e
  | Some ANonDict | None => init_user_achievements
  end.

(** The badge ids stored in a user's [achievements.badges_earned]. *)
Definition earned_ids (coll : option (list user)) (uid : string) : list string :=
  match coll with
  | None => []
  | Some us =>
      match find_user us uid with
      | Some u => match u_achievements u with
                  | Some (ADict e) => earned_of e
                  | _ => []
                  end
      | None => []
      end
  end.

(** The document [check_and_award_badges] leaves behind. *)
Definition cab_user (u : user) : user :=
  let ach := effective_achievements u in
  let earned := earned_of ach in
  match new_badges_of u ach earned with
  | [] => match u_achievements u with
          | Some ANonDict => set_achievements (ADict init_user_achievements) u
          | _ => u
          end
  | nb =>
      let base := match u_achievements u with
                  | Some (ADict e) => e
                  | Some ANonDict => init_user_achievements
                  | None => []
                  end in
      set_achievements (ADict (dict_set base "badges_earned" (AStrList (earned ++ nb)))) u
  end.

End Users.

(* ================================================================== *)
(** ** Weekly challenges ([get_daily_challenges], [update_challenge_progress]) *)

Module Challenges.
Import Users.

Definition fresh_challenges (current_week : string) (new_streak : Z) : challenges :=
  mk_challenges current_week
    (mk_slot "practice" 5 0 false 5)
    (mk_slot "learning" 10 0 false 5)
    (mk_slot "mastery" 3 0 false 5)
    0 new_streak.

(** [challenges.get('week')] *)
Definition stored_week (c : option challenges) : option string :=
  match c with Some c => Some (c_week c) | None => None end.

(** [challenges.get('streak', 0)] and [challenges.get('completed_today', 0)] *)
Definition stored_streak (c : option challenges) : Z :=
  match c with Some c => c_streak c | None => 0 end.
Definition stored_completed_today (c : option challenges) : Z :=
  match c with Some c => c_completed_today c | None => 0 end.

(** The rollover branch: the new set and its streak. *)
Definition rollover (current_week : string) (c : option challenges) : challenges :=
  let streak := stored_streak c in
  let all_done := stored_completed_today c =? 3 in
  let new_streak := if all_done then streak + 1 else 0 in
  fresh_challenges current_week new_streak.

(** What [get_daily_challenges] returns for a stored value. *)
Definition current_challenges (current_week : string) (c : option challenges)
  : challenges :=
  match c with
  | Some c' => if String.eqb (c_week c') current_week then c' else rollover current_week c
  | None => rollover current_week c
  end.

(** [get_daily_challenges] once [users_collection] is not [None].  On
    rollover it writes [achievements.challenge_streak] when the new
    streak reaches 7 (then re-checks badges), and then the new set. *)
Definition get_daily_challenges_m (uid current_week : string)
  : M (option challenges) :=
  catch_m (
    ou <- find_one uid ;;
    match ou with
    | None => ret None
    | Some user =>
        let c := u_daily user in
        if match stored_week c with
           | Some w => String.eqb w current_week
           | None => false
           end
        then ret c
        else
          let challenges := rollover current_week c in
          let new_streak := c_streak challenges in
          _ <- (if 7 <=? new_streak
                then _ <- update_one uid (set_ach_field "challenge_streak" (ANum new_streak)) ;;
                     _ <- check_and_award_badges_m uid ;;
                     ret tt
                else ret tt) ;;
          _ <- update_one uid (fun u => Some (set_daily challenges u)) ;;
          ret (Some challenges)
    end) None.

Definition get_daily_challenges (coll : option (list user)) (uid current_week : string)
  : option challenges * option (list user) :=
  match coll with
  | None => (None, None)
  | Some us =>
      let (r, us') := get_daily_challenges_m uid current_week us in
      (match r with Some x => x | None => None end, Some us')
  end.

Inductive slot_key := Challenge1 | Challenge2 | Challenge3.

(** [type_map.get(challenge_type)] *)
Definition type_map (challenge_type : string) : option slot_key :=
  if String.eqb challenge_type "practice" then Some Challenge1
  else if String.eqb challenge_type "learning" then Some Challenge2
  else if String.eqb challenge_type "mastery" then Some Challenge3
  else None.

Definition get_slot (k : slot_key) (c : challenges) : slot :=
  match k with
  | Challenge1 => c_challenge1 c
  | Challenge2 => c_challenge2 c
  | Challenge3 => c_challenge3 c
  end.

Definition put_slot (k : slot_key) (s : slot) (c : challenges) : challenges :=
  match k with
  | Challenge1 => mk_challenges (c_week c) s (c_challenge2 c) (c_challenge3 c)
                    (c_completed_today c) (c_streak c)
  | Challenge2 => mk_challenges (c_week c) (c_challenge1 c) s (c_challenge3 c)
                    (c_completed_today c) (c_streak c)
  | Challenge3 => mk_challenges (c_week c) (c_challenge1 c) (c_challenge2 c) s
                    (c_completed_today c) (c_streak c)
  end.

Definition set_completed_today (n : Z) (c : challenges) : challenges :=
  mk_challenges (c_week c) (c_challenge1 c) (c_challenge2 c) (c_challenge3 c)
    n (c_streak c).

(** The in-place update of [challenges] and the XP accrued:
    the [if key and not challenges[key]['completed']] block followed by
    the [completed_today == 3] bonus. *)
Definition progress_step (challenge_type : string) (increment : Z) (c : challenges)
  : challenges * Z :=
  let '(c1, xp_earned) :=
    match type_map challenge_type with
    | Some key =>
        let s := get_slot key c in
        if negb (s_completed s) then
          let cur := Z.min (s_target s) (s_current s + increment) in
          if s_target s <=? cur then
            let s' := mk_slot (s_type s) (s_target s) cur true (s_xp s) in
            (set_completed_today (c_completed_today c + 1) (put_slot key s' c), s_xp s)
          else (put_slot key (mk_slot (s_type s) (s_target s) cur false (s_xp s)) c, 0)
        else (c, 0)
    | None => (c, 0)
    end in
  (c1, if c_completed_today c1 =? 3 then xp_earned + 10 else xp_earned).

Definition update_challenge_progress_m (uid challenge_type : string) (increment : Z)
    (current_week : string) : M Z :=
  catch_m (
    och <- get_daily_challenges_m uid current_week ;;
    match och with
    | None => ret 0
    | Some challenges =>
        let '(challenges', xp_earned) := progress_step challenge_type increment challenges in
        _ <- update_one uid (fun u => Some (set_daily challenges' u)) ;;
        _ <- (if 0 <? xp_earned then
                ou <- find_one uid ;;
                match ou with
                | Some cur_user =>
                    let new_xp := match u_total_xp cur_user with Some x => x | None => 0 end
                                  + xp_earned in
                    let new_level := Level.calculate_level_from_xp new_xp in
                    _ <- update_one uid (fun u => Some (set_xp_level new_xp new_level u)) ;;
                    _ <- check_and_award_badges_m uid ;;
                    ret tt
                | None => ret tt
                end
              else ret tt) ;;
        ret xp_earned
    end) 0.

Definition update_challenge_progress (coll : option (list user))
    (uid challenge_type : string) (increment : Z) (current_week : string)
  : Z * option (list user) :=
  match coll with
  | None => (0, None)
  | Some us =>
      let (r, us') := update_challenge_progress_m uid challenge_type increment current_week us in
      (match r with Some x => x | None => 0 end, Some us')
  end.

(** *** Observations used by the specification *)

(** Whether all three slots of a stored set are completed ([{}] has none). *)
Definition all_completed (c : option challenges) : bool :=
  match c with
  | Some c => s_completed (c_challenge1 c) && s_completed (c_challenge2 c)
              && s_completed (c_challenge3 c)
  | None => false
  end.

Definition count_completed (c : challenges) : Z :=
  Z.b2z (s_completed (c_challenge1 c)) + Z.b2z (s_completed (c_challenge2 c))
  + Z.b2z (s_completed (c_challenge3 c)).

(** The values the [daily_challenges] field takes: [{}] at
    [create_user], then what [get_daily_challenges] writes (a fresh set
    on rollover) and what [update_challenge_progress] writes (the
    advanced set). *)
Inductive daily_reachable : option challenges -> Prop :=
| reach_empty : daily_reachable None
| reach_get (w : string) (c : option challenges) :
    daily_reachable c -> daily_reachable (Some (current_challenges w c))
| reach_progress (w t : string) (inc : Z) (c : option challenges) :
    daily_reachable c ->
    daily_reachable (Some (fst (progress_step t inc (current_challenges w c)))).

End Challenges.

(* ================================================================== *)
(** ** Weekly leaderboard ([get_weekly_leaderboard]) *)

Module Leaderboard.
Import Users.

(** A leaderboard row before ranking. *)
Record entry := mk_entry {
  e_user_id : string; e_name : string; e_xp : Z; e_weekly_xp : Z;
  e_level : Z; e_badges : nat; e_division : string }.

(** A row after [e['rank'] = i + 1]. *)
Record ranked := mk_ranked { r_entry : entry; r_rank : Z }.

Definition get_or {A} (o : option A) (d : A) : A :=
  match o with Some x => x | None => d end.

(** The three [continue] tests of the first loop. *)
Definition is_listed (selected_class selected_division : string) (s : user) : bool :=
  let selected_class_str := Py.strip selected_class in
  let selected_div_str := Py.upper (Py.strip selected_division) in
  let student_class := Py.strip (get_or (u_class s) "") in
  let student_div := Py.upper (Py.strip (get_or (u_division s) "")) in
  let user_type := get_or (u_user_type s) "student" in
  if String.eqb user_type "teacher" then false
  else if negb (String.eqb (Py.lower student_class) (Py.lower selected_class_str)) then false
  else if Py.truthy selected_div_str && negb (String.eqb student_div selected_div_str) then false
  else true.

(** [len(s.get('achievements', {}).get('badges_earned', []))]; raises
    when [achievements] is not a dict or the list has no [len]. *)
Definition badge_count (s : user) : option nat :=
  match u_achievements s with
  | None => Some 0%nat
  | Some ANonDict => None
  | Some (ADict e) =>
      match dict_get e "badges_earned" with
      | None => Some 0%nat
      | Some (AStrList l) => Some (List.length l)
      | Some (AStr t) => Some (String.length t)
      | Some (ANum _) | Some ANone => None
      end
  end.

(** One [lb.append({...})] of the second loop. *)
Definition entry_of (week : string) (s : user) : option entry :=
  let weekly_xp :=
    match u_weekly_xp s with
    | Some (WDict m) => get_or (dict_get m week) 0
    | Some WNonDict | None => 0
    end in
  let? badges := badge_count s in
  Some (mk_entry (u_id s)
          (match u_name s with Some n => n | None => get_or (u_username s) "Unknown" end)
          (get_or (u_total_xp s) 0) weekly_xp (get_or (u_level s) 1) badges
          (get_or (u_division s) "")).

Fixpoint entries_of (week : string) (l : list user) : option (list entry) :=
  match l with
  | [] => Some []
  | s :: t => let? e := entry_of week s in
              let? es := entries_of week t in
              Some (e :: es)
  end.

(** The sort key [(x['weekly_xp'], x['xp'])] compared as a tuple. *)
Definition key_ge (a b : entry) : bool :=
  (e_weekly_xp b <? e_weekly_xp a)
  || ((e_weekly_xp a =? e_weekly_xp b) && (e_xp b <=? e_xp a)).

(** [lb.sort(key=..., reverse=True)]: Python's sort is stable and
    [reverse=True] keeps equal keys in their original order; this is a
    stable insertion sort in descending key order. *)
Fixpoint insert_desc (x : entry) (l : list entry) : list entry :=
  match l with
  | [] => [x]
  | y :: t => if key_ge y x then y :: insert_desc x t else x :: l
  end.

Definition sort_desc (l : list entry) : list entry :=
  fold_left (fun acc x => insert_desc x acc) l [].

(** [for i, e in enumerate(lb): e['rank'] = i + 1] *)
Fixpoint assign_ranks (i : Z) (l : list entry) : list ranked :=
  match l with
  | [] => []
  | e :: t => mk_ranked e (i + 1) :: assign_ranks (i + 1) t
  end.

Definition get_weekly_leaderboard (coll : option (list user)) (week : string)
    (selected_class selected_division : string) : list ranked :=
  match coll with
  | None => []
  | Some all_docs =>
      let students := filter (is_listed selected_class selected_division) all_docs in
      match entries_of week students with
      | None => []
      | Some lb => assign_ranks 0 (sort_desc lb)
      end
  end.

End Leaderboard.

(* ================================================================== *)
(** ** User CRUD and security questions *)

Module Account.
Import Users.

Definition get_user_by_id (coll : option (list user)) (uid : string) : option user :=
  match coll with
  | None => None
  | Some us => find_user us uid
  end.


Section Werkzeug.

(** werkzeug's password hashing is library code.  A hash is the string
    [method$salt$hashval]; [hash_internal method salt password] is the
    key-derivation result and [method_supported] tells whether
    [_hash_internal] accepts [method] (it raises [ValueError] otherwise). *)
Variable hash_internal : string -> string -> string -> string.
Variable method_supported : string -> bool.

Definition default_method : string := "scrypt:32768:8:1".

Definition dollar : ascii := "$"%char.

(** [s.split('$', 1)] when [s] contains a [$]. *)
Fixpoint split_once (s : string) : option (string * string) :=
  match s with
  | EmptyString => None
  | String c r =>
      if Ascii.eqb c dollar then Some (EmptyString, r)
      else let? p := split_once r in Some (String c (fst p), snd p)
  end.

(** [generate_password_hash(password)] with the random [salt] given. *)
Definition generate_password_hash (salt password : string) : string :=
  default_method ++ "$" ++ salt ++ "$" ++ hash_internal default_method salt password.

(** [check_password_hash(pwhash, password)]; [None] when it raises. *)
Definition check_password_hash (pwhash password : string) : option bool :=
  match split_once pwhash with
  | None => Some false
  | Some (method, rest) =>
      match split_once rest with
      | None => Some false
      | Some (salt, hashval) =>
          if method_supported method
          then Some (String.eqb (hash_internal method salt password) hashval)
          else None
      end
  end.

(** [check_pw]: falls back to plain comparison when the check raises. *)
Definition check_pw (stored provided : string) : bool :=
  match check_password_hash stored provided with
  | Some b => b
  | None => String.eqb stored provided
  end.

Definition set_security_question (coll : option (list user))
    (uid question answer_plain salt : string) : bool * option (list user) :=
  match coll with
  | None => (false, None)
  | Some us =>
      let h := generate_password_hash salt (Py.lower (Py.strip answer_plain)) in
      match update_first uid (fun u => Some (set_security question h u)) us with
      | Some us' => (true, Some us')
      | None => (false, Some us)
      end
  end.

Definition verify_security_answer (coll : option (list user))
    (uid question answer_plain : string) : bool :=
  match coll with
  | None => false
  | Some us =>
      match find_user us uid with
      | None => false
      | Some user =>
          match u_security_question user with
          | Some q => if String.eqb q question then
                        match u_security_answer user with
                        | Some stored_answer =>
                            if Py.truthy stored_answer
                            then check_pw stored_answer (Py.lower (Py.strip answer_plain))
                            else false
                        | None => false
                        end
                      else false
          | None => false
          end
      end
  end.

End Werkzeug.

End Account.

(* ================================================================== *)
(** ** Conversation contexts ([save_conversation], [get_conversation]) *)

Module Conversations.

(** A BSON value as this collection holds it: a string or a
    sub-document. *)
Inductive cval :=
| CStr (s : string)
| CDoc (fields : list (string * cval)).

(** A document of [conversations_collection]. *)
Definition doc := list (string * cval).

(** [{'$set': {'a.b.c': v}}] on the fields of a document: MongoDB
    splits the path at each [.], creates missing sub-documents, and
    rejects an empty field name or a path through a non-document. *)
Fixpoint set_path (segs : list string) (v : cval) (fields : list (string * cval))
  : option (list (string * cval)) :=
  match segs with
  | [] => None
  | k :: rest =>
      if String.eqb k "" then None
      else match rest with
           | [] => Some (Users.dict_set fields k v)
           | _ :: _ =>
               match Users.dict_get fields k with
               | None =>
                   let? sub := set_path rest v [] in
                   Some (Users.dict_set fields k (CDoc sub))
               | Some (CDoc g) =>
                   let? sub := set_path rest v g in
                   Some (Users.dict_set fields k (CDoc sub))
               | Some (CStr _) => None
               end
           end
  end.

Definition dot : ascii := "."%char.

(** The transcript limit by mode. *)
Definition conv_limit (mode : string) : nat :=
  if String.eqb mode "conversation" then 100%nat else 50%nat.

(** [msgs = conversation_text.strip().split('\n') if conversation_text else []] *)
Definition msgs_of (conversation_text : string) : list string :=
  if Py.truthy conversation_text then Py.split Py.nl (Py.strip conversation_text) else [].

(** The text [save_conversation] writes: the input, or its last [limit]
    lines joined by newlines when it has more. *)
Definition conv_trim (mode conversation_text : string) : string :=
  let msgs := msgs_of conversation_text in
  let limit := conv_limit mode in
  if (limit <? List.length msgs)%nat
  then Py.join (String Py.nl EmptyString) (Py.last_n limit msgs)
  else conversation_text.

Definition owned_by (user_id : string) (d : doc) : bool :=
  match Users.dict_get d "user_id" with
  | Some (CStr u) => String.eqb u user_id
  | _ => false
  end.

(** The [$set] of [save_conversation] on one document. *)
Definition save_update (mode text now : string) (d : doc) : option doc :=
  let? d1 := set_path ("conversations" :: Py.split dot mode) (CStr text) d in
  set_path ["updated_at"] (CStr now) d1.

(** [update_one({'user_id': uid}, update, upsert=True)] *)
Fixpoint upsert (user_id : string) (f : doc -> option doc) (ds : list doc)
  : option (list doc) :=
  match ds with
  | [] => let? d := f [("user_id", CStr user_id)] in Some [d]
  | d :: t =>
      if owned_by user_id d then let? d' := f d in Some (d' :: t)
      else let? t' := upsert user_id f t in Some (d :: t')
  end.

Definition save_conversation (coll : option (list doc))
    (user_id mode conversation_text now : string) : bool * option (list doc) :=
  match coll with
  | None => (false, None)
  | Some ds =>
      let stored := conv_trim mode conversation_text in
      match upsert user_id (save_update mode stored now) ds with
      | Some ds' => (true, Some ds')
      | None => (false, Some ds)
      end
  end.

(** [get_conversation]; a non-dict [conversations] raises on [.get] and
    the [except] returns [''].  A stored sub-document is returned as is. *)
Definition get_conversation (coll : option (list doc)) (user_id mode : string) : cval :=
  match coll with
  | None => CStr ""
  | Some ds =>
      match find (owned_by user_id) ds with
      | None => CStr ""
      | Some d =>
          match Users.dict_get d "conversations" with
          | Some (CDoc f) =>
              match Users.dict_get f mode with Some v => v | None => CStr "" end
          | Some (CStr _) | None => CStr ""
          end
      end
  end.

End Conversations.

(* ================================================================== *)
(** ** Level helpers of app.py *)

Module AppLevel.

(** [get_xp_for_next_level(current_level)] *)
Definition get_xp_for_next_level (current_level : Z) : Z :=
  Level.xp_threshold_for_level (current_level + 1) - Level.xp_threshold_for_level current_level.

End AppLevel.

(* ================================================================== *)
(** ** Observations on badges *)

Module BadgeObs.
Import Users.

(** Badge [(vt, req)] is due for [user] with [achievements]: its
    [current] value is an [int] and reaches [req]. *)
Definition badge_due (user : user) (achievements : list (string * aval)) (vt : string)
    (req : Z) : Prop :=
  match current_value user achievements vt with
  | Some current => req <= current
  | None => False
  end.

(** The stored level of user [uid] is the one [calculate_level_from_xp]
    gives for its stored [total_xp] (vacuous when there is no such user). *)
Definition level_consistent (coll : option (list user)) (uid : string) : Prop :=
  match coll with
  | Some us =>
      match find_user us uid with
      | Some v => u_level v = Some (Level.calculate_level_from_xp
                                      (match u_total_xp v with Some x => x | None => 0 end))
      | None => True
      end
  | None => True
  end.

(** The ids in a user document's [achievements.badges_earned]. *)
Definition user_earned (u : user) : list string :=
  match u_achievements u with
  | Some (ADict e) => earned_of e
  | _ => []
  end.

End BadgeObs.

(* ================================================================== *)
(** ** Login streak and activity counters ([update_login_streak],
       [increment_activity]) *)

Module Activity.
Import Users.

(** An exception raised inside a [try]. *)
Definition raise {A} : M A := fun us => (None, us).

(** [achievements.get(k, default)] used as an [int]: [None] when the
    stored value is not one, so that [+] or [max] on it raises. *)
Definition num_or_default (o : option aval) (default : Z) : option Z :=
  match o with
  | None => Some default
  | Some (ANum z) => Some z
  | Some _ => None
  end.

(** [x == s] for a stored value [x] and a string [s]. *)
Definition is_str (o : option aval) (s : string) : bool :=
  match o with
  | Some (AStr t) => String.eqb t s
  | _ => false
  end.

(** [update_login_streak(user_id)], with [today] and [yesterday] the
    dates [datetime.now()] gives. *)
Definition update_login_streak_m (uid today yesterday : string) : M unit :=
  catch_m (
    ou <- find_one uid ;;
    match ou with
    | None => ret tt
    | Some user =>
        let '(achievements, reset) :=
          match u_achievements user with
          | None => (init_user_achievements, false)
          | Some (ADict e) => (e, false)
          | Some ANonDict => (init_user_achievements, true)
          end in
        _ <- (if reset
              then update_one uid (fun u => Some (set_achievements (ADict init_user_achievements) u))
              else ret tt) ;;
        let last_login := dict_get achievements "last_login" in
        if is_str last_login today then ret tt
        else
          let streak := num_or_default (dict_get achievements "daily_login_streak") 0 in
          match (if is_str last_login yesterday then option_map (fun s => s + 1) streak
                 else Some 1) with
          | None => raise
          | Some streak =>
              match num_or_default (dict_get achievements "max_login_streak") 0 with
              | None => raise
              | Some old_max =>
                  let max_streak := Z.max streak old_max in
                  _ <- update_one uid (fun u =>
                         let? u1 := set_ach_field "daily_login_streak" (ANum streak) u in
                         let? u2 := set_ach_field "max_login_streak" (ANum max_streak) u1 in
                         set_ach_field "last_login" (AStr today) u2) ;;
                  _ <- check_and_award_badges_m uid ;;
                  ret tt
              end
          end
    end) tt.

Definition update_login_streak (coll : option (list user)) (uid today yesterday : string)
  : option (list user) :=
  match coll with
  | None => None
  | Some us => Some (snd (update_login_streak_m uid today yesterday us))
  end.

(** The activity names the callers pass to [increment_activity] (app.py
    passes only these string literals). *)
Inductive activity := Repeat | Spelling | Conversation | Roleplay | HighPronunciation | Vocabulary.

Definition activity_name (a : activity) : string :=
  match a with
  | Repeat => "repeat"
  | Spelling => "spelling"
  | Conversation => "conversation"
  | Roleplay => "roleplay"
  | HighPronunciation => "high_pronunciation"
  | Vocabulary => "vocabulary"
  end.

(** [{'$inc': {'achievements.<k>': amount}}]: creates the sub-document
    or the field when absent; fails on a non-numeric field or a
    non-document [achievements]. *)
Definition inc_ach_field (k : string) (amount : Z) (u : user) : option user :=
  match u_achievements u with
  | None => Some (set_achievements (ADict [(k, ANum amount)]) u)
  | Some (ADict e) =>
      match dict_get e k with
      | None => Some (set_achievements (ADict (dict_set e k (ANum amount))) u)
      | Some (ANum z) => Some (set_achievements (ADict (dict_set e k (ANum (z + amount)))) u)
      | Some _ => None
      end
  | Some ANonDict => None
  end.

Definition increment_activity_m (uid : string) (a : activity) (amount : Z) : M unit :=
  catch_m (
    _ <- update_one uid (inc_ach_field (activity_name a ++ "_count") amount) ;;
    _ <- check_and_award_badges_m uid ;;
    ret tt) tt.

Definition increment_activity (coll : option (list user)) (uid : string) (a : activity)
    (amount : Z) : option (list user) :=
  match coll with
  | None => None
  | Some us => Some (snd (increment_activity_m uid a amount us))
  end.

(** The value stored under [achievements.<k>] of user [uid]. *)
Definition stored_ach (coll : option (list user)) (uid k : string) : option aval :=
  match coll with
  | Some us =>
      match find_user us uid with
      | Some v => match u_achievements v with
                  | Some (ADict e) => dict_get e k
                  | _ => None
                  end
      | None => None
      end
  | None => None
  end.

End Activity.

(* ================================================================== *)
(** ** Weekly XP and the migration helpers ([update_weekly_xp],
       [backfill_weekly_xp], [migrate_all_users_levels_and_badges]) *)

Module Weekly.
Import Users Leaderboard.

Definition set_weekly (w : weekly) (u : user) : user :=
  mk_user (u_id u) (u_username u) (u_name u) (u_class u) (u_division u)
    (u_user_type u) (u_total_xp u) (u_level u) (u_achievements u) (Some w)
    (u_daily u) (u_security_question u) (u_security_answer u).

Definition set_level (level : Z) (u : user) : user :=
  mk_user (u_id u) (u_username u) (u_name u) (u_class u) (u_division u)
    (u_user_type u) (u_total_xp u) (Some level) (u_achievements u)
    (u_weekly_xp u) (u_daily u) (u_security_question u) (u_security_answer u).

(** [{'$inc': {'weekly_xp.<week>': xp}}]; [week] is the value of
    [get_week_key()], ["<year>-W<ww>"], which holds no dot, so the path
    names one key of [weekly_xp].  Fails when [weekly_xp] is not a
    document. *)
Definition inc_weekly (week : string) (xp : Z) (u : user) : option user :=
  match u_weekly_xp u with
  | None => Some (set_weekly (WDict [(week, xp)]) u)
  | Some (WDict m) => Some (set_weekly (WDict (dict_set m week (get_or (dict_get m week) 0 + xp))) u)
  | Some WNonDict => None
  end.

(** [{'$set': {'weekly_xp.<week>': x}}] *)
Definition set_weekly_field (week : string) (x : Z) (u : user) : option user :=
  match u_weekly_xp u with
  | None => Some (set_weekly (WDict [(week, x)]) u)
  | Some (WDict m) => Some (set_weekly (WDict (dict_set m week x)) u)
  | Some WNonDict => None
  end.

(** [update_weekly_xp(user_id, xp_to_add)] in week [week]. *)
Definition update_weekly_xp_m (uid week : string) (xp_to_add : Z) : M unit :=
  if xp_to_add <=? 0 then ret tt
  else catch_m (update_one uid (inc_weekly week xp_to_add)) tt.

Definition update_weekly_xp (coll : option (list user)) (uid week : string) (xp_to_add : Z)
  : option (list user) :=
  match coll with
  | None => None
  | Some us => Some (snd (update_weekly_xp_m uid week xp_to_add us))
  end.

(** [find({'user_type': {'$ne': 'teacher'}})]: an absent [user_type]
    matches. *)
Definition not_teacher (u : user) : bool :=
  match u_user_type u with
  | Some t => negb (String.eqb t "teacher")
  | None => true
  end.

(** The test of the [backfill_weekly_xp] loop body. *)
Definition needs_seed (week : string) (user : user) : bool :=
  match u_weekly_xp user with
  | Some (WDict m) => match dict_get m week with Some _ => false | None => true end
  | Some WNonDict | None => true
  end && (0 <? get_or (u_total_xp user) 0).

Fixpoint backfill_loop (week : string) (l : list user) : M unit :=
  match l with
  | [] => ret tt
  | user :: t =>
      _ <- (if needs_seed week user
            then update_one (u_id user) (set_weekly_field week (get_or (u_total_xp user) 0))
            else ret tt) ;;
      backfill_loop week t
  end.

(** [backfill_weekly_xp()]: one [try] around the whole loop, over the
    list read before the loop. *)
Definition backfill_weekly_xp (coll : option (list user)) (week : string) : option (list user) :=
  match coll with
  | None => None
  | Some us => Some (snd (catch_m (backfill_loop week (filter not_teacher us)) tt us))
  end.

(** The [$set] of one migrated user, computed from the listed document
    [user] and applied to the stored one.  Setting an absent
    [security_question] or [security_answer] to [None] leaves the
    [option] fields of this model as they are. *)
Definition migrate_updates (user : user) (u : Users.user) : option Users.user :=
  let correct_level := Level.calculate_level_from_xp (get_or (u_total_xp user) 0) in
  let u1 := set_level correct_level u in
  Some (match u_achievements user with
        | Some ANonDict => set_achievements (ADict init_user_achievements) u1
        | _ => u1
        end).

(** The inner [try] of the migration loop for one user. *)
Definition migrate_one (user : user) : M unit :=
  _ <- update_one (u_id user) (migrate_updates user) ;;
  _ <- check_and_award_badges_m (u_id user) ;;
  ret tt.

Fixpoint migrate_loop (l : list user) (migrated errors : Z) (us : list user)
  : (Z * Z) * list user :=
  match l with
  | [] => ((migrated, errors), us)
  | user :: t =>
      match migrate_one user us with
      | (Some _, us') => migrate_loop t (migrated + 1) errors us'
      | (None, us') => migrate_loop t migrated (errors + 1) us'
      end
  end.

Definition migrate_all_users_levels_and_badges (coll : option (list user))
  : (Z * Z) * option (list user) :=
  match coll with
  | None => ((0, 0), None)
  | Some us =>
      let all_users := filter not_teacher us in
      let (r, us') := migrate_loop all_users 0 0 us in (r, Some us')
  end.

(** The weekly XP of user [uid] for [week] as the leaderboard reads it. *)
Definition weekly_of (coll : option (list user)) (uid week : string) : Z :=
  match coll with
  | Some us =>
      match find_user us uid with
      | Some u => match u_weekly_xp u with
                  | Some (WDict m) => get_or (dict_get m week) 0
                  | _ => 0
                  end
      | None => 0
      end
  | None => 0
  end.

End Weekly.

(* ================================================================== *)
(** ** Answer comparison of [app.py] ([compare_words], [compare_spelling]) *)

Module Compare.

(** The [status] of one entry, with ["typed"] / ["spoken"] when
    incorrect. *)
Inductive letter_status := LCorrect | LIncorrect (typed : ascii) | LMissing.
Inductive word_status := WCorrect | WIncorrect (spoken : string) | WMissing.

(** One iteration of the [for i in range(max_len)] loop; [correct[i]]
    exists exactly when [i < len(correct)]. *)
Definition spelling_entry (student correct : string) (i : nat) : list (ascii * letter_status) :=
  match String.get i correct with
  | Some correct_letter =>
      match String.get i student with
      | Some student_letter =>
          if Ascii.eqb student_letter correct_letter
          then [(correct_letter, LCorrect)]
          else [(correct_letter, LIncorrect student_letter)]
      | None => [(correct_letter, LMissing)]
      end
  | None => []
  end.

Definition compare_spelling (student_spelling correct_word : string)
  : list (ascii * letter_status) :=
  let student := Py.strip (Py.lower student_spelling) in
  let correct := Py.strip (Py.lower correct_word) in
  let max_len := Nat.max (String.length student) (String.length correct) in
  flat_map (spelling_entry student correct) (seq 0 max_len).

(** [s.split()] with no separator: the maximal runs of non-whitespace
    characters. *)
Fixpoint ws_pieces (s : string) : list string :=
  match s with
  | EmptyString => [EmptyString]
  | String c r =>
      let rest := ws_pieces r in
      if Py.is_space c then EmptyString :: rest
      else match rest with
           | h :: t => String c h :: t
           | [] => [String c EmptyString]
           end
  end.

Definition split_ws (s : string) : list string :=
  filter (fun w => negb (String.eqb w EmptyString)) (ws_pieces s).

(** [e['status'] == 'correct'] *)
Definition is_correct (e : ascii * letter_status) : bool :=
  match snd e with LCorrect => true | _ => false end.

Section CompareWords.

(** The matching-block size of [SequenceMatcher], as in [Scoring]. *)
Variable matching_size : string -> string -> nat.

(** One iteration of [for i, correct_word in enumerate(correct_words)]. *)
Definition word_entry (student_words : list string) (i : nat) (correct_word : string)
  : string * word_status :=
  match nth_error student_words i with
  | Some student_word =>
      let similarity := Scoring.ratio matching_size student_word correct_word in
      if Qle_bool (4 # 5) similarity then (correct_word, WCorrect)
      else (correct_word, WIncorrect student_word)
  | None => (correct_word, WMissing)
  end.

Definition compare_words (student_text correct_text : string) : list (string * word_status) :=
  let student_words := split_ws (Py.lower student_text) in
  let correct_words := split_ws (Py.lower correct_text) in
  map (fun '(i, correct_word) => word_entry student_words i correct_word)
    (combine (seq 0 (List.length correct_words)) correct_words).

End CompareWords.

End Compare.

(* ================================================================== *)
(** ** Teachers and admins: sign-up, approval, password resets, login *)

Module Staff.
Import Users Account.

(** The scalar BSON values the code reads or writes in a teacher or
    admin document (floats, arrays and sub-documents are not modelled). *)
Inductive sval :=
| SStr (s : string)
| SBool (b : bool)
| SNum (z : Z)
| SNull.

(** Python [==] on these values ([True == 1] as in Python). *)
Definition sval_eqb (x y : sval) : bool :=
  match x, y with
  | SStr a, SStr b => String.eqb a b
  | SBool a, SBool b => Bool.eqb a b
  | SNum a, SNum b => Z.eqb a b
  | SBool a, SNum b | SNum b, SBool a => Z.eqb (if a then 1 else 0) b
  | SNull, SNull => true
  | _, _ => false
  end.

(** A document: its [_id] and its other fields. *)
Record sdoc := mk_sdoc { d_id : string; d_fields : list (string * sval) }.

(** [{'$unset': {k: ''}}] on the fields of a document. *)
Definition dict_unset (fs : list (string * sval)) (k : string) : list (string * sval) :=
  filter (fun kv => negb (String.eqb (fst kv) k)) fs.

(** [{'$set': sets, '$unset': unsets}] *)
Definition set_unset (sets : list (string * sval)) (unsets : list string)
    (fs : list (string * sval)) : list (string * sval) :=
  fold_left dict_unset unsets (fold_left (fun acc kv => dict_set acc (fst kv) (snd kv)) sets fs).

(** [update_one({'_id': id}, update)]: the first document with that
    [_id] is rewritten; no match changes nothing. *)
Fixpoint update_by_id (id : string) (f : list (string * sval) -> list (string * sval))
    (ds : list sdoc) : list sdoc :=
  match ds with
  | [] => []
  | d :: t =>
      if String.eqb (d_id d) id then mk_sdoc (d_id d) (f (d_fields d)) :: t
      else d :: update_by_id id f t
  end.

(** [insert_one(doc)]: [DuplicateKeyError] when the [_id] is taken,
    otherwise the document is appended. *)
Definition insert_one (d : sdoc) (ds : list sdoc) : option (list sdoc) :=
  if existsb (fun e => String.eqb (d_id e) (d_id d)) ds then None else Some (ds ++ [d])%list.

(** [find({k: v})] and [find_one({k: v})] *)
Definition field_is (k : string) (v : sval) (d : sdoc) : bool :=
  match dict_get (d_fields d) k with Some w => sval_eqb w v | None => false end.

Definition find_eq (k : string) (v : sval) (ds : list sdoc) : list sdoc :=
  filter (field_is k v) ds.

Definition find_by_id (ds : list sdoc) (id : string) : option sdoc :=
  find (fun d => String.eqb (d_id d) id) ds.

(** [is_hashed(stored)] *)
Definition is_hashed (stored : string) : bool :=
  String.prefix "pbkdf2:" stored || String.prefix "scrypt:" stored.

Section Hashing.

Variable hash_internal : string -> string -> string -> string.
Variable method_supported : string -> bool.

Definition hash_password (salt plain_text : string) : string :=
  generate_password_hash hash_internal salt plain_text.

(** [check_pw(stored, provided)] on a stored value of any type: for a
    non-string [check_password_hash] raises and the fallback compares
    it with the (string) password, which is [False]. *)
Definition check_pw_val (stored : sval) (provided : string) : bool :=
  match stored with
  | SStr s => check_pw hash_internal method_supported s provided
  | _ => false
  end.

(** *** Teacher collection *)

Definition create_teacher_request (coll : option (list sdoc))
    (teacher_id username password name salt now : string)
    : option sdoc * option (list sdoc) :=
  match coll with
  | None => (None, None)
  | Some ds =>
      let teacher := mk_sdoc teacher_id
        [("username", SStr username); ("password", SStr (hash_password salt password));
         ("name", SStr name); ("status", SStr "pending");
         ("created_at", SStr now); ("last_active", SStr now)] in
      match insert_one teacher ds with
      | Some ds' => (Some teacher, Some ds')
      | None => (None, Some ds)
      end
  end.

Definition teacher_update (coll : option (list sdoc)) (teacher_id : string)
    (sets : list (string * sval)) (unsets : list string) : bool * option (list sdoc) :=
  match coll with
  | None => (false, None)
  | Some ds => (true, Some (update_by_id teacher_id (set_unset sets unsets) ds))
  end.

Definition approve_teacher (coll : option (list sdoc)) (teacher_id : string) :=
  teacher_update coll teacher_id [("status", SStr "approved")] [].

Definition reject_teacher (coll : option (list sdoc)) (teacher_id : string) :=
  teacher_update coll teacher_id [("status", SStr "rejected")] [].

Definition get_pending_teachers (coll : option (list sdoc)) : list sdoc :=
  match coll with None => [] | Some ds => find_eq "status" (SStr "pending") ds end.

Definition get_teacher_by_username (coll : option (list sdoc)) (username : string)
  : option sdoc :=
  match coll with None => None | Some ds => find (field_is "username" (SStr username)) ds end.

Definition request_teacher_password_reset (coll : option (list sdoc)) (teacher_id now : string) :=
  teacher_update coll teacher_id
    [("password_reset_requested", SBool true); ("password_reset_at", SStr now)] [].

Definition get_teachers_requesting_password_reset (coll : option (list sdoc)) : list sdoc :=
  match coll with None => [] | Some ds => find_eq "password_reset_requested" (SBool true) ds end.

Definition clear_password_reset_request (coll : option (list sdoc)) (teacher_id : string) :=
  teacher_update coll teacher_id [] ["password_reset_requested"; "password_reset_at"].

Definition admin_reset_teacher_password (coll : option (list sdoc))
    (teacher_id new_password salt : string) :=
  teacher_update coll teacher_id [("password", SStr (hash_password salt new_password))]
    ["password_reset_requested"; "password_reset_at"].

(** [rehash_teacher_password] and [update_teacher(tid, {})] *)
Definition rehash_teacher_password (coll : option (list sdoc)) (teacher_id plain salt : string) :=
  snd (teacher_update coll teacher_id [("password", SStr (hash_password salt plain))] []).

Definition update_teacher_touch (coll : option (list sdoc)) (teacher_id now : string) :=
  snd (teacher_update coll teacher_id [("last_active", SStr now)] []).

(** The teacher branch of the [/login] route ([app.py]); the result is
    the JSON answer, [LoginOk tid] the one that stores [tid] in the
    session.  [teacher['password']] on a document without one raises
    [KeyError] (a server error). *)
Inductive login_result :=
| LoginPending | LoginRejected | LoginOk (tid : string) | LoginIncorrect
| LoginNotFound | LoginError.

Definition teacher_login (coll : option (list sdoc)) (username password salt now : string)
  : login_result * option (list sdoc) :=
  match get_teacher_by_username coll username with
  | None => (LoginNotFound, coll)
  | Some teacher =>
      let status := Leaderboard.get_or (dict_get (d_fields teacher) "status") (SStr "approved") in
      if sval_eqb status (SStr "pending") then (LoginPending, coll)
      else if sval_eqb status (SStr "rejected") then (LoginRejected, coll)
      else match dict_get (d_fields teacher) "password" with
           | None => (LoginError, coll)
           | Some stored =>
               if check_pw_val stored password then
                 let coll1 :=
                   match stored with
                   | SStr s => if is_hashed s then coll
                               else rehash_teacher_password coll (d_id teacher) password salt
                   | _ => coll
                   end in
                 (LoginOk (d_id teacher), update_teacher_touch coll1 (d_id teacher) now)
               else (LoginIncorrect, coll)
           end
  end.

(** *** Admin collection *)

Definition create_admin (coll : option (list sdoc))
    (admin_id username password : string) (pre_hashed : bool) (salt now : string)
    : option sdoc * option (list sdoc) :=
  match coll with
  | None => (None, None)
  | Some ds =>
      let admin := mk_sdoc admin_id
        [("username", SStr username);
         ("password", SStr (if pre_hashed then password else hash_password salt password));
         ("role", SStr "admin"); ("created_at", SStr now); ("last_active", SStr now)] in
      match insert_one admin ds with
      | Some ds' => (Some admin, Some ds')
      | None => (None, Some ds)
      end
  end.

Definition get_admin_by_username (coll : option (list sdoc)) (username : string)
  : option sdoc :=
  match coll with None => None | Some ds => find (field_is "username" (SStr username)) ds end.

(** Python truthiness of a stored value. *)
Definition truthy_sval (v : sval) : bool :=
  match v with
  | SStr s => Py.truthy s
  | SBool b => b
  | SNum z => negb (Z.eqb z 0)
  | SNull => false
  end.

(** The migration loop of [ensure_default_admin] over the documents
    [find({})] returned: [pw = admin.get('password', '')]; a truthy
    non-string makes [is_hashed] raise, which ends the loop (the
    updates already made stay).  [salt_of id] is the salt drawn when the
    password of admin [id] is hashed. *)
Fixpoint rehash_admins (salt_of : string -> string) (snapshot cur : list sdoc) : list sdoc :=
  match snapshot with
  | [] => cur
  | admin :: rest =>
      let pw := Leaderboard.get_or (dict_get (d_fields admin) "password") (SStr "") in
      if truthy_sval pw then
        match pw with
        | SStr s =>
            if is_hashed s then rehash_admins salt_of rest cur
            else rehash_admins salt_of rest
                   (update_by_id (d_id admin)
                      (set_unset [("password", SStr (hash_password (salt_of (d_id admin)) s))] [])
                      cur)
        | _ => cur
        end
      else rehash_admins salt_of rest cur
  end.

Definition ensure_default_admin (coll : option (list sdoc)) (salt_of : string -> string)
    (now : string) : option (list sdoc) :=
  match coll with
  | None => None
  | Some ds =>
      if (List.length ds =? 0)%nat
      then snd (create_admin coll "admin_001" "admin" "admin123" false (salt_of "admin_001") now)
      else Some (rehash_admins salt_of ds ds)
  end.

End Hashing.

(** The password [ensure_default_admin] rehashes: a non-empty string
    that [is_hashed] does not recognise. *)
Definition plain_pw (a : sdoc) : option string :=
  match dict_get (d_fields a) "password" with
  | Some (SStr s) => if Py.truthy s && negb (is_hashed s) then Some s else None
  | _ => None
  end.

(** The stored password, if any, is a string. *)
Definition pw_is_str (a : sdoc) : Prop :=
  forall v, dict_get (d_fields a) "password" = Some v -> exists s, v = SStr s.

End Staff.

(* ================================================================== *)
(** ** Deleting a conversation context *)

Module ConvDelete.
Import Conversations.



Section Delete.

(** MongoDB's verdict on an [$unset] path with a field name starting
    with [$] (the positional operators [$], [$[]] and [$[<id>]]): whether
    the update raises, given the document the query [{'user_id': uid}]
    matched ([None]: no match).  The positional [$] raises on a matched
    document (the query has no array condition), [$[<id>]] raises for
    want of [arrayFilters], [$[]] raises on a non-array.  A path with no
    such field name raises only for an empty field name. *)
Variable dollar_path_error : list string -> option doc -> bool.


End Delete.

End ConvDelete.

(* ================================================================== *)
(** ** The mistake tracker *)

Module Mistakes.
Import Users.

Section Tracker.

(** The type of [mistake_data] (the caller's dict, stored as is). *)
Variable E : Type.

(** [{'data': mistake_data, 'time': ...}] *)
Record entry := mk_entry { m_data : E; m_time : string }.

(** A value of the [mistakes] dict: a list of entries, an [int], a
    [bool], a [str] or some other document. *)
Inductive mval :=
| MList (l : list entry)
| MInt (z : Z)
| MBool (b : bool)
| MStr (s : string)
| MDoc.

(** The [mistakes] field: a dict, or a value of another type. *)
Inductive mfield :=
| MDict (m : list (string * mval))
| MNonDict.

(** The document of a user as [log_mistake] uses it. *)
Record muser := mk_muser { mu_id : string; mu_mistakes : option mfield }.

Definition default_mistakes : list (string * mval) :=
  [("pronunciation", MList []); ("spelling", MList []); ("vocabulary", MList []);
   ("total", MInt 0)].

(** The body of the [try] on the [mistakes] dict: [.append] on a value
    that is not a list and [+ 1] on a [total] that is not a number
    raise. *)
Definition add_mistake (mistake_type : string) (e : entry) (mistakes : list (string * mval))
  : option (list (string * mval)) :=
  let? m1 := match dict_get mistakes mistake_type with
             | None => Some mistakes
             | Some (MList l) =>
                 Some (dict_set mistakes mistake_type (MList (Py.last_n 50 (l ++ [e])%list)))
             | Some _ => None
             end in
  let? total := match Leaderboard.get_or (dict_get m1 "total") (MInt 0) with
                | MInt z => Some z
                | MBool b => Some (if b then 1 else 0)
                | _ => None
                end in
  Some (dict_set m1 "total" (MInt (total + 1))).

(** [update_one({'_id': uid}, {'$set': {'mistakes': m}})] *)
Fixpoint set_mistakes (uid : string) (m : list (string * mval)) (us : list muser)
  : list muser :=
  match us with
  | [] => []
  | u :: t =>
      if String.eqb (mu_id u) uid then mk_muser (mu_id u) (Some (MDict m)) :: t
      else u :: set_mistakes uid m t
  end.

Definition log_mistake (coll : option (list muser)) (user_id mistake_type : string)
    (mistake_data : E) (now : string) : option (list muser) :=
  match coll with
  | None => None
  | Some us =>
      match find (fun u => String.eqb (mu_id u) user_id) us with
      | None => Some us
      | Some user =>
          let mistakes := match mu_mistakes user with
                          | None => Some default_mistakes
                          | Some (MDict m) => Some m
                          | Some MNonDict => None
                          end in
          match (let? m := mistakes in add_mistake mistake_type (mk_entry mistake_data now) m) with
          | Some m' => Some (set_mistakes user_id m' us)
          | None => Some us
          end
      end
  end.

(** [log_mistake] called for each [(mistake_type, mistake_data, now)]
    in turn. *)
Fixpoint log_all (coll : option (list muser)) (user_id : string)
    (calls : list (string * E * string)) : option (list muser) :=
  match calls with
  | [] => coll
  | (t, d, now) :: rest => log_all (log_mistake coll user_id t d now) user_id rest
  end.

(** The entries of the calls of one type, in call order. *)
Definition entries_of (t : string) (calls : list (string * E * string)) : list entry :=
  map (fun c => mk_entry (snd (fst c)) (snd c))
      (filter (fun c => String.eqb (fst (fst c)) t) calls).

(** The [mistakes] dict holding, for each tracked type, the last 50
    entries of that type among [calls], and their number as [total]. *)
Definition tracked (calls : list (string * E * string)) : list (string * mval) :=
  [("pronunciation", MList (Py.last_n 50 (entries_of "pronunciation" calls)));
   ("spelling", MList (Py.last_n 50 (entries_of "spelling" calls)));
   ("vocabulary", MList (Py.last_n 50 (entries_of "vocabulary" calls)));
   ("total", MInt (Z.of_nat (List.length calls)))].

End Tracker.

Arguments MList {E}.
Arguments MInt {E}.
Arguments MBool {E}.
Arguments MStr {E}.
Arguments MDoc {E}.
Arguments MDict {E}.
Arguments MNonDict {E}.
Arguments mk_entry {E}.
Arguments mk_muser {E}.
Arguments mu_id {E}.
Arguments mu_mistakes {E}.
Arguments m_data {E}.
Arguments m_time {E}.

End Mistakes.

(* ================================================================== *)
(** ** Creating a student *)

Module NewUser.
Import Users.

(** [create_user(user_id, username, password, user_type)] on the fields
    the user record tracks (the password hash, [total_stars],
    [created_at], [last_active], [mode_stats] and [mistakes] are not
    among them).  [daily_challenges: {}] and [security_question: None]
    read as the absent field does.  [insert_one] raises
    [DuplicateKeyError] when the [_id] is taken, which returns [None]. *)
Definition create_user (coll : option (list user)) (user_id username user_type : string)
  : option user * option (list user) :=
  match coll with
  | None => (None, None)
  | Some us =>
      let user := mk_user user_id (Some username) None None None (Some user_type)
                    (Some 0) (Some 1) (Some (ADict init_user_achievements))
                    None None None None in
      if existsb (fun u => String.eqb (u_id u) user_id) us then (None, Some us)
      else (Some user, Some (us ++ [user])%list)
  end.

End NewUser.

(* ================================================================== *)
(** ** The remaining lookups, updates and deletions *)

Module Crud.
Import Users Staff.



Section Hashing.

Variable hash_internal : string -> string -> string -> string.


End Hashing.











End Crud.

(* ================================================================== *)
(** ** Concrete documents used to evaluate the code *)

Module Fixtures.
Import Users Challenges.

(** A slot whose target has been reached. *)
Definition done_slot (t : string) (target : Z) : slot := mk_slot t target target true 5.

(** A weekly set with all three challenges completed. *)
Definition done_set (week : string) (streak : Z) : challenges :=
  mk_challenges week (done_slot "practice" 5) (done_slot "learning" 10)
    (done_slot "mastery" 3) 3 streak.

Definition student (uid : string) (xp level : Z) (a : option ach)
    (daily : option challenges) : user :=
  mk_user uid (Some uid) (Some uid) (Some "5") (Some "A") (Some "student")
    (Some xp) (Some level) a (Some (WDict [])) daily None None.

Definition xp_of (coll : option (list user)) (uid : string) : option Z :=
  match coll with
  | Some us => match find_user us uid with Some u => u_total_xp u | None => None end
  | None => None
  end.

Definition daily_of (coll : option (list user)) (uid : string) : option challenges :=
  match coll with
  | Some us => match find_user us uid with Some u => u_daily u | None => None end
  | None => None
  end.

(** A class-5 student with [weekly] XP in week 2026-W42 and [total] XP. *)
Definition lb_student (uid : string) (weekly total : Z) : user :=
  mk_user uid (Some uid) (Some uid) (Some "5") (Some "A") (Some "student")
    (Some total) (Some 1) None (Some (WDict [("2026-W42", weekly)])) None None None.

(** Students A (50, 500), B (50, 300) and C (80, 100), in this order. *)
Definition lb_abc : list user :=
  [lb_student "A" 50 500; lb_student "B" 50 300; lb_student "C" 80 100].

(** The set of week 2026-W41 after the three challenges were completed
    one after the other, as [get_daily_challenges] and
    [update_challenge_progress] build it. *)
Definition w41_done : option challenges :=
  let c1 := fst (progress_step "practice" 5 (current_challenges "2026-W41" None)) in
  let c2 := fst (progress_step "learning" 10 (current_challenges "2026-W41" (Some c1))) in
  Some (fst (progress_step "mastery" 3 (current_challenges "2026-W41" (Some c2)))).

(** A student at 40 XP whose current-week set is complete. *)
Definition ch_store : list user :=
  [student "u" 40 2 (Some (ADict init_user_achievements)) (Some (done_set "2026-W42" 0))].

(** [s * n] *)
Fixpoint repeat_str (n : nat) (s : string) : string :=
  match n with
  | O => EmptyString
  | S k => s ++ repeat_str k s
  end.

(** One real line followed by 60 blank lines, each holding one space. *)
Definition blank_tail_text : string :=
  "Student: hi" ++ repeat_str 60 (String Py.nl " ").

End Fixtures.

(* ================================================================== *)
(** * Proofs *)

(** ** Levels *)

Module LevelFacts.
Import Level.

Lemma threshold_sum_closed (n : nat) :
  threshold_sum n = 25 * (2 ^ Z.of_nat n - 1).
Proof.
  induction n as [|k IH]; cbn [threshold_sum]; [reflexivity|].
  rewrite IH, Nat2Z.inj_succ, Z.pow_succ_r by lia. lia.
Qed.

Lemma threshold_closed (level : Z) :
  1 <= level -> xp_threshold_for_level level = 25 * (2 ^ (level - 1) - 1).
Proof.
  intros H. unfold xp_threshold_for_level.
  destruct (Z.leb_spec level 1).
  - replace level with 1 by lia. reflexivity.
  - rewrite threshold_sum_closed, Z2Nat.id by lia. reflexivity.
Qed.

Lemma threshold_mono (a b : Z) :
  1 <= a <= b -> xp_threshold_for_level a <= xp_threshold_for_level b.
Proof.
  intros H. rewrite !threshold_closed by lia.
  assert (2 ^ (a - 1) <= 2 ^ (b - 1)) by (apply Z.pow_le_mono_r; lia). lia.
Qed.

Lemma threshold_step (a : Z) :
  1 <= a -> xp_threshold_for_level (a + 1) = xp_threshold_for_level a + 25 * 2 ^ (a - 1).
Proof.
  intros H. rewrite !threshold_closed by lia.
  replace (a + 1 - 1) with (a - 1 + 1) by lia.
  rewrite Z.pow_add_r by lia. lia.
Qed.

Lemma threshold_lower_bound (a : Z) :
  1 <= a -> a - 1 <= xp_threshold_for_level a.
Proof.
  intros H. rewrite threshold_closed by lia.
  assert (a - 1 < 2 ^ (a - 1)) by (apply Z.pow_gt_lin_r; lia). lia.
Qed.

(** The loop, started at a level not above the answer [L] with enough
    fuel, returns [L]. *)
Lemma calc_loop_spec (fuel : nat) (level xp L : Z) :
  1 <= level <= L ->
  xp_threshold_for_level L <= xp < xp_threshold_for_level (L + 1) ->
  (Z.to_nat (L - level) <= fuel)%nat ->
  calc_loop fuel level xp = L.
Proof.
  revert level. induction fuel as [|f IH]; intros level Hl Hx Hf; simpl.
  - lia.
  - destruct (Z.leb_spec (xp_threshold_for_level (level + 1)) xp) as [Hle|Hgt].
    + assert (level + 1 <= L).
      { destruct (Z.le_gt_cases (level + 1) L) as [|Hc]; [assumption|].
        assert (level = L) by lia. subst. lia. }
      apply IH; lia.
    + destruct (Z.eq_dec level L) as [|Hne]; [assumption|].
      assert (xp_threshold_for_level (level + 1) <= xp_threshold_for_level L)
        by (apply threshold_mono; lia).
      lia.
Qed.

Lemma calculate_level_spec (xp L : Z) :
  1 <= L ->
  xp_threshold_for_level L <= xp < xp_threshold_for_level (L + 1) ->
  calculate_level_from_xp xp = L.
Proof.
  intros HL Hx. unfold calculate_level_from_xp.
  apply calc_loop_spec; [lia|assumption|].
  pose proof (threshold_lower_bound L HL). lia.
Qed.

End LevelFacts.

Module LevelClaims.
Import Level LevelFacts.

(** Claim C3: for every level [>= 1], the level computed from that
    level's XP threshold is the level itself, and one XP below the
    threshold of a level [> 1] gives the level below; the thresholds of
    levels 2, 3, 4 and 5 are 25, 75, 175 and 375 XP. *)
Theorem level_threshold_roundtrip (level : Z) :
  1 <= level ->
  calculate_level_from_xp (xp_threshold_for_level level) = level /\
  (1 < level ->
   calculate_level_from_xp (xp_threshold_for_level level - 1) = level - 1) /\
  xp_threshold_for_level 2 = 25 /\ xp_threshold_for_level 3 = 75 /\
  xp_threshold_for_level 4 = 175 /\ xp_threshold_for_level 5 = 375.
Proof.
  intros H. split; [|split; [|repeat split; reflexivity]].
  - apply calculate_level_spec; [assumption|].
    rewrite threshold_step by assumption.
    assert (0 < 2 ^ (level - 1)) by (apply Z.pow_pos_nonneg; lia). lia.
  - intros Hgt. apply calculate_level_spec; [lia|].
    replace (level - 1 + 1) with level by lia.
    pose proof (threshold_step (level - 1)) as Hs.
    replace (level - 1 + 1) with level in Hs by lia.
    rewrite Hs by lia.
    assert (0 < 2 ^ (level - 1 - 1)) by (apply Z.pow_pos_nonneg; lia). lia.
Qed.

Lemma level_threshold_roundtrip_witness :
  1 <= 4 /\ calculate_level_from_xp (xp_threshold_for_level 4) = 4.
Proof.
  split; [lia|]. apply (proj1 (level_threshold_roundtrip 4 ltac:(lia))).
Defined.

End LevelClaims.

(** ** Star scoring *)

Module ScoringClaims.
Import Scoring.

Lemma Qle_bool_true (x y : Q) : (x <= y)%Q -> Qle_bool x y = true.
Proof. apply Qle_bool_iff. Qed.

Lemma Qle_bool_false (x y : Q) : (y < x)%Q -> Qle_bool x y = false.
Proof.
  intros H. destruct (Qle_bool x y) eqn:E; [|reflexivity].
  apply Qle_bool_iff in E. exfalso. apply (Qlt_not_le y x); assumption.
Qed.

(** Claim C2: in repeat mode the stars of an attempt follow the
    similarity ratio [r] of the lower-cased texts by the bands
    [r >= 0.9 -> 3], [0.75 <= r < 0.9 -> 2], [0.6 <= r < 0.75 -> 1],
    [r < 0.6 -> 0]; in spelling mode an exact match after
    lower-casing and stripping gives 3 stars whatever the ratio. *)
Theorem star_bands (matching_size : string -> string -> nat) (student correct : string) :
  let r := ratio matching_size (Py.lower student) (Py.lower correct) in
  ((9 # 10 <= r)%Q -> check_repeat_stars matching_size student correct = 3) /\
  ((3 # 4 <= r)%Q -> (r < 9 # 10)%Q -> check_repeat_stars matching_size student correct = 2) /\
  ((3 # 5 <= r)%Q -> (r < 3 # 4)%Q -> check_repeat_stars matching_size student correct = 1) /\
  ((r < 3 # 5)%Q -> check_repeat_stars matching_size student correct = 0) /\
  (Py.strip (Py.lower student) = Py.strip (Py.lower correct) ->
   check_spelling_stars matching_size student correct = 3).
Proof.
  intros r. unfold check_repeat_stars, repeat_stars. fold r.
  repeat split.
  - intros H. rewrite (Qle_bool_true _ _ H). reflexivity.
  - intros H1 H2. rewrite (Qle_bool_false _ _ H2), (Qle_bool_true _ _ H1). reflexivity.
  - intros H1 H2.
    assert (r < 9 # 10)%Q by (apply Qlt_trans with (3 # 4); [assumption|reflexivity]).
    rewrite (Qle_bool_false (9 # 10) r), (Qle_bool_false (3 # 4) r),
      (Qle_bool_true _ _ H1) by assumption. reflexivity.
  - intros H.
    assert (r < 3 # 4)%Q by (apply Qlt_trans with (3 # 5); [assumption|reflexivity]).
    assert (r < 9 # 10)%Q by (apply Qlt_trans with (3 # 5); [assumption|reflexivity]).
    rewrite (Qle_bool_false (9 # 10) r), (Qle_bool_false (3 # 4) r),
      (Qle_bool_false (3 # 5) r) by assumption. reflexivity.
  - intros H. unfold check_spelling_stars. rewrite H, String.eqb_refl. reflexivity.
Qed.

Lemma star_bands_witness :
  check_spelling_stars (fun _ _ => 0%nat) " Cat " "cat" = 3.
Proof.
  exact (proj2 (proj2 (proj2 (proj2 (star_bands (fun _ _ => 0%nat) " Cat " "cat"))))
           eq_refl).
Defined.

End ScoringClaims.

(** ** The users collection *)

Module UserFacts.
Import Users.

Lemma dict_get_set_same {A} (d : list (string * A)) (k : string) (v : A) :
  dict_get (dict_set d k v) k = Some v.
Proof.
  induction d as [|[k' v'] t IH]; simpl.
  - rewrite String.eqb_refl. reflexivity.
  - destruct (String.eqb_spec k' k) as [->|Hne]; simpl.
    + rewrite String.eqb_refl. reflexivity.
    + apply String.eqb_neq in Hne. rewrite Hne. exact IH.
Qed.

Lemma dict_get_set_other {A} (d : list (string * A)) (k k2 : string) (v : A) :
  k <> k2 -> dict_get (dict_set d k v) k2 = dict_get d k2.
Proof.
  intros Hne. induction d as [|[k' v'] t IH]; simpl.
  - apply String.eqb_neq in Hne. rewrite Hne. reflexivity.
  - destruct (String.eqb_spec k' k) as [->|Hne']; simpl.
    + apply String.eqb_neq in Hne. rewrite Hne. reflexivity.
    + rewrite IH. reflexivity.
Qed.

Lemma find_user_id (us : list user) (uid : string) (u : user) :
  find_user us uid = Some u -> u_id u = uid.
Proof.
  unfold find_user. intros H. apply find_some in H.
  destruct H as [_ H]. apply String.eqb_eq in H. exact H.
Qed.

(** [update_one] on the first match: the document read back is the
    rewritten one, and every other id reads as before. *)
Lemma update_first_found (us : list user) (uid : string) (f : user -> option user)
    (u u' : user) :
  find_user us uid = Some u -> f u = Some u' -> u_id u' = uid ->
  exists us', update_first uid f us = Some us' /\
    find_user us' uid = Some u' /\
    (forall v, v <> uid -> find_user us' v = find_user us v).
Proof.
  unfold find_user. intros Hf Hu Hid. induction us as [|w t IH]; simpl in *.
  - discriminate.
  - destruct (String.eqb_spec (u_id w) uid) as [Hw|Hw].
    + injection Hf as <-. rewrite Hu. eexists. split; [reflexivity|]. simpl.
      rewrite Hid, String.eqb_refl. split; [reflexivity|].
      intros v Hv. simpl. rewrite Hw.
      apply not_eq_sym, String.eqb_neq in Hv. rewrite Hv. reflexivity.
    + destruct (IH Hf) as [t' [Ht [Hfind Hother]]]. rewrite Ht.
      eexists. split; [reflexivity|]. simpl.
      destruct (String.eqb_spec (u_id w) uid); [contradiction|].
      split; [exact Hfind|].
      intros v Hv. simpl. rewrite Hother by assumption. reflexivity.
Qed.

Lemma update_first_absent (us : list user) (uid : string) (f : user -> option user) :
  find_user us uid = None -> update_first uid f us = Some us.
Proof.
  unfold find_user. induction us as [|w t IH]; simpl; [reflexivity|].
  destruct (String.eqb_spec (u_id w) uid); [discriminate|].
  intros H. rewrite (IH H). reflexivity.
Qed.

Lemma filter_all_false {A} (f : A -> bool) (l : list A) :
  (forall x, In x l -> f x = false) -> filter f l = [].
Proof.
  induction l as [|x t IH]; simpl; intros H; [reflexivity|].
  rewrite (H x (or_introl eq_refl)). apply IH. intros y Hy. apply H. right. exact Hy.
Qed.

Lemma str_mem_In (x : string) (l : list string) : str_mem x l = true <-> In x l.
Proof.
  unfold str_mem. rewrite existsb_exists. split.
  - intros [y [Hy Heq]]. apply String.eqb_eq in Heq. subst. exact Hy.
  - intros H. exists x. split; [exact H|]. apply String.eqb_refl.
Qed.

(** Re-running the badge loop with the new badges added to the earned
    list, over the same comparison values, awards nothing. *)
Lemma new_badges_again (u u' : user) (e e' : list (string * aval)) (earned : list string) :
  (forall b, In b ALL_BADGES ->
     current_value u' e' (snd (fst b)) = current_value u e (snd (fst b))) ->
  new_badges_of u' e' (earned ++ new_badges_of u e earned) = [].
Proof.
  intros Hcur. unfold new_badges_of at 1.
  rewrite filter_all_false; [reflexivity|].
  intros [[bid vt] req] Hin. pose proof (Hcur _ Hin) as Hc0. simpl in Hc0. simpl. rewrite Hc0.
  destruct (str_mem bid (earned ++ new_badges_of u e earned)) eqn:Hm; [reflexivity|].
  simpl. destruct (current_value u e vt) as [c|] eqn:Hc; [|reflexivity].
  destruct (Z.leb_spec req c) as [Hle|]; [|reflexivity].
  exfalso. assert (Hnot : ~ In bid (earned ++ new_badges_of u e earned)).
  { intros Hi. apply str_mem_In in Hi. congruence. }
  apply Hnot. apply in_or_app.
  destruct (str_mem bid earned) eqn:He.
  - left. apply str_mem_In. exact He.
  - right. unfold new_badges_of. apply in_map_iff. exists (bid, vt, req).
    split; [reflexivity|]. apply filter_In. split; [exact Hin|].
    rewrite He, Hc. simpl. apply Z.leb_le. exact Hle.
Qed.

End UserFacts.

Module BadgeFacts.
Import Users UserFacts.

Lemma u_id_set_achievements (a : ach) (u : user) : u_id (set_achievements a u) = u_id u.
Proof. reflexivity. Qed.

Lemma cab_step (us : list user) (uid : string) (u : user) :
  find_user us uid = Some u ->
  exists us1,
    check_and_award_badges_m uid us =
      (Some (new_badges_of u (effective_achievements u)
               (earned_of (effective_achievements u))), us1) /\
    find_user us1 uid = Some (cab_user u) /\
    (forall v, v <> uid -> find_user us1 v = find_user us v).
Proof.
  intros Hf. pose proof (find_user_id _ _ _ Hf) as Hid.
  unfold check_and_award_badges_m, catch_m, catch, check_and_award_badges_body,
    bind, find_one, ret, cab_user, effective_achievements.
  rewrite Hf.
  destruct (u_achievements u) as [[e|]|] eqn:Ha.
  - destruct (new_badges_of u e (earned_of e)) as [|b nb] eqn:Hnb.
    + exists us. try rewrite Ha. auto.
    + unfold update_one.
      destruct (update_first_found us uid
                  (set_ach_field "badges_earned" (AStrList (earned_of e ++ b :: nb)))
                  u (set_achievements (ADict (dict_set e "badges_earned"
                        (AStrList (earned_of e ++ b :: nb)))) u) Hf)
        as [us1 [H1 [H2 H3]]].
      { unfold set_ach_field. try rewrite Ha. reflexivity. }
      { rewrite u_id_set_achievements. exact Hid. }
      rewrite H1. exists us1. try rewrite Ha. auto.
  - unfold update_one.
    destruct (update_first_found us uid
                (fun u0 => Some (set_achievements (ADict init_user_achievements) u0))
                u (set_achievements (ADict init_user_achievements) u) Hf eq_refl)
      as [us1 [H1 [H2 H3]]].
    { rewrite u_id_set_achievements. exact Hid. }
    rewrite H1.
    destruct (new_badges_of u init_user_achievements (earned_of init_user_achievements))
      as [|b nb] eqn:Hnb.
    + exists us1. try rewrite Ha. auto.
    + set (u1 := set_achievements (ADict init_user_achievements) u) in *.
      set (v := AStrList (earned_of init_user_achievements ++ b :: nb)).
      destruct (update_first_found us1 uid (set_ach_field "badges_earned" v)
                  u1 (set_achievements (ADict (dict_set init_user_achievements
                        "badges_earned" v)) u) H2)
        as [us2 [H4 [H5 H6]]].
      { reflexivity. }
      { rewrite u_id_set_achievements. exact Hid. }
      rewrite H4. exists us2. try rewrite Ha. split; [reflexivity|]. split; [exact H5|].
      intros w Hw. rewrite H6, H3 by assumption. reflexivity.
  - destruct (new_badges_of u init_user_achievements (earned_of init_user_achievements))
      as [|b nb] eqn:Hnb.
    + exists us. try rewrite Ha. auto.
    + unfold update_one.
      set (v := AStrList (earned_of init_user_achievements ++ b :: nb)).
      destruct (update_first_found us uid (set_ach_field "badges_earned" v)
                  u (set_achievements (ADict (dict_set [] "badges_earned" v)) u) Hf)
        as [us1 [H1 [H2 H3]]].
      { unfold set_ach_field. try rewrite Ha. reflexivity. }
      { rewrite u_id_set_achievements. exact Hid. }
      rewrite H1. exists us1. try rewrite Ha. auto.
Qed.

Lemma current_value_badge_key (u : user) (e : list (string * aval)) (v : aval) (vt : string) :
  vt <> "badges_earned" ->
  current_value u (dict_set e "badges_earned" v) vt = current_value u e vt.
Proof.
  intros H. unfold current_value. rewrite dict_get_set_other by congruence. reflexivity.
Qed.

(** Every badge type reads a key other than [badges_earned], and an
    absent counter reads as the [0] of [init_user_achievements]. *)
Lemma badge_types_ok (b : string * string * Z) :
  In b ALL_BADGES ->
  snd (fst b) <> "badges_earned" /\
  (forall u, current_value u [] (snd (fst b)) =
             current_value u init_user_achievements (snd (fst b))).
Proof.
  intros H. simpl in H.
  repeat (destruct H as [<-|H]; [split; [discriminate|intros; reflexivity]|]).
  contradiction.
Qed.

Lemma new_badges_not_earned (u : user) (e : list (string * aval)) (earned : list string)
    (b : string) :
  In b (new_badges_of u e earned) -> ~ In b earned.
Proof.
  unfold new_badges_of. intros H Hin. apply in_map_iff in H.
  destruct H as [[[bid vt] req] [Heq Hf]]. simpl in Heq. subst bid.
  apply filter_In in Hf. destruct Hf as [_ Hp].
  apply str_mem_In in Hin. rewrite Hin in Hp. discriminate.
Qed.

Lemma effective_set_achievements (e : list (string * aval)) (u : user) :
  effective_achievements (set_achievements (ADict e) u) = e.
Proof. reflexivity. Qed.

Lemma current_value_set_achievements (a : ach) (u : user) e vt :
  current_value (set_achievements a u) e vt = current_value u e vt.
Proof. reflexivity. Qed.

Lemma new_badges_of_ext (u u' : user) (e : list (string * aval)) (l : list string) :
  (forall vt, current_value u' e vt = current_value u e vt) ->
  new_badges_of u' e l = new_badges_of u e l.
Proof.
  intros H. unfold new_badges_of. apply (f_equal (map (fun b => fst (fst b)))).
  apply filter_ext. intros [[bid vt] req]. rewrite H. reflexivity.
Qed.

Lemma earned_of_set (e : list (string * aval)) (l : list string) :
  earned_of (dict_set e "badges_earned" (AStrList l)) = l.
Proof. unfold earned_of. rewrite dict_get_set_same. reflexivity. Qed.

(** A second evaluation on the document left by the first awards nothing. *)
Lemma cab_user_again (u : user) :
  new_badges_of (cab_user u) (effective_achievements (cab_user u))
    (earned_of (effective_achievements (cab_user u))) = [].
Proof.
  unfold cab_user.
  destruct (new_badges_of u (effective_achievements u)
              (earned_of (effective_achievements u))) as [|b nb] eqn:Hnb.
  - destruct (u_achievements u) as [[e|]|] eqn:Ha.
    + exact Hnb.
    + rewrite effective_set_achievements.
      rewrite new_badges_of_ext with (u := u)
        by (intros; apply current_value_set_achievements).
      unfold effective_achievements in Hnb. rewrite Ha in Hnb. exact Hnb.
    + exact Hnb.
  - rewrite effective_set_achievements, earned_of_set.
    rewrite new_badges_of_ext with (u := u)
      by (intros; apply current_value_set_achievements).
    rewrite <- Hnb. apply new_badges_again.
    intros b' Hin. destruct (badge_types_ok b' Hin) as [Hk Hempty].
    rewrite current_value_badge_key by exact Hk.
    unfold effective_achievements.
    destruct (u_achievements u) as [[e|]|]; [reflexivity|reflexivity|apply Hempty].
Qed.

End BadgeFacts.

Module BadgeClaims.
Import Users UserFacts BadgeFacts.

(** Claim C8: badge evaluation is idempotent.  Running
    [check_and_award_badges] a second time right after a first run
    awards no badge; the first run never awards an id already in the
    user's stored earned list, and every stored id is still there after
    it. *)
Theorem badge_award_idempotent (us : list user) (uid : string) :
  let (nb1, c1) := check_and_award_badges (Some us) uid in
  fst (check_and_award_badges c1 uid) = [] /\
  (forall b, In b nb1 -> ~ In b (earned_ids (Some us) uid)) /\
  (forall b, In b (earned_ids (Some us) uid) -> In b (earned_ids c1 uid)).
Proof.
  unfold check_and_award_badges. destruct (find_user us uid) as [u|] eqn:Hf.
  - destruct (cab_step us uid u Hf) as [us1 [H1 [H2 _]]]. rewrite H1.
    destruct (cab_step us1 uid (cab_user u) H2) as [us2 [H3 _]]. rewrite H3.
    simpl fst. split; [apply cab_user_again|]. split.
    + intros b Hb. unfold earned_ids. cbv beta iota. rewrite Hf.
      destruct (u_achievements u) as [[e|]|] eqn:Ha; [|intros []|intros []].
      apply new_badges_not_earned with (u := u) (e := effective_achievements u).
      unfold effective_achievements in *. rewrite Ha in *. exact Hb.
    + intros b Hb. unfold earned_ids in *. cbv beta iota in *. rewrite Hf in Hb. rewrite H2.
      destruct (u_achievements u) as [[e|]|] eqn:Ha; [|destruct Hb|destruct Hb].
      unfold cab_user, effective_achievements. rewrite Ha.
      destruct (new_badges_of u e (earned_of e)) as [|b0 nb] eqn:Hnb.
      * rewrite Ha. exact Hb.
      * simpl. rewrite earned_of_set. apply in_or_app. left. exact Hb.
  - unfold check_and_award_badges_m, catch_m, catch, check_and_award_badges_body,
      bind, find_one, ret. rewrite Hf. simpl. rewrite Hf. simpl.
    split; [reflexivity|]. unfold earned_ids. cbv beta iota. rewrite ?Hf. split; intros b [].
Qed.

Lemma badge_award_idempotent_witness :
  fst (check_and_award_badges
         (snd (check_and_award_badges (Some [Fixtures.student "u" 30 2 None None]) "u")) "u")
  = [].
Proof.
  pose proof (badge_award_idempotent [Fixtures.student "u" 30 2 None None] "u") as H.
  destruct (check_and_award_badges (Some [Fixtures.student "u" 30 2 None None]) "u")
    as [nb1 c1].
  exact (proj1 H).
Defined.

End BadgeClaims.

(** ** Weekly challenges *)

Module ChallengeFacts.
Import Users UserFacts BadgeFacts Challenges.

(** [completed_today] counts the completed slots in every reachable set. *)
Lemma progress_step_count (t : string) (inc : Z) (c : challenges) :
  c_completed_today c = count_completed c ->
  c_completed_today (fst (progress_step t inc c)) = count_completed (fst (progress_step t inc c)).
Proof.
  intros H. unfold progress_step.
  destruct (type_map t) as [key|]; [|exact H].
  destruct (s_completed (get_slot key c)) eqn:Hc; [exact H|]. simpl negb. cbv iota.
  destruct (s_target (get_slot key c) <=? Z.min (s_target (get_slot key c))
              (s_current (get_slot key c) + inc)).
  all: destruct key; unfold count_completed in *; simpl in Hc |- *;
    destruct (s_completed (c_challenge1 c)), (s_completed (c_challenge2 c)),
      (s_completed (c_challenge3 c)); simpl in *; try discriminate; lia.
Qed.

Lemma current_challenges_count (w : string) (c : option challenges) :
  stored_completed_today c = match c with Some c => count_completed c | None => 0 end ->
  c_completed_today (current_challenges w c) = count_completed (current_challenges w c).
Proof.
  intros H. destruct c as [c|]; simpl in *; [|reflexivity].
  destruct (String.eqb (c_week c) w); [exact H|reflexivity].
Qed.

Lemma daily_reachable_count (c : option challenges) :
  daily_reachable c ->
  stored_completed_today c = match c with Some c => count_completed c | None => 0 end.
Proof.
  induction 1 as [|w c _ IH|w t inc c _ IH]; simpl.
  - reflexivity.
  - apply current_challenges_count. exact IH.
  - apply progress_step_count, current_challenges_count. exact IH.
Qed.

(** In a reachable set, [completed_today == 3] exactly when all three
    slots are completed. *)
Lemma all_done_iff (c : option challenges) :
  daily_reachable c -> (stored_completed_today c =? 3) = all_completed c.
Proof.
  intros Hr. rewrite (daily_reachable_count c Hr).
  destruct c as [c|]; [|reflexivity]. simpl. unfold count_completed.
  destruct (s_completed (c_challenge1 c)), (s_completed (c_challenge2 c)),
    (s_completed (c_challenge3 c)); reflexivity.
Qed.

Lemma u_id_set_daily (c : challenges) (u : user) : u_id (set_daily c u) = u_id u.
Proof. reflexivity. Qed.

Lemma cab_user_fields (u : user) :
  u_id (cab_user u) = u_id u /\ u_daily (cab_user u) = u_daily u /\
  u_total_xp (cab_user u) = u_total_xp u.
Proof.
  unfold cab_user.
  destruct (new_badges_of u (effective_achievements u) (earned_of (effective_achievements u))).
  - destruct (u_achievements u) as [[e|]|]; repeat split.
  - repeat split.
Qed.

Lemma set_ach_field_fields (k : string) (v : aval) (u u1 : user) :
  set_ach_field k v u = Some u1 ->
  u_id u1 = u_id u /\ u_daily u1 = u_daily u /\ u_total_xp u1 = u_total_xp u.
Proof.
  unfold set_ach_field. destruct (u_achievements u) as [[e|]|];
    intros H; inversion H; subst; repeat split.
Qed.

Lemma set_ach_field_ok (k : string) (v : aval) (u : user) :
  u_achievements u <> Some ANonDict -> exists u1, set_ach_field k v u = Some u1.
Proof.
  unfold set_ach_field. destruct (u_achievements u) as [[e|]|]; intros H; eauto.
  congruence.
Qed.

Lemma stored_week_differs (c : option challenges) (week : string) :
  stored_week c <> Some week ->
  match stored_week c with Some w => String.eqb w week | None => false end = false.
Proof.
  destruct (stored_week c) as [w|]; [|reflexivity].
  destruct (String.eqb_spec w week); [congruence|reflexivity].
Qed.

(** On rollover, for a user whose [achievements] is a dict or absent,
    [get_daily_challenges] returns and stores the fresh set. *)
Lemma get_daily_rollover (us : list user) (uid week : string) (u : user) :
  find_user us uid = Some u ->
  stored_week (u_daily u) <> Some week ->
  u_achievements u <> Some ANonDict ->
  exists us',
    get_daily_challenges_m uid week us = (Some (Some (rollover week (u_daily u))), us') /\
    exists u', find_user us' uid = Some u' /\ u_daily u' = Some (rollover week (u_daily u)).
Proof.
  intros Hf Hw Ha. pose proof (find_user_id _ _ _ Hf) as Hid.
  unfold get_daily_challenges_m, catch_m, catch, bind, find_one, update_one, ret.
  rewrite Hf. cbv beta iota. rewrite (stored_week_differs _ _ Hw).
  set (ch := rollover week (u_daily u)).
  destruct (7 <=? c_streak ch).
  - destruct (set_ach_field_ok "challenge_streak" (ANum (c_streak ch)) u Ha) as [u1 Hs].
    destruct (set_ach_field_fields _ _ _ _ Hs) as [Hid1 [Hd1 _]].
    destruct (update_first_found us uid _ u u1 Hf Hs ltac:(congruence))
      as [us1 [H1 [H1f _]]].
    rewrite H1.
    destruct (cab_step us1 uid u1 H1f) as [us2 [H2 [H2f _]]].
    rewrite H2.
    destruct (cab_user_fields u1) as [Hid2 [Hd2 _]].
    destruct (update_first_found us2 uid (fun u0 => Some (set_daily ch u0)) (cab_user u1)
                (set_daily ch (cab_user u1)) H2f eq_refl ltac:(rewrite u_id_set_daily; congruence))
      as [us3 [H3 [H3f _]]].
    rewrite H3. exists us3. split; [reflexivity|].
    exists (set_daily ch (cab_user u1)). split; [exact H3f|reflexivity].
  - destruct (update_first_found us uid (fun u0 => Some (set_daily ch u0)) u
                (set_daily ch u) Hf eq_refl ltac:(rewrite u_id_set_daily; congruence))
      as [us1 [H1 [H1f _]]].
    rewrite H1. exists us1. split; [reflexivity|].
    exists (set_daily ch u). split; [exact H1f|reflexivity].
Qed.

(** The rollover streak: [prior + 1] when all three slots of the prior
    set were completed, [0] otherwise (for every reachable prior set). *)
Lemma rollover_streak (week : string) (c : option challenges) :
  daily_reachable c ->
  c_streak (rollover week c) = if all_completed c then stored_streak c + 1 else 0.
Proof.
  intros Hr. unfold rollover. simpl. rewrite (all_done_iff c Hr). reflexivity.
Qed.

End ChallengeFacts.

Module ChallengeClaims.
Import Users Challenges ChallengeFacts Fixtures.

(** Claim C1 (code defect): the spec says a call returns 0 when the
    relevant slot is already completed.  The [completed_today == 3]
    bonus is tested on every call, not only on the call that completes
    the third challenge: once the week's three challenges are done,
    each further call (here a [practice] call on the completed slot 1,
    and a call with an unknown type) returns 10 and adds 10 XP to
    [total_xp]. *)
Theorem challenge_bonus_every_call :
  let us := [student "s1" 40 2 (Some (ADict init_user_achievements))
               (Some (done_set "2026-W42" 0))] in
  let '(xp1, c1) := update_challenge_progress (Some us) "s1" "practice" 1 "2026-W42" in
  let '(xp2, c2) := update_challenge_progress c1 "s1" "unknown" 1 "2026-W42" in
  xp1 = 10 /\ xp_of c1 "s1" = Some 50 /\ xp2 = 10 /\ xp_of c2 "s1" = Some 60.
Proof. vm_compute. repeat split. Qed.

(** C4.  On rollover (the stored week differs from the current week),
    [get_daily_challenges] returns a fresh three-challenge set for the
    current week and stores it; its streak is the prior streak + 1 when
    all three prior challenges were completed, and 0 otherwise.  The
    hypotheses hold of the documents the code writes: [achievements] is
    a dict or absent ([create_user] writes a dict, and the startup
    migration, every login and [check_and_award_badges] replace a
    non-dict one), and the stored set is one the code built. *)
Theorem rollover_installs_fresh_set (us : list user) (uid week : string) (u : user) :
  find_user us uid = Some u ->
  stored_week (u_daily u) <> Some week ->
  u_achievements u <> Some ANonDict ->
  daily_reachable (u_daily u) ->
  let new_streak := if all_completed (u_daily u) then stored_streak (u_daily u) + 1 else 0 in
  exists us',
    get_daily_challenges (Some us) uid week = (Some (fresh_challenges week new_streak), Some us') /\
    daily_of (Some us') uid = Some (fresh_challenges week new_streak).
Proof.
  intros Hf Hw Ha Hr new_streak.
  assert (Hro : rollover week (u_daily u) = fresh_challenges week new_streak).
  { unfold rollover, new_streak. rewrite (all_done_iff _ Hr). reflexivity. }
  destruct (get_daily_rollover us uid week u Hf Hw Ha) as [us' [H1 [u' [H2 H3]]]].
  exists us'. rewrite <- Hro. split.
  - unfold get_daily_challenges. rewrite H1. reflexivity.
  - simpl. rewrite H2. exact H3.
Qed.

Lemma rollover_installs_fresh_set_witness :
  exists us',
    get_daily_challenges (Some [student "s2" 300 4 (Some (ADict init_user_achievements)) w41_done])
      "s2" "2026-W42" = (Some (fresh_challenges "2026-W42" 1), Some us') /\
    daily_of (Some us') "s2" = Some (fresh_challenges "2026-W42" 1).
Proof.
  assert (H1 : stored_week w41_done <> Some "2026-W42") by (vm_compute; discriminate).
  assert (H2 : Some (ADict init_user_achievements) <> Some ANonDict) by discriminate.
  assert (H3 : daily_reachable w41_done) by (unfold w41_done; repeat constructor).
  pose proof (rollover_installs_fresh_set
                [student "s2" 300 4 (Some (ADict init_user_achievements)) w41_done]
                "s2" "2026-W42" (student "s2" 300 4 (Some (ADict init_user_achievements)) w41_done)
                eq_refl H1 H2 H3) as H.
  cbv zeta in H.
  assert (E : (if all_completed w41_done then stored_streak w41_done + 1 else 0) = 1)
    by (vm_compute; reflexivity).
  cbn [u_daily student] in H. rewrite E in H. exact H.
Defined.

End ChallengeClaims.

(** ** Strings *)

Module PyFacts.
Import Py.

Lemma split_length (c : ascii) (s : string) :
  List.length (split c s) = S (count c s).
Proof.
  induction s as [|d r IH]; simpl; [reflexivity|].
  destruct (Ascii.eqb d c); simpl.
  - rewrite IH. reflexivity.
  - destruct (split c r) as [|h t]; simpl in *; [discriminate|]. exact IH.
Qed.

Lemma count_lstrip (c : ascii) (s : string) : (count c (lstrip s) <= count c s)%nat.
Proof.
  induction s as [|d r IH]; simpl; [lia|].
  destruct (is_space d); simpl; lia.
Qed.

Lemma count_rstrip (c : ascii) (s : string) : (count c (rstrip s) <= count c s)%nat.
Proof.
  induction s as [|d r IH]; simpl; [lia|].
  destruct (rstrip r) as [|d' r'] eqn:E; simpl in *.
  - destruct (is_space d); simpl; lia.
  - lia.
Qed.

Lemma count_strip (c : ascii) (s : string) : (count c (strip s) <= count c s)%nat.
Proof.
  unfold strip. pose proof (count_rstrip c (lstrip s)). pose proof (count_lstrip c s). lia.
Qed.

Lemma count_append (c : ascii) (s t : string) : count c (s ++ t) = (count c s + count c t)%nat.
Proof. induction s as [|d r IH]; simpl; [reflexivity|]. rewrite IH. lia. Qed.

(** The pieces of [split] contain no separator. *)
Lemma split_pieces (c : ascii) (s : string) :
  Forall (fun x => count c x = 0%nat) (split c s).
Proof.
  induction s as [|d r IH]; simpl.
  - constructor; [reflexivity|constructor].
  - destruct (Ascii.eqb d c) eqn:E.
    + constructor; [reflexivity|exact IH].
    + destruct (split c r) as [|h t]; inversion IH as [|x l Hx Ht]; subst.
      * constructor; [simpl; rewrite E; reflexivity|constructor].
      * constructor; [simpl; rewrite E; simpl; exact Hx|exact Ht].
Qed.

Lemma count_join (c : ascii) (l : list string) :
  l <> [] -> Forall (fun x => count c x = 0%nat) l ->
  count c (join (String c EmptyString) l) = (List.length l - 1)%nat.
Proof.
  induction l as [|x t IH]; intros Hne Hall; [congruence|].
  inversion Hall as [|x' t' Hx Ht]; subst.
  destruct t as [|y t''].
  - simpl. exact Hx.
  - change (join (String c EmptyString) (x :: y :: t''))
      with (x ++ String c EmptyString ++ join (String c EmptyString) (y :: t'')).
    rewrite count_append. cbn [count append]. rewrite Ascii.eqb_refl.
    rewrite IH by (congruence || exact Ht). rewrite Hx. simpl. lia.
Qed.

Lemma split_no_sep (c : ascii) (s : string) :
  count c s = 0%nat -> split c s = [s].
Proof.
  induction s as [|d r IH]; simpl; [reflexivity|].
  destruct (Ascii.eqb d c); simpl; [discriminate|].
  intros H. rewrite IH by exact H. reflexivity.
Qed.

End PyFacts.

(* ================================================================== *)
(** ** Conversation contexts *)

Module ConversationFacts.
Import Users Conversations PyFacts UserFacts.

Lemma forall_skipn {A} (P : A -> Prop) (n : nat) (l : list A) :
  Forall P l -> Forall P (skipn n l).
Proof.
  revert l; induction n as [|n IH]; intros l H; [exact H|].
  destruct l as [|x t]; [constructor|]. inversion H; subst. apply IH. assumption.
Qed.

Lemma conv_limit_pos (mode : string) : (1 <= conv_limit mode)%nat.
Proof. unfold conv_limit. destruct (String.eqb mode "conversation"); lia. Qed.

(** The text [save_conversation] writes has at most [limit] lines once stripped. *)
Lemma conv_trim_bound (mode text : string) :
  (List.length (Py.split Py.nl (Py.strip (conv_trim mode text))) <= conv_limit mode)%nat.
Proof.
  pose proof (conv_limit_pos mode) as Hpos.
  unfold conv_trim.
  destruct (conv_limit mode <? List.length (msgs_of text))%nat eqn:E.
  - apply Nat.ltb_lt in E.
    assert (Hall : Forall (fun x => Py.count Py.nl x = 0%nat) (msgs_of text)).
    { unfold msgs_of. destruct (Py.truthy text); [apply split_pieces|constructor]. }
    assert (Hlen : List.length (Py.last_n (conv_limit mode) (msgs_of text)) = conv_limit mode).
    { unfold Py.last_n. rewrite List.length_skipn. lia. }
    rewrite split_length.
    pose proof (count_strip Py.nl (Py.join (String Py.nl EmptyString)
                                     (Py.last_n (conv_limit mode) (msgs_of text)))) as Hs.
    rewrite count_join in Hs.
    + rewrite Hlen in Hs. lia.
    + intros Hn. rewrite Hn in Hlen. simpl in Hlen. lia.
    + apply forall_skipn. exact Hall.
  - apply Nat.ltb_ge in E. unfold msgs_of in E.
    destruct (Py.truthy text) eqn:T; [exact E|].
    destruct text; [simpl; exact Hpos|discriminate].
Qed.

Lemma save_update_spec (mode text now : string) (d d' : doc) :
  Py.count dot mode = 0%nat -> save_update mode text now d = Some d' ->
  dict_get d' "user_id" = dict_get d "user_id" /\
  exists g,
    match dict_get d "conversations" with
    | None => g = []
    | Some (CDoc g0) => g = g0
    | Some (CStr _) => False
    end /\
    dict_get d' "conversations" = Some (CDoc (dict_set g mode (CStr text))).
Proof.
  intros Hc H. unfold save_update in H. rewrite split_no_sep in H by exact Hc.
  simpl in H.
  destruct (String.eqb mode "") eqn:Em.
  - destruct (dict_get d "conversations") as [[s|g]|]; discriminate.
  - destruct (dict_get d "conversations") as [[s|g]|] eqn:Eg; simpl in H;
      try discriminate; injection H as <-;
      (split; [rewrite !dict_get_set_other by discriminate; reflexivity|]).
    + exists g. split; [reflexivity|].
      rewrite dict_get_set_other by discriminate. apply dict_get_set_same.
    + exists []. split; [reflexivity|].
      rewrite dict_get_set_other by discriminate. apply dict_get_set_same.
Qed.

Lemma owned_by_preserved (uid : string) (d d' : doc) :
  dict_get d' "user_id" = dict_get d "user_id" -> owned_by uid d' = owned_by uid d.
Proof. intros H. unfold owned_by. rewrite H. reflexivity. Qed.

Lemma upsert_spec (uid : string) (f : doc -> option doc) (ds ds' : list doc) :
  (forall d d', f d = Some d' -> dict_get d' "user_id" = dict_get d "user_id") ->
  upsert uid f ds = Some ds' ->
  exists d0 d', f d0 = Some d' /\ find (owned_by uid) ds' = Some d' /\
    (find (owned_by uid) ds = Some d0 \/
     (find (owned_by uid) ds = None /\ d0 = [("user_id", CStr uid)])).
Proof.
  intros Hf. revert ds'. induction ds as [|d t IH]; intros ds' H; simpl in H.
  - destruct (f [("user_id", CStr uid)]) as [d|] eqn:Ef; [|discriminate].
    injection H as <-. exists [("user_id", CStr uid)], d.
    split; [exact Ef|]. split; [|right; split; reflexivity].
    simpl. rewrite (owned_by_preserved uid _ _ (Hf _ _ Ef)).
    unfold owned_by. simpl. rewrite String.eqb_refl. reflexivity.
  - destruct (owned_by uid d) eqn:Eo.
    + destruct (f d) as [d'|] eqn:Ef; [|discriminate].
      injection H as <-. exists d, d'. split; [exact Ef|]. split.
      * simpl. rewrite (owned_by_preserved uid _ _ (Hf _ _ Ef)), Eo. reflexivity.
      * left. simpl. rewrite Eo. reflexivity.
    + destruct (upsert uid f t) as [t'|] eqn:Eu; [|discriminate].
      injection H as <-. destruct (IH t' eq_refl) as (d0 & d' & H1 & H2 & H3).
      exists d0, d'. simpl. rewrite Eo. auto.
Qed.

(** What [get_conversation] reads after a successful write of a dot-free mode. *)
Lemma save_get (mode text now uid m : string) (ds ds' : list doc) :
  Py.count dot mode = 0%nat ->
  upsert uid (save_update mode text now) ds = Some ds' ->
  get_conversation (Some ds') uid m =
  if String.eqb mode m then CStr text else get_conversation (Some ds) uid m.
Proof.
  intros Hc Hu.
  destruct (upsert_spec uid _ ds ds'
              (fun d d' H => proj1 (save_update_spec mode text now d d' Hc H)) Hu)
    as (d0 & d' & Hf & Hfind & Hcase).
  destruct (save_update_spec mode text now d0 d' Hc Hf) as [_ [g [Hg Hconv]]].
  unfold get_conversation. rewrite Hfind, Hconv.
  destruct (String.eqb mode m) eqn:E.
  - apply String.eqb_eq in E. subst m. rewrite dict_get_set_same. reflexivity.
  - rewrite dict_get_set_other
      by (intros Heq; subst m; rewrite String.eqb_refl in E; discriminate).
    destruct Hcase as [Hf0 | [Hf0 Hd0]]; rewrite Hf0.
    + destruct (dict_get d0 "conversations") as [[s|g0]|]; [contradiction| |];
        subst g; reflexivity.
    + subst d0. simpl in Hg. subst g. reflexivity.
Qed.

End ConversationFacts.

Module ConversationClaims.
Import Users Conversations Fixtures ConversationFacts.

(** C5 (counterexample).  The limit is checked on the stripped text
    but the raw text is stored: a roleplay transcript of one line
    followed by 60 blank lines is stored verbatim, and the stored value
    has 61 lines, more than the roleplay limit of 50. *)
Lemma blank_lines_stored_untrimmed :
  fst (save_conversation (Some []) "u" "roleplay_teacher" blank_tail_text "t") = true /\
  get_conversation (snd (save_conversation (Some []) "u" "roleplay_teacher" blank_tail_text "t"))
    "u" "roleplay_teacher" = CStr blank_tail_text /\
  List.length (Py.split Py.nl blank_tail_text) = 61%nat /\
  conv_limit "roleplay_teacher" = 50%nat.
Proof. repeat split; vm_compute; reflexivity. Qed.

(** C5 (amended).  For a mode without a dot, a successful save stores
    [conv_trim mode text] under the mode: when the stripped text has
    more than the limit (100 for 'conversation', 50 otherwise) lines,
    exactly its last limit lines joined by newlines; otherwise the text
    unchanged.  The stored value, once stripped, has at most limit
    lines. *)
Theorem save_conversation_trims (ds : list doc) (uid mode text now : string) :
  Py.count dot mode = 0%nat ->
  fst (save_conversation (Some ds) uid mode text now) = true ->
  get_conversation (snd (save_conversation (Some ds) uid mode text now)) uid mode
    = CStr (conv_trim mode text) /\
  (List.length (Py.split Py.nl (Py.strip (conv_trim mode text))) <= conv_limit mode)%nat /\
  ((conv_limit mode < List.length (msgs_of text))%nat ->
     conv_trim mode text
     = Py.join (String Py.nl EmptyString) (Py.last_n (conv_limit mode) (msgs_of text))) /\
  ((List.length (msgs_of text) <= conv_limit mode)%nat -> conv_trim mode text = text) /\
  conv_limit mode = (if String.eqb mode "conversation" then 100 else 50)%nat.
Proof.
  intros Hc Hok. split; [|split; [apply conv_trim_bound|split; [|split]]].
  - unfold save_conversation in *. cbv zeta in *.
    destruct (upsert uid (save_update mode (conv_trim mode text) now) ds) as [ds'|] eqn:Eu;
      [|discriminate].
    cbn [snd]. rewrite (save_get mode (conv_trim mode text) now uid mode ds ds' Hc Eu).
    rewrite String.eqb_refl. reflexivity.
  - intros Hlt. unfold conv_trim. apply Nat.ltb_lt in Hlt. rewrite Hlt. reflexivity.
  - intros Hle. unfold conv_trim. apply Nat.ltb_ge in Hle. rewrite Hle. reflexivity.
  - reflexivity.
Qed.

Lemma save_conversation_trims_witness :
  Py.count dot "conversation" = 0%nat /\
  fst (save_conversation (Some []) "u" "conversation" "a\nb" "t") = true /\
  get_conversation (snd (save_conversation (Some []) "u" "conversation" "a\nb" "t"))
    "u" "conversation" = CStr (conv_trim "conversation" "a\nb").
Proof.
  assert (H1 : Py.count dot "conversation" = 0%nat) by reflexivity.
  assert (H2 : fst (save_conversation (Some []) "u" "conversation" "a\nb" "t") = true)
    by reflexivity.
  split; [exact H1|]. split; [exact H2|].
  exact (proj1 (save_conversation_trims [] "u" "conversation" "a\nb" "t" H1 H2)).
Defined.

(** C6 (code defect).  The mode is spliced into the dotted path
    [conversations.<mode>] unescaped, and [roleplay_coach] builds it as
    [f'roleplay_{roleplay_type}'] from the request's [roleplay_type]:
    with the type 'teacher.x', saving under mode 'roleplay_teacher.x'
    replaces the (empty) 'roleplay_teacher' transcript of the same user
    by a sub-document, although the per-type contexts are meant never
    to share memory. *)
Lemma dotted_mode_changes_other_mode :
  get_conversation (Some []) "u" ("roleplay_" ++ "teacher") = CStr "" /\
  fst (save_conversation (Some []) "u" ("roleplay_" ++ "teacher.x") "hi" "t") = true /\
  get_conversation (snd (save_conversation (Some []) "u" ("roleplay_" ++ "teacher.x") "hi" "t"))
    "u" ("roleplay_" ++ "teacher") = CDoc [("x", CStr "hi")].
Proof. repeat split; vm_compute; reflexivity. Qed.

(** X23.  For a mode whose name contains no dot, saving
    leaves the stored transcript of every other mode of that user, as
    [get_conversation] returns it, unchanged. *)
Theorem save_conversation_other_modes (ds : list doc) (uid mode text now m : string) :
  Py.count dot mode = 0%nat -> m <> mode ->
  get_conversation (snd (save_conversation (Some ds) uid mode text now)) uid m
  = get_conversation (Some ds) uid m.
Proof.
  intros Hc Hne. unfold save_conversation. cbv zeta.
  destruct (upsert uid (save_update mode (conv_trim mode text) now) ds) as [ds'|] eqn:Eu;
    [|reflexivity].
  simpl snd. rewrite (save_get mode (conv_trim mode text) now uid m ds ds' Hc Eu).
  destruct (String.eqb mode m) eqn:E; [|reflexivity].
  apply String.eqb_eq in E. congruence.
Qed.

Lemma save_conversation_other_modes_witness :
  Py.count dot "roleplay_teacher" = 0%nat /\
  get_conversation (snd (save_conversation (Some []) "u" "roleplay_teacher" "hi" "t"))
    "u" "roleplay_friend" = get_conversation (Some []) "u" "roleplay_friend".
Proof.
  assert (H1 : Py.count dot "roleplay_teacher" = 0%nat) by reflexivity.
  split; [exact H1|].
  apply (save_conversation_other_modes [] "u" "roleplay_teacher" "hi" "t" "roleplay_friend" H1).
  discriminate.
Defined.

End ConversationClaims.

(* ================================================================== *)
(** ** Weekly leaderboard *)

Module LeaderboardFacts.
Import Users Leaderboard.

Definition key_rel (a b : entry) : Prop := key_ge a b = true.

Lemma key_ge_total (a b : entry) : key_ge a b = false -> key_ge b a = true.
Proof.
  unfold key_ge. intros H.
  apply Bool.orb_false_iff in H. destruct H as [H1 H2].
  apply Z.ltb_ge in H1. apply Bool.andb_false_iff in H2.
  apply Bool.orb_true_iff.
  destruct H2 as [H2|H2]; [apply Z.eqb_neq in H2|apply Z.leb_gt in H2].
  - left. apply Z.ltb_lt. lia.
  - destruct (Z.eq_dec (e_weekly_xp a) (e_weekly_xp b)) as [E|E].
    + right. apply Bool.andb_true_iff. split; [apply Z.eqb_eq; lia|apply Z.leb_le; lia].
    + left. apply Z.ltb_lt. lia.
Qed.

Lemma key_ge_trans (a b c : entry) :
  key_ge a b = true -> key_ge b c = true -> key_ge a c = true.
Proof.
  unfold key_ge. intros H1 H2.
  rewrite Bool.orb_true_iff, Bool.andb_true_iff, Z.ltb_lt, Z.eqb_eq, Z.leb_le in *. lia.
Qed.

Lemma insert_desc_perm (x : entry) (l : list entry) : Permutation (insert_desc x l) (x :: l).
Proof.
  induction l as [|y t IH]; simpl; [reflexivity|].
  destruct (key_ge y x); [|reflexivity].
  transitivity (y :: x :: t); [constructor; exact IH|constructor].
Qed.

Lemma insert_desc_sorted (x : entry) (l : list entry) :
  Sorted key_rel l -> Sorted key_rel (insert_desc x l).
Proof.
  induction l as [|y t IH]; intros H; simpl.
  - constructor; constructor.
  - destruct (key_ge y x) eqn:E.
    + inversion H as [|y' t' Ht Hd]; subst. constructor; [apply IH; exact Ht|].
      destruct t as [|z t']; simpl; [constructor; exact E|].
      destruct (key_ge z x); constructor; [inversion Hd; assumption|exact E].
    + constructor; [exact H|]. constructor. apply key_ge_total. exact E.
Qed.

Lemma fold_insert_spec (l acc : list entry) :
  Sorted key_rel acc ->
  Sorted key_rel (fold_left (fun acc x => insert_desc x acc) l acc) /\
  Permutation (fold_left (fun acc x => insert_desc x acc) l acc) (l ++ acc).
Proof.
  revert acc. induction l as [|x t IH]; intros acc H; simpl; [split; [exact H|reflexivity]|].
  destruct (IH (insert_desc x acc) (insert_desc_sorted x acc H)) as [H1 H2].
  split; [exact H1|].
  eapply perm_trans; [exact H2|].
  eapply perm_trans; [apply Permutation_app_head, insert_desc_perm|].
  apply Permutation_sym, Permutation_middle.
Qed.

Lemma sort_desc_spec (l : list entry) :
  StronglySorted key_rel (sort_desc l) /\ Permutation (sort_desc l) l.
Proof.
  unfold sort_desc. destruct (fold_insert_spec l [] (Sorted_nil _)) as [H1 H2].
  split.
  - apply Sorted_StronglySorted; [intros a b c; apply key_ge_trans|exact H1].
  - rewrite app_nil_r in H2. exact H2.
Qed.

Lemma assign_ranks_entries (i : Z) (l : list entry) : map r_entry (assign_ranks i l) = l.
Proof. revert i; induction l as [|e t IH]; intros i; simpl; [reflexivity|]. rewrite IH. reflexivity. Qed.

Lemma assign_ranks_length (i : Z) (l : list entry) : List.length (assign_ranks i l) = List.length l.
Proof. revert i; induction l as [|e t IH]; intros i; simpl; [reflexivity|]. rewrite IH. reflexivity. Qed.

Lemma assign_ranks_ranks (i : Z) (l : list entry) :
  map r_rank (assign_ranks i l) = map (fun k => i + Z.of_nat k) (seq 1 (List.length l)).
Proof.
  revert i; induction l as [|e t IH]; intros i; simpl; [reflexivity|].
  rewrite IH. rewrite <- (seq_shift (List.length t) 1), map_map.
  f_equal; try lia. apply map_ext. intros k. lia.
Qed.

End LeaderboardFacts.

Module LeaderboardClaims.
Import Users Leaderboard Fixtures LeaderboardFacts.

(** C7.  The weekly leaderboard is the list of matching students'
    rows sorted descending by the pair (weekly XP, total XP): every row's
    key is at least that of every later row, the rows are a permutation
    of the matching students' rows (or the board is empty when building
    a row raises), and the ranks are 1, 2, ..., n in list order.  For
    students A (50, 500), B (50, 300), C (80, 100) of class 5 the board
    is C, A, B with ranks 1, 2, 3. *)
Theorem weekly_leaderboard_order (us : list user) (week cls div : string) :
  StronglySorted (fun a b => key_ge a b = true)
    (map r_entry (get_weekly_leaderboard (Some us) week cls div)) /\
  map r_rank (get_weekly_leaderboard (Some us) week cls div)
    = map Z.of_nat (seq 1 (List.length (get_weekly_leaderboard (Some us) week cls div))) /\
  match entries_of week (filter (is_listed cls div) us) with
  | Some lb => Permutation (map r_entry (get_weekly_leaderboard (Some us) week cls div)) lb
  | None => get_weekly_leaderboard (Some us) week cls div = []
  end /\
  map (fun x => (e_user_id (r_entry x), r_rank x))
    (get_weekly_leaderboard (Some lb_abc) "2026-W42" "5" "")
  = [("C", 1); ("A", 2); ("B", 3)].
Proof.
  split; [|split; [|split]].
  - unfold get_weekly_leaderboard. cbv zeta.
    destruct (entries_of week (filter (is_listed cls div) us)) as [lb|]; [|constructor].
    rewrite assign_ranks_entries. apply (proj1 (sort_desc_spec lb)).
  - unfold get_weekly_leaderboard. cbv zeta.
    destruct (entries_of week (filter (is_listed cls div) us)) as [lb|]; [|reflexivity].
    rewrite assign_ranks_ranks, assign_ranks_length. apply map_ext. intros k. lia.
  - unfold get_weekly_leaderboard. cbv zeta.
    destruct (entries_of week (filter (is_listed cls div) us)) as [lb|]; [|reflexivity].
    rewrite assign_ranks_entries. apply (proj2 (sort_desc_spec lb)).
  - vm_compute. reflexivity.
Qed.

End LeaderboardClaims.

(* ================================================================== *)
(** ** Store unavailable *)

Module StoreDownClaims.


End StoreDownClaims.

(* ================================================================== *)
(** ** Security questions *)

Module SecurityFacts.
Import Users Account UserFacts PyFacts.

Lemma split_once_app (x y : string) :
  Py.count dollar x = 0%nat -> split_once (x ++ String dollar y) = Some (x, y).
Proof.
  induction x as [|c r IH]; intros H; simpl.
  - reflexivity.
  - simpl in H. destruct (Ascii.eqb c dollar); [discriminate|].
    rewrite IH by exact H. reflexivity.
Qed.

Lemma default_method_no_dollar : Py.count dollar default_method = 0%nat.
Proof. reflexivity. Qed.

(** A hash made by [generate_password_hash] checks against exactly the
    passwords that hash to the same value. *)
Lemma check_pw_generated
    (hash_internal : string -> string -> string -> string)
    (method_supported : string -> bool) (salt p p' : string) :
  method_supported default_method = true -> Py.count dollar salt = 0%nat ->
  check_pw hash_internal method_supported (generate_password_hash hash_internal salt p) p'
  = String.eqb (hash_internal default_method salt p') (hash_internal default_method salt p).
Proof.
  intros Hm Hs. unfold check_pw, check_password_hash, generate_password_hash.
  change ("$" ++ ?z) with (String dollar z).
  rewrite (split_once_app _ _ default_method_no_dollar). cbv iota beta.
  change ("$" ++ ?z) with (String dollar z).
  rewrite (split_once_app _ _ Hs). cbv iota beta. rewrite Hm. reflexivity.
Qed.

Lemma set_security_question_stores
    (hash_internal : string -> string -> string -> string)
    (us : list user) (uid q a salt : string) (u : user) :
  find_user us uid = Some u ->
  exists us',
    set_security_question hash_internal (Some us) uid q a salt = (true, Some us') /\
    find_user us' uid
    = Some (set_security q (generate_password_hash hash_internal salt (Py.lower (Py.strip a))) u).
Proof.
  intros Hu.
  destruct (update_first_found us uid
              (fun u => Some (set_security q
                 (generate_password_hash hash_internal salt (Py.lower (Py.strip a))) u))
              u _ Hu eq_refl (find_user_id us uid u Hu)) as (us' & H1 & H2 & _).
  exists us'. unfold set_security_question. rewrite H1. split; [reflexivity|exact H2].
Qed.

End SecurityFacts.

Module SecurityClaims.
Import Users Account SecurityFacts.

(** C10.  Once [set_security_question] has stored question [q] and the
    hash of the stripped, lower-cased answer [a] for an existing user
    (with a salt free of [$] and werkzeug's default method available),
    [verify_security_answer] accepts every answer equal to [a] up to
    surrounding whitespace and letter case with question [q], and
    rejects every other question whatever the answer.  For any store,
    it returns [False] when the user is missing, the stored question
    differs from the supplied one, or no (or an empty) answer is
    stored. *)
Theorem security_answer_normalised
    (hash_internal : string -> string -> string -> string)
    (method_supported : string -> bool)
    (us : list user) (uid q a salt : string) (u : user) :
  method_supported default_method = true ->
  Py.count dollar salt = 0%nat ->
  find_user us uid = Some u ->
  fst (set_security_question hash_internal (Some us) uid q a salt) = true /\
  (forall a', Py.lower (Py.strip a') = Py.lower (Py.strip a) ->
     verify_security_answer hash_internal method_supported
       (snd (set_security_question hash_internal (Some us) uid q a salt)) uid q a' = true) /\
  (forall q' a', q' <> q ->
     verify_security_answer hash_internal method_supported
       (snd (set_security_question hash_internal (Some us) uid q a salt)) uid q' a' = false) /\
  (forall coll uid' question a',
     match get_user_by_id coll uid' with
     | None => True
     | Some v => u_security_question v <> Some question \/
                 u_security_answer v = None \/ u_security_answer v = Some ""
     end ->
     verify_security_answer hash_internal method_supported coll uid' question a' = false).
Proof.
  intros Hm Hs Hu.
  destruct (set_security_question_stores hash_internal us uid q a salt u Hu) as (us' & Hset & Hf).
  rewrite Hset. cbn [fst snd]. split; [reflexivity|split; [|split]].
  - intros a' Ha. unfold verify_security_answer. rewrite Hf. cbn [u_security_question set_security].
    rewrite String.eqb_refl. cbn [u_security_answer set_security].
    rewrite (check_pw_generated hash_internal method_supported salt _ _ Hm Hs), Ha.
    apply String.eqb_refl.
  - intros q' a' Hq. unfold verify_security_answer. rewrite Hf.
    cbn [u_security_question set_security].
    destruct (String.eqb_spec q q') as [E|E]; [congruence|reflexivity].
  - intros coll uid' question a' H. unfold verify_security_answer.
    destruct coll as [vs|]; [|reflexivity]. unfold get_user_by_id in H.
    destruct (find_user vs uid') as [v|]; [|reflexivity].
    destruct H as [H|[H|H]].
    + destruct (u_security_question v) as [sq|]; [|reflexivity].
      destruct (String.eqb_spec sq question); [congruence|reflexivity].
    + rewrite H. destruct (u_security_question v) as [sq|]; [|reflexivity].
      destruct (String.eqb sq question); reflexivity.
    + rewrite H. destruct (u_security_question v) as [sq|]; [|reflexivity].
      destruct (String.eqb sq question); reflexivity.
Qed.

Lemma security_answer_normalised_witness :
  verify_security_answer (fun _ _ p => p) (fun _ => true)
    (snd (set_security_question (fun _ _ p => p)
            (Some [Fixtures.student "u" 0 1 None None]) "u" "Pet?" " Rex " "abc"))
    "u" "Pet?" "rex" = true.
Proof.
  apply (security_answer_normalised (fun _ _ p => p) (fun _ => true)
           [Fixtures.student "u" 0 1 None None] "u" "Pet?" " Rex " "abc"
           (Fixtures.student "u" 0 1 None None));
    [reflexivity|reflexivity|reflexivity|reflexivity].
Defined.

End SecurityClaims.

(* ================================================================== *)
(** ** Further properties of the level formula *)

Module LevelExtra.
Import Level LevelFacts AppLevel.

Lemma level_exists (n : nat) (xp : Z) :
  0 <= xp < xp_threshold_for_level (Z.of_nat n + 1) ->
  exists L, 1 <= L <= Z.of_nat n /\
            xp_threshold_for_level L <= xp < xp_threshold_for_level (L + 1).
Proof.
  induction n as [|n IH]; intros H.
  - simpl in H. unfold xp_threshold_for_level in H. simpl in H. lia.
  - destruct (Z_lt_le_dec xp (xp_threshold_for_level (Z.of_nat n + 1))) as [Hlt|Hge].
    + destruct IH as [L [HL1 HL2]]; [lia|]. exists L. split; [lia|exact HL2].
    + exists (Z.of_nat n + 1). split; [lia|].
      replace (Z.of_nat (S n) + 1) with (Z.of_nat n + 1 + 1) in H by lia. lia.
Qed.

Lemma calc_negative (xp : Z) : xp < 0 -> calculate_level_from_xp xp = 1.
Proof.
  intros H. unfold calculate_level_from_xp.
  replace (Z.to_nat xp) with 0%nat by lia. cbn [calc_loop].
  replace (xp_threshold_for_level (1 + 1)) with 25 by reflexivity.
  destruct (Z.leb_spec 25 xp); [lia|reflexivity].
Qed.

Lemma calc_bracket (xp : Z) :
  0 <= xp ->
  1 <= calculate_level_from_xp xp /\
  xp_threshold_for_level (calculate_level_from_xp xp) <= xp <
  xp_threshold_for_level (calculate_level_from_xp xp + 1).
Proof.
  intros H.
  destruct (level_exists (Z.to_nat xp + 1) xp) as [L [HL1 HL2]].
  { split; [exact H|].
    pose proof (threshold_lower_bound (Z.of_nat (Z.to_nat xp + 1) + 1)) as Hb. lia. }
  rewrite (calculate_level_spec xp L) by lia. split; [lia|exact HL2].
Qed.

Lemma calc_ge_1 (xp : Z) : 1 <= calculate_level_from_xp xp.
Proof.
  destruct (Z_lt_le_dec xp 0) as [H|H].
  - rewrite calc_negative by exact H. lia.
  - apply (calc_bracket xp H).
Qed.

(** X1.  The XP needed to go from [level] to [level + 1] is
    [25 * 2 ** (level - 1)] for every level from 1 on, so it doubles at
    each level; it is 0 for levels below 1. *)
Theorem next_level_gap (level : Z) :
  get_xp_for_next_level level = if 1 <=? level then 25 * 2 ^ (level - 1) else 0.
Proof.
  unfold get_xp_for_next_level. destruct (Z.leb_spec 1 level) as [H|H].
  - rewrite threshold_step by exact H. lia.
  - unfold xp_threshold_for_level.
    destruct (Z.leb_spec (level + 1) 1); [|lia]. destruct (Z.leb_spec level 1); [lia|lia].
Qed.

(** X2.  [calculate_level_from_xp] never returns a level below 1 and
    never decreases when the XP grows. *)
Theorem calculate_level_monotone (xp1 xp2 : Z) :
  xp1 <= xp2 ->
  1 <= calculate_level_from_xp xp1 <= calculate_level_from_xp xp2.
Proof.
  intros H. split; [apply calc_ge_1|].
  destruct (Z_lt_le_dec xp1 0) as [H1|H1].
  - rewrite calc_negative by exact H1. apply calc_ge_1.
  - destruct (calc_bracket xp1 H1) as [Ha [Hb Hc]].
    destruct (calc_bracket xp2 ltac:(lia)) as [Hd [He Hf]].
    destruct (Z_lt_le_dec (calculate_level_from_xp xp2) (calculate_level_from_xp xp1))
      as [Hlt|Hle]; [|exact Hle].
    pose proof (threshold_mono (calculate_level_from_xp xp2 + 1)
                  (calculate_level_from_xp xp1) ltac:(lia)). lia.
Qed.

Lemma calculate_level_monotone_witness :
  (100 <= 400)%Z /\ 1 <= Level.calculate_level_from_xp 100 <= Level.calculate_level_from_xp 400.
Proof. split; [lia|]. apply calculate_level_monotone. lia. Defined.

End LevelExtra.

(* ================================================================== *)
(** ** Which badges [check_and_award_badges] awards *)

Module BadgeExtra.
Import Users UserFacts BadgeFacts BadgeObs.

Lemma due_earned_or_new (u : user) (e : list (string * aval)) (earned : list string)
    (bid vt : string) (req : Z) :
  In (bid, vt, req) ALL_BADGES -> badge_due u e vt req ->
  In bid earned \/ In bid (new_badges_of u e earned).
Proof.
  intros Hin Hdue. destruct (str_mem bid earned) eqn:M.
  - left. apply str_mem_In. exact M.
  - right. unfold new_badges_of. apply in_map_iff. exists (bid, vt, req).
    split; [reflexivity|]. apply filter_In. split; [exact Hin|].
    rewrite M. simpl. unfold badge_due in Hdue.
    destruct (current_value u e vt); [apply Z.leb_le; exact Hdue|contradiction].
Qed.

Lemma new_badge_due (u : user) (e : list (string * aval)) (earned : list string) (b : string) :
  In b (new_badges_of u e earned) ->
  exists vt req, In (b, vt, req) ALL_BADGES /\ badge_due u e vt req /\ ~ In b earned.
Proof.
  unfold new_badges_of. intros H. apply in_map_iff in H.
  destruct H as [[[bid vt] req] [Hb Hin]]. simpl in Hb. subst bid.
  apply filter_In in Hin. destruct Hin as [Hin Hf].
  apply Bool.andb_true_iff in Hf. destruct Hf as [Hm Hc].
  exists vt, req. split; [exact Hin|]. split.
  - unfold badge_due. destruct (current_value u e vt); [apply Z.leb_le; exact Hc|discriminate].
  - intros Hin'. apply str_mem_In in Hin'. rewrite Hin' in Hm. discriminate.
Qed.

(** The stored earned list after [check_and_award_badges] holds the
    previously earned ids and the new ones. *)
Lemma cab_user_earned (u : user) (b : string) :
  In b (earned_of (effective_achievements u)) \/
  In b (new_badges_of u (effective_achievements u) (earned_of (effective_achievements u))) ->
  In b (user_earned (cab_user u)).
Proof.
  intros H. unfold cab_user. cbv zeta.
  destruct (new_badges_of u (effective_achievements u)
              (earned_of (effective_achievements u))) as [|b0 nb] eqn:Hnb.
  - destruct H as [H|[]].
    unfold effective_achievements in H.
    destruct (u_achievements u) as [[e|]|] eqn:Ha.
    + unfold user_earned. rewrite Ha. exact H.
    + destruct H.
    + destruct H.
  - unfold user_earned. cbn [u_achievements set_achievements]. rewrite earned_of_set.
    apply in_or_app. exact H.
Qed.

Lemma earned_ids_found (us : list user) (uid : string) (u : user) :
  find_user us uid = Some u -> earned_ids (Some us) uid = user_earned u.
Proof. intros H. unfold earned_ids. rewrite H. reflexivity. Qed.

(** X3.  For an existing user, [check_and_award_badges] returns only
    badges of [ALL_BADGES] that are due and not yet earned, and after it
    every due badge (its counter, level or XP reaching the requirement)
    is in the user's stored [badges_earned]. *)
Theorem badges_complete (us : list user) (uid : string) (u : user) :
  find_user us uid = Some u ->
  (forall b, In b (fst (check_and_award_badges (Some us) uid)) ->
     exists vt req, In (b, vt, req) ALL_BADGES /\
       badge_due u (effective_achievements u) vt req /\
       ~ In b (earned_of (effective_achievements u))) /\
  (forall bid vt req, In (bid, vt, req) ALL_BADGES ->
     badge_due u (effective_achievements u) vt req ->
     In bid (earned_ids (snd (check_and_award_badges (Some us) uid)) uid)).
Proof.
  intros Hf. destruct (cab_step us uid u Hf) as [us1 [H1 [H2 _]]].
  unfold check_and_award_badges. rewrite H1. cbn [fst snd]. split.
  - intros b Hb. apply new_badge_due. exact Hb.
  - intros bid vt req Hin Hdue. rewrite (earned_ids_found us1 uid _ H2).
    apply cab_user_earned. apply due_earned_or_new with (vt := vt) (req := req); assumption.
Qed.

Lemma badges_complete_witness :
  find_user [Fixtures.student "u" 30 2 None None] "u" = Some (Fixtures.student "u" 30 2 None None)
  /\ In "xp_25" (earned_ids (snd (check_and_award_badges
                                   (Some [Fixtures.student "u" 30 2 None None]) "u")) "u").
Proof.
  assert (Hf : find_user [Fixtures.student "u" 30 2 None None] "u"
               = Some (Fixtures.student "u" 30 2 None None)) by reflexivity.
  split; [exact Hf|].
  apply (proj2 (badges_complete _ _ _ Hf) "xp_25" "total_xp" 25).
  - simpl. tauto.
  - unfold badge_due. vm_compute. discriminate.
Defined.

End BadgeExtra.

(* ================================================================== *)
(** ** Level bookkeeping of [update_challenge_progress] *)

Module ChallengeExtra.
Import Users Challenges UserFacts BadgeFacts.

Lemma cab_user_level (u : user) : u_level (cab_user u) = u_level u.
Proof.
  unfold cab_user. cbv zeta.
  destruct (new_badges_of u (effective_achievements u) (earned_of (effective_achievements u))).
  - destruct (u_achievements u) as [[e|]|]; reflexivity.
  - reflexivity.
Qed.

Lemma u_id_set_xp_level (xp level : Z) (u : user) : u_id (set_xp_level xp level u) = u_id u.
Proof. reflexivity. Qed.

End ChallengeExtra.

Module ChallengeExtraClaims.
Import Users Challenges UserFacts BadgeFacts ChallengeFacts BadgeObs ChallengeExtra.

(** X4.  Whenever [update_challenge_progress] reports XP earned, the
    user's stored level afterwards is [calculate_level_from_xp] of the
    stored [total_xp]: the XP and the level are written together. *)
Theorem challenge_xp_keeps_level
    (us : list user) (uid t : string) (inc : Z) (w : string) (xp : Z) (us' : list user) :
  update_challenge_progress (Some us) uid t inc w = (xp, Some us') -> 0 < xp ->
  level_consistent (Some us') uid.
Proof.
  intros E Hxp.
  unfold update_challenge_progress, update_challenge_progress_m, catch_m, catch, bind in E.
  destruct (get_daily_challenges_m uid w us) as [[[ch|]|] us1] eqn:E1;
    cbv beta iota in E; [| unfold ret in E; injection E as <- <-; lia
                         | injection E as <- <-; lia].
  destruct (progress_step t inc ch) as [ch' xe] eqn:Ep. cbv beta iota in E.
  destruct (update_one uid (fun u => Some (set_daily ch' u)) us1) as [[[]|] us2] eqn:E2;
    cbv beta iota in E; [|injection E as <- <-; lia].
  destruct (0 <? xe) eqn:Exe; cbv beta iota in E; [|unfold ret in E; injection E as <- <-; lia].
  unfold find_one in E. cbv beta iota in E.
  destruct (find_user us2 uid) as [cur|] eqn:E3; cbv beta iota in E.
  2:{ unfold ret in E. cbv beta iota in E. injection E as <- <-. simpl. rewrite E3. exact I. }
  set (nx := match u_total_xp cur with Some x => x | None => 0 end + xe) in E.
  unfold update_one in E.
  destruct (update_first_found us2 uid
              (fun u => Some (set_xp_level nx (Level.calculate_level_from_xp nx) u))
              cur (set_xp_level nx (Level.calculate_level_from_xp nx) cur) E3 eq_refl
              (eq_trans (u_id_set_xp_level _ _ cur) (find_user_id _ _ _ E3)))
    as [us3 [H1 [H2 _]]].
  rewrite H1 in E. cbv beta iota in E.
  destruct (cab_step us3 uid _ H2) as [us4 [H4 [H5 _]]].
  rewrite H4 in E. unfold ret in E. cbv beta iota in E. injection E as <- <-.
  unfold level_consistent. rewrite H5, cab_user_level.
  destruct (cab_user_fields (set_xp_level nx (Level.calculate_level_from_xp nx) cur))
    as [_ [_ Hx]].
  rewrite Hx. reflexivity.
Qed.

Lemma challenge_xp_keeps_level_witness :
  0 < fst (update_challenge_progress (Some Fixtures.ch_store) "u" "practice" 1 "2026-W42") /\
  level_consistent (snd (update_challenge_progress (Some Fixtures.ch_store) "u" "practice" 1
                           "2026-W42")) "u".
Proof.
  assert (Hs : exists us', snd (update_challenge_progress (Some Fixtures.ch_store) "u"
                                  "practice" 1 "2026-W42") = Some us')
    by (eexists; vm_compute; reflexivity).
  assert (Hp : 0 < fst (update_challenge_progress (Some Fixtures.ch_store) "u" "practice" 1
                          "2026-W42")) by (vm_compute; reflexivity).
  revert Hs Hp.
  destruct (update_challenge_progress (Some Fixtures.ch_store) "u" "practice" 1 "2026-W42")
    as [xp c] eqn:E.
  cbn [fst snd]. intros [us' Hc] Hp. subst c.
  split; [exact Hp|]. exact (challenge_xp_keeps_level _ _ _ _ _ _ _ E Hp).
Defined.

End ChallengeExtraClaims.

(* ================================================================== *)
(** ** Login streak and activity counters *)

Module ActivityFacts.
Import Users UserFacts BadgeFacts Activity.
Lemma bind_some {A B} (m : M A) (k : A -> M B) (us us1 : list user) (a : A) :
  m us = (Some a, us1) -> bind m k us = k a us1.
Proof. intros H. unfold bind. rewrite H. reflexivity. Qed.

Lemma cab_user_ach_other (u : user) (e : list (string * aval)) (k : string) :
  u_achievements u = Some (ADict e) -> k <> "badges_earned" ->
  exists e', u_achievements (cab_user u) = Some (ADict e') /\ dict_get e' k = dict_get e k.
Proof.
  intros Ha Hk. unfold cab_user, effective_achievements. rewrite Ha. cbv zeta.
  destruct (new_badges_of u e (earned_of e)).
  - exists e. auto.
  - eexists. split; [reflexivity|]. apply dict_get_set_other. congruence.
Qed.

(** The three [$set] writes followed by [check_and_award_badges]. *)
Lemma uls_writes (us0 : list user) (uid today : string) (s mx : Z) (u0 : user) :
  find_user us0 uid = Some u0 -> u_achievements u0 <> Some ANonDict ->
  exists us' v e',
    (_ <- update_one uid (fun u =>
           let? u1 := set_ach_field "daily_login_streak" (ANum s) u in
           let? u2 := set_ach_field "max_login_streak" (ANum mx) u1 in
           set_ach_field "last_login" (AStr today) u2) ;;
     _ <- check_and_award_badges_m uid ;;
     ret tt) us0 = (Some tt, us') /\
    find_user us' uid = Some v /\ u_achievements v = Some (ADict e') /\
    dict_get e' "daily_login_streak" = Some (ANum s) /\
    dict_get e' "max_login_streak" = Some (ANum mx) /\
    dict_get e' "last_login" = Some (AStr today).
Proof.
  intros Hf Hnd. pose proof (find_user_id _ _ _ Hf) as Hid.
  set (base := match u_achievements u0 with Some (ADict e) => e | _ => [] end).
  set (e3 := dict_set (dict_set (dict_set base "daily_login_streak" (ANum s))
               "max_login_streak" (ANum mx)) "last_login" (AStr today)).
  destruct (update_first_found us0 uid (fun u =>
           let? u1 := set_ach_field "daily_login_streak" (ANum s) u in
           let? u2 := set_ach_field "max_login_streak" (ANum mx) u1 in
           set_ach_field "last_login" (AStr today) u2) u0 (set_achievements (ADict e3) u0) Hf)
    as [us1 [H1 [H2 _]]].
  { unfold set_ach_field, e3, base.
    destruct (u_achievements u0) as [[e|]|]; [reflexivity|congruence|reflexivity]. }
  { exact Hid. }
  destruct (cab_step us1 uid _ H2) as [us2 [H3 [H4 _]]].
  destruct (cab_user_ach_other (set_achievements (ADict e3) u0) e3 "daily_login_streak" eq_refl)
    as [e' [Ha Hd]]; [discriminate|].
  exists us2, (cab_user (set_achievements (ADict e3) u0)), e'.
  split.
  { unfold bind at 1, update_one at 1. rewrite H1. unfold bind. rewrite H3. reflexivity. }
  split; [exact H4|]. split; [exact Ha|].
  assert (Hget : forall k, k <> "badges_earned" -> dict_get e' k = dict_get e3 k).
  { intros k Hk. destruct (cab_user_ach_other (set_achievements (ADict e3) u0) e3 k eq_refl Hk)
      as [e'' [Ha' Hd']]. rewrite Ha in Ha'. injection Ha' as <-. exact Hd'. }
  rewrite !Hget by discriminate. unfold e3.
  rewrite (dict_get_set_other _ "last_login") by discriminate.
  rewrite (dict_get_set_other _ "max_login_streak") by discriminate.
  rewrite dict_get_set_same.
  rewrite (dict_get_set_other _ "last_login") by discriminate.
  rewrite dict_get_set_same.
  rewrite dict_get_set_same. auto.
Qed.

Ltac uls_enter Hf :=
  unfold update_login_streak_m, catch_m, catch;
  rewrite (bind_some (find_one _) _ _ _ _ eq_refl), Hf; cbv beta iota.

Lemma uls_absent (us : list user) (uid today yesterday : string) :
  find_user us uid = None -> update_login_streak_m uid today yesterday us = (Some tt, us).
Proof. intros Hf. uls_enter Hf. reflexivity. Qed.

Lemma uls_same_day (us : list user) (uid today yesterday : string) (u : user) e :
  find_user us uid = Some u -> u_achievements u = Some (ADict e) ->
  is_str (dict_get e "last_login") today = true ->
  update_login_streak_m uid today yesterday us = (Some tt, us).
Proof.
  intros Hf Ha Ht. uls_enter Hf. rewrite Ha. cbv beta iota.
  rewrite (bind_some (ret tt) _ _ _ _ eq_refl). cbv beta iota zeta. rewrite Ht. reflexivity.
Qed.

(** A login on a new day with numeric counters reaches the writes. *)
Lemma uls_success (us : list user) (uid today yesterday : string) (u : user) (s m : Z) :
  find_user us uid = Some u ->
  is_str (dict_get (effective_achievements u) "last_login") today = false ->
  (if is_str (dict_get (effective_achievements u) "last_login") yesterday
   then option_map (fun s => s + 1)
          (num_or_default (dict_get (effective_achievements u) "daily_login_streak") 0)
   else Some 1) = Some s ->
  num_or_default (dict_get (effective_achievements u) "max_login_streak") 0 = Some m ->
  exists us' v e',
    update_login_streak_m uid today yesterday us = (Some tt, us') /\
    find_user us' uid = Some v /\ u_achievements v = Some (ADict e') /\
    dict_get e' "daily_login_streak" = Some (ANum s) /\
    dict_get e' "max_login_streak" = Some (ANum (Z.max s m)) /\
    dict_get e' "last_login" = Some (AStr today).
Proof.
  intros Hf Ht Hs Hm. pose proof (find_user_id _ _ _ Hf) as Hid.
  uls_enter Hf. unfold effective_achievements in Ht, Hs, Hm.
  destruct (u_achievements u) as [[e|]|] eqn:Ha; cbv beta iota.
  - rewrite (bind_some (ret tt) _ _ _ _ eq_refl). cbv beta iota zeta.
    rewrite Ht, Hs, Hm.
    destruct (uls_writes us uid today s (Z.max s m) u Hf) as [us' [v [e' [Hw Hr]]]].
    { rewrite Ha. discriminate. }
    rewrite Hw. exists us', v, e'. auto.
  - destruct (update_first_found us uid
                (fun u0 => Some (set_achievements (ADict init_user_achievements) u0))
                u (set_achievements (ADict init_user_achievements) u) Hf eq_refl Hid)
      as [us0 [H1 [H2 _]]].
    rewrite (bind_some (update_one _ _) _ us us0 tt) by (unfold update_one; rewrite H1; reflexivity).
    cbv beta iota zeta. rewrite Ht, Hs, Hm.
    destruct (uls_writes us0 uid today s (Z.max s m) _ H2) as [us' [v [e' [Hw Hr]]]].
    { discriminate. }
    rewrite Hw. exists us', v, e'. auto.
  - rewrite (bind_some (ret tt) _ _ _ _ eq_refl). cbv beta iota zeta.
    rewrite Ht, Hs, Hm.
    destruct (uls_writes us uid today s (Z.max s m) u Hf) as [us' [v [e' [Hw Hr]]]].
    { rewrite Ha. discriminate. }
    rewrite Hw. exists us', v, e'. auto.
Qed.

(** A [TypeError] on the counters leaves the collection unchanged (a
    malformed [achievements] is reset to numeric counters first, so
    the error can only come from a stored dict). *)
Lemma uls_raise (us : list user) (uid today yesterday : string) (u : user) :
  find_user us uid = Some u ->
  is_str (dict_get (effective_achievements u) "last_login") today = false ->
  (if is_str (dict_get (effective_achievements u) "last_login") yesterday
   then option_map (fun s => s + 1)
          (num_or_default (dict_get (effective_achievements u) "daily_login_streak") 0)
   else Some 1) = None \/
  num_or_default (dict_get (effective_achievements u) "max_login_streak") 0 = None ->
  update_login_streak_m uid today yesterday us = (Some tt, us).
Proof.
  intros Hf Ht Hnone.
  uls_enter Hf. unfold effective_achievements in Ht, Hnone.
  destruct (u_achievements u) as [[e|]|] eqn:Ha; cbv beta iota;
    [|simpl in Hnone; destruct Hnone; discriminate|simpl in Hnone; destruct Hnone; discriminate].
  rewrite (bind_some (ret tt) _ _ _ _ eq_refl). cbv beta iota zeta. rewrite Ht.
  destruct Hnone as [Hs|Hm].
  - rewrite Hs. reflexivity.
  - destruct (if is_str (dict_get e "last_login") yesterday then _ else _); [|reflexivity].
    rewrite Hm. reflexivity.
Qed.

Lemma activity_key (a : activity) :
  let k := activity_name a ++ "_count" in
  k <> "badges_earned" /\ k <> "level" /\ k <> "total_xp".
Proof. destruct a; cbn; repeat split; discriminate. Qed.

Lemma inc_ach_field_ok (k : string) (amount c0 : Z) (u : user) :
  u_achievements u <> Some ANonDict ->
  num_or_default (match u_achievements u with Some (ADict e) => dict_get e k | _ => None end) 0
    = Some c0 ->
  exists e1, inc_ach_field k amount u = Some (set_achievements (ADict e1) u) /\
    dict_get e1 k = Some (ANum (c0 + amount)).
Proof.
  intros Hnd Hc. unfold inc_ach_field.
  destruct (u_achievements u) as [[e|]|]; [|congruence|].
  - destruct (dict_get e k) as [[z| | |]|] eqn:Hk; simpl in Hc; try discriminate.
    + injection Hc as <-. eexists. split; [reflexivity|]. apply dict_get_set_same.
    + injection Hc as <-. eexists. split; [reflexivity|]. apply dict_get_set_same.
  - injection Hc as <-. eexists. split; [reflexivity|]. simpl. rewrite String.eqb_refl. reflexivity.
Qed.

End ActivityFacts.

Module ActivityClaims.
Import Users UserFacts BadgeFacts BadgeObs BadgeExtra Activity ActivityFacts.

(** X5.  On a day other than the stored [last_login], for an existing
    user whose streak counters are numbers (or absent),
    [update_login_streak] stores a daily streak one higher than before
    when [last_login] was yesterday and [1] otherwise, a maximum streak
    equal to the larger of the new streak and the old maximum, and
    today's date as [last_login]. *)
Theorem login_streak_values (us : list user) (uid today yesterday : string) (u : user)
    (s0 m0 : Z) :
  find_user us uid = Some u ->
  is_str (dict_get (effective_achievements u) "last_login") today = false ->
  num_or_default (dict_get (effective_achievements u) "daily_login_streak") 0 = Some s0 ->
  num_or_default (dict_get (effective_achievements u) "max_login_streak") 0 = Some m0 ->
  let s := if is_str (dict_get (effective_achievements u) "last_login") yesterday
           then s0 + 1 else 1 in
  stored_ach (update_login_streak (Some us) uid today yesterday) uid "daily_login_streak"
    = Some (ANum s) /\
  stored_ach (update_login_streak (Some us) uid today yesterday) uid "max_login_streak"
    = Some (ANum (Z.max s m0)) /\
  stored_ach (update_login_streak (Some us) uid today yesterday) uid "last_login"
    = Some (AStr today).
Proof.
  intros Hf Ht Hs Hm s.
  destruct (uls_success us uid today yesterday u s m0 Hf Ht) as [us' [v [e' [H [Hv [Ha Hr]]]]]].
  { unfold s. destruct (is_str _ yesterday); [rewrite Hs|]; reflexivity. }
  { exact Hm. }
  unfold update_login_streak, stored_ach. rewrite H. cbn [snd]. rewrite Hv, Ha. exact Hr.
Qed.


(** X6.  Calling [update_login_streak] twice on the same day leaves
    the collection as the first call left it, whatever the stored
    document (absent user, malformed achievements, non-numeric
    counters). *)
Theorem login_streak_same_day (coll : option (list user)) (uid today yesterday : string) :
  update_login_streak (update_login_streak coll uid today yesterday) uid today yesterday
  = update_login_streak coll uid today yesterday.
Proof.
  destruct coll as [us|]; [|reflexivity]. unfold update_login_streak. f_equal.
  destruct (find_user us uid) as [u|] eqn:Hf.
  2:{ rewrite (uls_absent us uid today yesterday Hf). cbn [snd].
       rewrite (uls_absent us uid today yesterday Hf). reflexivity. }
  destruct (is_str (dict_get (effective_achievements u) "last_login") today) eqn:Ht.
  - assert (He : exists e, u_achievements u = Some (ADict e)).
    { unfold effective_achievements in Ht.
      destruct (u_achievements u) as [[e|]|]; [eauto|discriminate|discriminate]. }
    destruct He as [e Ha]. unfold effective_achievements in Ht. rewrite Ha in Ht.
    rewrite (uls_same_day us uid today yesterday u e Hf Ha Ht). cbn [snd].
    rewrite (uls_same_day us uid today yesterday u e Hf Ha Ht). reflexivity.
  - destruct (if is_str (dict_get (effective_achievements u) "last_login") yesterday
              then option_map (fun s => s + 1)
                     (num_or_default (dict_get (effective_achievements u) "daily_login_streak") 0)
              else Some 1) as [s|] eqn:Hs.
    + destruct (num_or_default (dict_get (effective_achievements u) "max_login_streak") 0)
        as [m|] eqn:Hm.
      * destruct (uls_success us uid today yesterday u s m Hf Ht Hs Hm)
          as [us' [v [e' [H [Hv [Ha [_ [_ Hl]]]]]]]].
        rewrite H. cbn [snd].
        rewrite (uls_same_day us' uid today yesterday v e' Hv Ha); [reflexivity|].
        rewrite Hl. apply String.eqb_refl.
      * rewrite (uls_raise us uid today yesterday u Hf Ht (or_intror Hm)). cbn [snd].
        rewrite (uls_raise us uid today yesterday u Hf Ht (or_intror Hm)). reflexivity.
    + rewrite (uls_raise us uid today yesterday u Hf Ht (or_introl Hs)). cbn [snd].
      rewrite (uls_raise us uid today yesterday u Hf Ht (or_introl Hs)). reflexivity.
Qed.

(** X7.  For an existing user whose [achievements] is a dict (or
    absent) and whose activity counter is a number (or absent, read as
    0), [increment_activity] stores the counter raised by [amount], and
    every badge on that counter whose requirement the new value reaches
    is in the stored [badges_earned]. *)
Theorem increment_activity_counts (us : list user) (uid : string) (a : activity)
    (amount c0 : Z) (u : user) :
  find_user us uid = Some u -> u_achievements u <> Some ANonDict ->
  num_or_default (stored_ach (Some us) uid (activity_name a ++ "_count")) 0 = Some c0 ->
  stored_ach (increment_activity (Some us) uid a amount) uid (activity_name a ++ "_count")
    = Some (ANum (c0 + amount)) /\
  (forall bid req, In (bid, activity_name a ++ "_count", req) ALL_BADGES -> req <= c0 + amount ->
     In bid (earned_ids (increment_activity (Some us) uid a amount) uid)).
Proof.
  intros Hf Hnd Hc. pose proof (find_user_id _ _ _ Hf) as Hid.
  destruct (activity_key a) as [Hkb [Hkl Hkx]].
  set (k := activity_name a ++ "_count") in *.
  unfold stored_ach in Hc. rewrite Hf in Hc.
  destruct (inc_ach_field_ok k amount c0 u Hnd Hc) as [e1 [Hi He1]].
  destruct (update_first_found us uid (inc_ach_field k amount) u _ Hf Hi Hid)
    as [us1 [H1 [H2 _]]].
  destruct (cab_step us1 uid _ H2) as [us2 [H3 [H4 _]]].
  assert (Hrun : increment_activity (Some us) uid a amount = Some us2).
  { unfold increment_activity, increment_activity_m, catch_m, catch, bind, update_one.
    fold k. rewrite H1, H3. reflexivity. }
  rewrite Hrun. split.
  - unfold stored_ach. rewrite H4.
    destruct (cab_user_ach_other (set_achievements (ADict e1) u) e1 k eq_refl Hkb)
      as [e' [Ha Hd]].
    rewrite Ha, Hd. exact He1.
  - intros bid req Hin Hreq. rewrite (earned_ids_found us2 uid _ H4).
    apply cab_user_earned. apply (due_earned_or_new _ _ _ bid k req Hin).
    unfold badge_due, current_value. rewrite effective_set_achievements.
    apply String.eqb_neq in Hkl, Hkx. rewrite Hkl, Hkx, He1. exact Hreq.
Qed.


Lemma login_streak_values_witness :
  let u := Fixtures.student "u" 0 1
             (Some (ADict [("last_login", AStr "2026-10-16"); ("daily_login_streak", ANum 3);
                           ("max_login_streak", ANum 5)])) None in
  stored_ach (update_login_streak (Some [u]) "u" "2026-10-17" "2026-10-16") "u"
    "daily_login_streak" = Some (ANum 4).
Proof.
  intros u.
  pose proof (login_streak_values [u] "u" "2026-10-17" "2026-10-16" u 3 5
                  eq_refl eq_refl eq_refl eq_refl) as H.
  cbv zeta in H. destruct H as [H _]. rewrite H. reflexivity.
Defined.


Lemma increment_activity_counts_witness :
  let u := Fixtures.student "u" 0 1 (Some (ADict [("spelling_count", ANum 4)])) None in
  stored_ach (increment_activity (Some [u]) "u" Spelling 1) "u" (activity_name Spelling ++ "_count")
    = Some (ANum 5) /\
  In "spell_5" (earned_ids (increment_activity (Some [u]) "u" Spelling 1) "u").
Proof.
  intros u.
  pose proof (increment_activity_counts [u] "u" Spelling 1 4 u eq_refl ltac:(discriminate) eq_refl)
    as [H1 H2].
  split; [exact H1|]. apply (H2 "spell_5" 5); [simpl; tauto|lia].
Defined.

End ActivityClaims.

(* ================================================================== *)
(** ** Weekly XP and the migration helpers *)

Module WeeklyFacts.
Import Users UserFacts BadgeFacts BadgeObs BadgeExtra ChallengeFacts ChallengeExtra
  ActivityFacts Leaderboard Weekly.

Lemma inc_weekly_ok (week : string) (xp : Z) (u : user) :
  u_weekly_xp u <> Some WNonDict ->
  exists m', inc_weekly week xp u = Some (set_weekly (WDict m') u) /\
    forall w, get_or (dict_get m' w) 0 =
      match u_weekly_xp u with Some (WDict m) => get_or (dict_get m w) 0 | _ => 0 end
      + (if String.eqb w week then xp else 0).
Proof.
  intros Hnd. unfold inc_weekly.
  destruct (u_weekly_xp u) as [[m|]|]; [|congruence|].
  - eexists. split; [reflexivity|]. intros w.
    destruct (String.eqb_spec w week) as [->|Hne].
    + rewrite dict_get_set_same. reflexivity.
    + rewrite dict_get_set_other by congruence. lia.
  - eexists. split; [reflexivity|]. intros w. simpl.
    destruct (String.eqb_spec week w), (String.eqb_spec w week); subst; simpl; try congruence; lia.
Qed.

Lemma cab_user_not_nondict (u : user) : u_achievements (cab_user u) <> Some ANonDict.
Proof.
  unfold cab_user. cbv zeta.
  destruct (new_badges_of u (effective_achievements u) (earned_of (effective_achievements u))).
  - destruct (u_achievements u) as [[e|]|] eqn:Ha; cbn; rewrite ?Ha; discriminate.
  - cbn. discriminate.
Qed.

Lemma cab_user_all_due (u : user) (bid vt : string) (req : Z) :
  In (bid, vt, req) ALL_BADGES ->
  badge_due (cab_user u) (effective_achievements (cab_user u)) vt req ->
  In bid (earned_of (effective_achievements (cab_user u))).
Proof.
  intros Hin Hdue. destruct (due_earned_or_new _ _ (earned_of (effective_achievements (cab_user u))) bid vt req Hin Hdue) as [H|H]; [exact H|].
  rewrite cab_user_again in H. destruct H.
Qed.

Lemma migrate_updates_ok (x : user) :
  exists v, migrate_updates x x = Some v /\ u_id v = u_id x /\
    u_level v = Some (Level.calculate_level_from_xp (get_or (u_total_xp x) 0)) /\
    u_total_xp v = u_total_xp x.
Proof.
  unfold migrate_updates. cbv zeta.
  destruct (u_achievements x) as [[e|]|]; eexists; split; try reflexivity; auto.
Qed.

Lemma migrate_loop_spec (l us0 : list user) (m e : Z) :
  NoDup (map u_id l) -> (forall x, In x l -> find_user us0 (u_id x) = Some x) ->
  fst (migrate_loop l m e us0) = (m + Z.of_nat (List.length l), e) /\
  (forall x, In x l -> exists v, migrate_updates x x = Some v /\
                        find_user (snd (migrate_loop l m e us0)) (u_id x) = Some (cab_user v)) /\
  (forall w, ~ In w (map u_id l) -> find_user (snd (migrate_loop l m e us0)) w = find_user us0 w).
Proof.
  revert us0 m. induction l as [|x t IH]; intros us0 m Hnd Hin.
  - cbn. split; [f_equal; lia|]. split; [intros _ []|auto].
  - inversion Hnd as [|? ? Hx Hnd']. subst.
    destruct (migrate_updates_ok x) as [v [Hv [Hid _]]].
    assert (Hf : find_user us0 (u_id x) = Some x) by (apply Hin; left; reflexivity).
    destruct (update_first_found us0 (u_id x) (migrate_updates x) x v Hf Hv Hid)
      as [us1 [H1 [H2 H3]]].
    destruct (cab_step us1 (u_id x) v H2) as [us2 [H4 [H5 H6]]].
    assert (Hone : migrate_one x us0 = (Some tt, us2)).
    { unfold migrate_one, bind, update_one. rewrite H1, H4. reflexivity. }
    assert (Hrest : forall y, In y t -> find_user us2 (u_id y) = Some y).
    { intros y Hy. assert (Hne : u_id y <> u_id x).
      { intros Heq. apply Hx. rewrite <- Heq. apply in_map. exact Hy. }
      rewrite H6, H3 by exact Hne. apply Hin. right. exact Hy. }
    destruct (IH us2 (m + 1) Hnd' Hrest) as [R1 [R2 R3]].
    cbn [migrate_loop]. rewrite Hone. split; [|split].
    + rewrite R1. cbn [List.length]. f_equal. lia.
    + intros y [<-|Hy]; [|apply R2; exact Hy].
      exists v. split; [exact Hv|]. rewrite R3 by exact Hx. exact H5.
    + intros w Hw. rewrite R3 by (intros Hw'; apply Hw; right; exact Hw').
      assert (Hne : w <> u_id x) by (intros ->; apply Hw; left; reflexivity).
      rewrite H6, H3 by exact Hne. reflexivity.
Qed.

(** The listing [find({'user_type': {'$ne': 'teacher'}})] of a
    collection with distinct ids has distinct ids. *)
Lemma listed_ids_distinct (us : list user) :
  NoDup (map u_id us) -> NoDup (map u_id (filter not_teacher us)).
Proof.
  intros Hnd. induction us as [|x t IH]; [constructor|].
  cbn in Hnd. apply NoDup_cons_iff in Hnd. destruct Hnd as [Hx Ht].
  cbn. destruct (not_teacher x); [|exact (IH Ht)].
  cbn. apply NoDup_cons; [|exact (IH Ht)].
  rewrite in_map_iff. intros [y [Hy Hin]]. rewrite filter_In in Hin.
  apply Hx. rewrite <- Hy. apply in_map, Hin.
Qed.

Lemma nodup_find_user (us : list user) (u : user) :
  NoDup (map u_id us) -> In u us -> find_user us (u_id u) = Some u.
Proof.
  unfold find_user. induction us as [|x t IH]; cbn; intros Hnd Hin; [destruct Hin|].
  inversion Hnd as [|? ? Hx Ht]. subst.
  destruct Hin as [<-|Hin]; [rewrite String.eqb_refl; reflexivity|].
  destruct (String.eqb_spec (u_id x) (u_id u)) as [Heq|]; [|apply IH; assumption].
  exfalso. apply Hx. rewrite Heq. apply in_map. exact Hin.
Qed.

Lemma nodup_same_id (us : list user) (u x : user) :
  NoDup (map u_id us) -> In u us -> In x us -> u_id x = u_id u -> x = u.
Proof.
  intros Hnd Hu Hx Heq.
  pose proof (nodup_find_user us u Hnd Hu) as A.
  pose proof (nodup_find_user us x Hnd Hx) as B.
  rewrite Heq in B. congruence.
Qed.

Lemma set_weekly_field_spec (week : string) (x : Z) (u v : user) :
  set_weekly_field week x u = Some v ->
  u_id v = u_id u /\
  forall w, match u_weekly_xp v with Some (WDict m) => get_or (dict_get m w) 0 | _ => 0 end =
    if String.eqb w week then x
    else match u_weekly_xp u with Some (WDict m) => get_or (dict_get m w) 0 | _ => 0 end.
Proof.
  unfold set_weekly_field. destruct (u_weekly_xp u) as [[m|]|]; intros H; inversion H; subst;
    clear H; split; try reflexivity; intros w; cbn [u_weekly_xp set_weekly].
  - destruct (String.eqb_spec w week) as [->|Hne].
    + rewrite dict_get_set_same. reflexivity.
    + rewrite dict_get_set_other by congruence. reflexivity.
  - cbn. destruct (String.eqb_spec week w), (String.eqb_spec w week); subst; cbn; try reflexivity; congruence.
Qed.

Lemma backfill_loop_spec (week : string) (l us0 : list user) :
  NoDup (map u_id l) -> (forall x, In x l -> find_user us0 (u_id x) = Some x) ->
  (forall x, In x l -> needs_seed week x = true -> u_weekly_xp x <> Some WNonDict) ->
  exists us',
    backfill_loop week l us0 = (Some tt, us') /\
    (forall x, In x l ->
       if needs_seed week x
       then exists v, set_weekly_field week (get_or (u_total_xp x) 0) x = Some v /\
                      find_user us' (u_id x) = Some v
       else find_user us' (u_id x) = Some x) /\
    (forall w, ~ In w (map u_id l) -> find_user us' w = find_user us0 w).
Proof.
  revert us0. induction l as [|x t IH]; intros us0 Hnd Hin Hok.
  - exists us0. split; [reflexivity|]. split; [intros _ []|auto].
  - inversion Hnd as [|? ? Hx Hnd']. subst.
    assert (Hf : find_user us0 (u_id x) = Some x) by (apply Hin; left; reflexivity).
    assert (Hstep : exists us1,
      (if needs_seed week x
       then update_one (u_id x) (set_weekly_field week (get_or (u_total_xp x) 0))
       else ret tt) us0 = (Some tt, us1) /\
      (if needs_seed week x
       then exists v, set_weekly_field week (get_or (u_total_xp x) 0) x = Some v /\
                      find_user us1 (u_id x) = Some v
       else find_user us1 (u_id x) = Some x) /\
      (forall w, w <> u_id x -> find_user us1 w = find_user us0 w)).
    { destruct (needs_seed week x) eqn:Hn.
      - assert (Hw := Hok x (or_introl eq_refl) Hn).
        assert (Hv : exists v, set_weekly_field week (get_or (u_total_xp x) 0) x = Some v).
        { unfold set_weekly_field. destruct (u_weekly_xp x) as [[m|]|]; eauto; congruence. }
        destruct Hv as [v Hv].
        destruct (update_first_found us0 (u_id x) _ x v Hf Hv
                    (proj1 (set_weekly_field_spec _ _ _ _ Hv))) as [us1 [H1 [H2 H3]]].
        exists us1. unfold update_one. rewrite H1. eauto.
      - exists us0. auto. }
    destruct Hstep as [us1 [Hs [Hx1 Ho1]]].
    assert (Hrest : forall y, In y t -> find_user us1 (u_id y) = Some y).
    { intros y Hy. assert (Hne : u_id y <> u_id x).
      { intros Heq. apply Hx. rewrite <- Heq. apply in_map. exact Hy. }
      rewrite Ho1 by exact Hne. apply Hin. right. exact Hy. }
    destruct (IH us1 Hnd' Hrest (fun y Hy => Hok y (or_intror Hy))) as [us' [R1 [R2 R3]]].
    exists us'. split; [|split].
    + cbn [backfill_loop]. rewrite (bind_some _ _ _ _ _ Hs). exact R1.
    + intros y [<-|Hy]; [|apply R2; exact Hy].
      rewrite R3 by exact Hx. exact Hx1.
    + intros w Hw. rewrite R3 by (intros Hw'; apply Hw; right; exact Hw').
      apply Ho1. intros ->. apply Hw. left. reflexivity.
Qed.

End WeeklyFacts.

Module WeeklyClaims.
Import Users UserFacts BadgeFacts BadgeObs ChallengeFacts ChallengeExtra Leaderboard Weekly
  WeeklyFacts.

(** X8.  For an existing user whose [weekly_xp] is a dict (or absent),
    [update_weekly_xp] adds [xp_to_add] to the user's XP of [week] as
    the leaderboard reads it when [xp_to_add > 0], and changes nothing
    otherwise; the other weeks of the user and every other user keep
    their weekly XP. *)
Theorem weekly_xp_added (us : list user) (uid week : string) (xp : Z) (u : user) :
  find_user us uid = Some u -> u_weekly_xp u <> Some WNonDict ->
  forall w,
    weekly_of (update_weekly_xp (Some us) uid week xp) uid w =
      weekly_of (Some us) uid w + (if ((0 <? xp) && String.eqb w week)%bool then xp else 0) /\
    (forall v, v <> uid ->
       weekly_of (update_weekly_xp (Some us) uid week xp) v w = weekly_of (Some us) v w).
Proof.
  intros Hf Hnd w. unfold update_weekly_xp, update_weekly_xp_m.
  destruct (Z.leb_spec xp 0) as [Hle|Hlt].
  - replace (0 <? xp) with false by (symmetry; apply Z.ltb_ge; exact Hle).
    simpl. split; [lia|reflexivity].
  - replace (0 <? xp) with true by (symmetry; apply Z.ltb_lt; exact Hlt). cbn [andb].
    destruct (inc_weekly_ok week xp u Hnd) as [m' [Hi Hm']].
    destruct (update_first_found us uid (inc_weekly week xp) u _ Hf Hi (find_user_id _ _ _ Hf))
      as [us' [H1 [H2 H3]]].
    unfold catch_m, catch, update_one. rewrite H1. cbn [snd].
    unfold weekly_of. split.
    + rewrite H2, Hf. cbn [u_weekly_xp set_weekly]. apply Hm'.
    + intros v Hv. rewrite H3 by exact Hv. reflexivity.
Qed.

Lemma weekly_xp_added_witness :
  weekly_of (update_weekly_xp (Some Fixtures.lb_abc) "A" "2026-W42" 15) "A" "2026-W42" = 65.
Proof.
  destruct (weekly_xp_added Fixtures.lb_abc "A" "2026-W42" 15 (Fixtures.lb_student "A" 50 500)
              eq_refl ltac:(discriminate) "2026-W42") as [H _].
  rewrite H. reflexivity.
Defined.

(** X9.  On a collection with distinct ids,
    [migrate_all_users_levels_and_badges] reports every non-teacher as
    migrated and no error; afterwards each non-teacher's stored level is
    [calculate_level_from_xp] of their (unchanged) [total_xp], their
    [achievements] is no longer malformed, and every badge due on the
    stored document is in its [badges_earned]; teachers are untouched. *)
Theorem migrate_levels (us : list user) (r : Z * Z) (us' : list user) :
  NoDup (map u_id us) ->
  migrate_all_users_levels_and_badges (Some us) = (r, Some us') ->
  r = (Z.of_nat (List.length (filter not_teacher us)), 0) /\
  forall u, In u us ->
    if not_teacher u then
      exists v, find_user us' (u_id u) = Some v /\
        u_level v = Some (Level.calculate_level_from_xp (get_or (u_total_xp u) 0)) /\
        u_total_xp v = u_total_xp u /\
        u_achievements v <> Some ANonDict /\
        (forall bid vt req, In (bid, vt, req) ALL_BADGES ->
           badge_due v (effective_achievements v) vt req ->
           In bid (earned_of (effective_achievements v)))
    else find_user us' (u_id u) = Some u.
Proof.
  intros Hnd E. unfold migrate_all_users_levels_and_badges in E. cbv zeta in E.
  pose proof (listed_ids_distinct us Hnd) as Hnd'.
  destruct (migrate_loop_spec (filter not_teacher us) us 0 0 Hnd') as [R1 [R2 R3]].
  { intros x Hx. apply filter_In in Hx. apply nodup_find_user; [exact Hnd|apply Hx]. }
  destruct (migrate_loop (filter not_teacher us) 0 0 us) as [r0 us0]. cbn [fst snd] in *.
  injection E as <- <-. split; [exact R1|].
  intros u Hu. destruct (not_teacher u) eqn:Ht.
  - destruct (R2 u) as [v [Hv Hf]]; [apply filter_In; auto|].
    exists (cab_user v). split; [exact Hf|].
    destruct (migrate_updates_ok u) as [v' [Hv' [_ [Hl Hx]]]].
    rewrite Hv in Hv'. injection Hv' as <-.
    split; [rewrite cab_user_level; exact Hl|].
    split; [destruct (cab_user_fields v) as [_ [_ Hx']]; rewrite Hx'; exact Hx|].
    split; [apply cab_user_not_nondict|].
    intros bid vt req Hin Hdue. apply (cab_user_all_due v bid vt req Hin Hdue).
  - rewrite R3; [apply nodup_find_user; assumption|].
    intros Hin. apply in_map_iff in Hin. destruct Hin as [x [Hid Hx]].
    apply filter_In in Hx. destruct Hx as [Hx Hxt].
    rewrite (nodup_same_id us u x Hnd Hu Hx Hid) in Hxt. congruence.
Qed.

Lemma migrate_levels_witness :
  let us := [Fixtures.student "u" 200 1 (Some ANonDict) None;
             mk_user "t" None None None None (Some "teacher") None None None None None None None] in
  NoDup (map u_id us) /\ fst (migrate_all_users_levels_and_badges (Some us)) = (1, 0).
Proof.
  intros us. assert (Hnd : NoDup (map u_id us)).
  { repeat constructor; cbn; intuition discriminate. }
  split; [exact Hnd|].
  assert (Hs : exists r us', migrate_all_users_levels_and_badges (Some us) = (r, Some us')).
  { unfold migrate_all_users_levels_and_badges.
    destruct (migrate_loop (filter not_teacher us) 0 0 us) as [r us']. eauto. }
  destruct Hs as [r [us' E]]. rewrite E. cbn [fst].
  rewrite (proj1 (migrate_levels us r us' Hnd E)). reflexivity.
Defined.

(** X10.  On a collection with distinct ids where no non-teacher with
    positive XP has a malformed [weekly_xp], [backfill_weekly_xp] sets
    the XP of [week] of every non-teacher that has positive [total_xp]
    and no entry for [week] to their [total_xp]; every other weekly
    value of every user is unchanged. *)
Theorem backfill_seeds (us : list user) (week : string) :
  NoDup (map u_id us) ->
  (forall x, In x us -> not_teacher x = true -> u_weekly_xp x = Some WNonDict ->
     get_or (u_total_xp x) 0 <= 0) ->
  forall u w, In u us ->
    weekly_of (backfill_weekly_xp (Some us) week) (u_id u) w =
      if (not_teacher u && needs_seed week u && String.eqb w week)%bool
      then get_or (u_total_xp u) 0
      else weekly_of (Some us) (u_id u) w.
Proof.
  intros Hnd Hok u w Hu.
  destruct (backfill_loop_spec week (filter not_teacher us) us) as [us' [R1 [R2 R3]]].
  - apply listed_ids_distinct. exact Hnd.
  - intros x Hx. apply filter_In in Hx. apply nodup_find_user; [exact Hnd|apply Hx].
  - intros x Hx Hn Hw. apply filter_In in Hx. destruct Hx as [Hx Ht].
    specialize (Hok x Hx Ht Hw). unfold needs_seed in Hn. rewrite Hw in Hn.
    cbn [andb] in Hn. apply Z.ltb_lt in Hn. lia.
  - unfold backfill_weekly_xp, catch_m, catch. rewrite R1. cbn [snd].
    pose proof (nodup_find_user us u Hnd Hu) as Hf.
    unfold weekly_of. rewrite Hf.
    destruct (not_teacher u) eqn:Ht; cbn [andb].
    + specialize (R2 u (proj2 (filter_In _ _ _) (conj Hu Ht))).
      destruct (needs_seed week u); cbn [andb].
      * destruct R2 as [v [Hv Hfv]]. rewrite Hfv.
        rewrite (proj2 (set_weekly_field_spec _ _ _ _ Hv) w).
        destruct (String.eqb w week); reflexivity.
      * rewrite R2. destruct (String.eqb w week); reflexivity.
    + rewrite R3; [rewrite Hf; reflexivity|].
      intros Hin. apply in_map_iff in Hin. destruct Hin as [x [Hid Hx]].
      apply filter_In in Hx. destruct Hx as [Hx Hxt].
      rewrite (nodup_same_id us u x Hnd Hu Hx Hid) in Hxt. congruence.
Qed.

Lemma backfill_seeds_witness :
  let us := [Fixtures.student "u" 40 2 None None] in
  NoDup (map u_id us) /\
  weekly_of (backfill_weekly_xp (Some us) "2026-W42") "u" "2026-W42" = 40.
Proof.
  intros us. assert (Hnd : NoDup (map u_id us)) by (repeat constructor; cbn; tauto).
  split; [exact Hnd|].
  pose proof (backfill_seeds us "2026-W42" Hnd
                ltac:(intros x [<-|[]] _ H; discriminate)
                (Fixtures.student "u" 40 2 None None) "2026-W42" (or_introl eq_refl)) as H.
  change (u_id (Fixtures.student "u" 40 2 None None)) with "u" in H.
  rewrite H. reflexivity.
Defined.

End WeeklyClaims.

(* ================================================================== *)
(** ** Answer comparison *)

Module CompareFacts.
Import Compare.

Lemma spelling_entry_shift (a : ascii) (c s : string) (i : nat) :
  spelling_entry s (String a c) (S i) =
  spelling_entry (match s with EmptyString => EmptyString | String _ r => r end) c i.
Proof. unfold spelling_entry. destruct s; reflexivity. Qed.

Lemma flat_map_succ {B} (f : nat -> list B) (l : list nat) :
  flat_map f (map S l) = flat_map (fun i => f (S i)) l.
Proof. induction l as [|x t IH]; cbn; [reflexivity|]. rewrite IH. reflexivity. Qed.

Lemma spelling_cons (a : ascii) (c s : string) (n : nat) :
  flat_map (spelling_entry s (String a c)) (seq 0 (S n)) =
  (spelling_entry s (String a c) 0 ++
   flat_map (spelling_entry (match s with EmptyString => EmptyString | String _ r => r end) c)
     (seq 0 n))%list.
Proof.
  cbn [seq flat_map]. f_equal. rewrite <- seq_shift, flat_map_succ.
  apply flat_map_ext. intros i. apply spelling_entry_shift.
Qed.

Lemma spelling_nil (s : string) (l : list nat) : flat_map (spelling_entry s EmptyString) l = [].
Proof. induction l as [|x t IH]; [reflexivity|]. cbn. exact IH. Qed.

Lemma spelling_letters (c s : string) (n : nat) :
  (String.length c <= n)%nat ->
  map fst (flat_map (spelling_entry s c) (seq 0 n)) = list_ascii_of_string c.
Proof.
  revert s n. induction c as [|a c IH]; intros s n Hn.
  - rewrite spelling_nil. reflexivity.
  - destruct n as [|n]; [cbn in Hn; lia|].
    rewrite spelling_cons, map_app. cbn in Hn.
    rewrite (IH _ n) by lia.
    unfold spelling_entry. cbn.
    destruct s as [|b r]; cbn; [reflexivity|].
    destruct (Ascii.eqb b a); reflexivity.
Qed.

Lemma spelling_all_correct (c s : string) (n : nat) :
  (String.length c <= n)%nat ->
  forallb is_correct (flat_map (spelling_entry s c) (seq 0 n)) = String.prefix c s.
Proof.
  revert s n. induction c as [|a c IH]; intros s n Hn.
  - rewrite spelling_nil. destruct s; reflexivity.
  - destruct n as [|n]; [cbn in Hn; lia|].
    rewrite spelling_cons, forallb_app. cbn in Hn.
    rewrite (IH _ n) by lia.
    unfold spelling_entry. cbn.
    destruct s as [|b r]; cbn; [reflexivity|].
    destruct (Ascii.eqb_spec b a) as [->|Hne]; cbn.
    + destruct (ascii_dec a a) as [_|]; [reflexivity|contradiction].
    + destruct (ascii_dec a b) as [->|]; [contradiction|reflexivity].
Qed.

Lemma enumerate_nth {B} (f : nat * string -> B) (l : list string) (k i : nat) :
  nth_error (map f (combine (seq k (List.length l)) l)) i =
  match nth_error l i with Some w => Some (f (k + i, w))%nat | None => None end.
Proof.
  revert k i. induction l as [|w t IH]; intros k i; [destruct i; reflexivity|].
  destruct i as [|i]; [cbn; rewrite Nat.add_0_r; reflexivity|].
  cbn [seq combine map nth_error List.length]. rewrite IH.
  destruct (nth_error t i); [|reflexivity].
  replace (k + S i)%nat with (S k + i)%nat by lia. reflexivity.
Qed.

Lemma enumerate_snd (l : list string) (k : nat) :
  map snd (combine (seq k (List.length l)) l) = l.
Proof.
  revert k. induction l as [|w t IH]; intros k; [reflexivity|]. cbn. rewrite IH. reflexivity.
Qed.

Lemma word_entry_word (ms : string -> string -> nat) (sw : list string) (i : nat) (w : string) :
  fst (word_entry ms sw i w) = w.
Proof.
  unfold word_entry. destruct (nth_error sw i); [|reflexivity].
  destruct (Qle_bool _ _); reflexivity.
Qed.

Lemma ratio_self (ms : string -> string -> nat) (w : string) :
  ms w w = String.length w -> Qle_bool (4 # 5) (Scoring.ratio ms w w) = true.
Proof.
  intros H. unfold Scoring.ratio, Scoring.calculate_ratio. rewrite H.
  destruct (Nat.eqb_spec (String.length w + String.length w) 0) as [|Hn]; [reflexivity|].
  apply Qle_bool_iff. unfold Qle. cbn [Qnum Qden].
  rewrite <- (positive_nat_Z (Pos.of_nat _)), Nat2Pos.id by exact Hn. lia.
Qed.

End CompareFacts.

Module CompareClaims.
Import Compare CompareFacts.

(** X11.  [compare_spelling] lists exactly the letters of the
    lower-cased, stripped correct word, in order, one entry each: extra
    letters typed past its end are never reported. *)
Theorem spelling_letters_listed (student_spelling correct_word : string) :
  map fst (compare_spelling student_spelling correct_word) =
  list_ascii_of_string (Py.strip (Py.lower correct_word)).
Proof.
  unfold compare_spelling. cbv zeta. apply spelling_letters. apply Nat.le_max_r.
Qed.

(** X12.  Every entry of [compare_spelling] is ["correct"] exactly when
    the normalised student spelling starts with the normalised correct
    word (so ["cats"] for ["cat"] is reported all correct). *)
Theorem spelling_all_correct_iff_prefix (student_spelling correct_word : string) :
  forallb is_correct (compare_spelling student_spelling correct_word) =
  String.prefix (Py.strip (Py.lower correct_word)) (Py.strip (Py.lower student_spelling)).
Proof.
  unfold compare_spelling. cbv zeta. apply spelling_all_correct. apply Nat.le_max_r.
Qed.

(** X13.  [compare_words] lists the words of the lower-cased correct
    text in order, and an entry is ["missing"] exactly when its index
    is at or past the number of words the student said. *)
Theorem words_listed (ms : string -> string -> nat) (student_text correct_text : string) :
  map fst (compare_words ms student_text correct_text) = split_ws (Py.lower correct_text) /\
  forall i e, nth_error (compare_words ms student_text correct_text) i = Some e ->
    (snd e = WMissing <-> (List.length (split_ws (Py.lower student_text)) <= i)%nat).
Proof.
  unfold compare_words. cbv zeta. split.
  - rewrite map_map. rewrite <- (enumerate_snd (split_ws (Py.lower correct_text)) 0) at 3.
    apply map_ext. intros [i w]. apply word_entry_word.
  - intros i e. rewrite enumerate_nth.
    destruct (nth_error (split_ws (Py.lower correct_text)) i) as [w|]; [|discriminate].
    intros [= <-]. cbn. unfold word_entry.
    destruct (nth_error (split_ws (Py.lower student_text)) i) eqn:E.
    + split; [destruct (Qle_bool _ _); discriminate|].
      intros Hle. apply nth_error_None in Hle. congruence.
    + split; [intros _; apply nth_error_None; exact E|reflexivity].
Qed.

(** X14.  When the similarity ratio of a word with itself is computed
    from a full match (as [SequenceMatcher] does), [compare_words] marks
    every word of a text compared with itself ["correct"]. *)
Theorem same_text_all_correct (ms : string -> string -> nat) (text : string) :
  (forall w, ms w w = String.length w) ->
  forall e, In e (compare_words ms text text) -> snd e = WCorrect.
Proof.
  intros Hms e He. unfold compare_words in He. cbv zeta in He.
  apply In_nth_error in He. destruct He as [i Hi].
  rewrite enumerate_nth in Hi.
  destruct (nth_error (split_ws (Py.lower text)) i) as [w|] eqn:E; [|discriminate].
  injection Hi as <-. cbn. unfold word_entry. rewrite E.
  rewrite (ratio_self ms w (Hms w)). reflexivity.
Qed.

Lemma words_listed_witness :
  snd (nth 2%nat (compare_words (fun _ _ => 0%nat) "the cat" "The cat sat") (EmptyString, WCorrect))
  = WMissing.
Proof.
  apply (proj2 (proj2 (words_listed (fun _ _ => 0%nat) "the cat" "The cat sat") 2%nat
                  (nth 2%nat (compare_words (fun _ _ => 0%nat) "the cat" "The cat sat")
                     (EmptyString, WCorrect)) eq_refl)).
  vm_compute. lia.
Defined.

Lemma same_text_all_correct_witness :
  snd (hd (EmptyString, WMissing)
         (compare_words (fun a b => if String.eqb a b then String.length a else 0%nat)
            "The cat" "The cat")) = WCorrect.
Proof.
  apply (same_text_all_correct (fun a b => if String.eqb a b then String.length a else 0%nat)
           "The cat").
  - intros w. cbn beta. rewrite String.eqb_refl. reflexivity.
  - vm_compute. left. reflexivity.
Defined.

End CompareClaims.
(* ================================================================== *)
(** ** Teachers and admins *)

Module StaffFacts.
Import Users Account UserFacts SecurityFacts Staff.

Lemma dict_get_unset (fs : list (string * sval)) (k k2 : string) :
  dict_get (dict_unset fs k) k2 = if String.eqb k k2 then None else dict_get fs k2.
Proof.
  induction fs as [|[k' v'] t IH]; simpl.
  - destruct (String.eqb k k2); reflexivity.
  - destruct (String.eqb_spec k' k) as [->|Hne]; simpl.
    + rewrite IH. destruct (String.eqb_spec k k2) as [->|]; reflexivity.
    + destruct (String.eqb_spec k' k2) as [->|Hne2].
      * destruct (String.eqb_spec k k2) as [->|]; [congruence|reflexivity].
      * exact IH.
Qed.

Lemma update_by_id_absent (id : string) f (ds : list sdoc) :
  ~ In id (map d_id ds) -> update_by_id id f ds = ds.
Proof.
  induction ds as [|d t IH]; intros H; simpl; [reflexivity|].
  destruct (String.eqb_spec (d_id d) id) as [E|E].
  - exfalso. apply H. left. exact E.
  - rewrite IH; [reflexivity|]. intros Hi. apply H. right. exact Hi.
Qed.

(** Under distinct ids, [update_by_id] rewrites the document with that
    id wherever it is. *)
Lemma update_by_id_map (id : string) f (ds : list sdoc) :
  NoDup (map d_id ds) ->
  update_by_id id f ds =
  map (fun d => if String.eqb (d_id d) id then mk_sdoc (d_id d) (f (d_fields d)) else d) ds.
Proof.
  induction ds as [|d t IH]; intros H; simpl; [reflexivity|].
  inversion H as [|? ? Hn Ht]; subst.
  destruct (String.eqb_spec (d_id d) id) as [E|E].
  - f_equal. symmetry. rewrite <- (map_id t) at 2. apply map_ext_in.
    intros e He. destruct (String.eqb_spec (d_id e) id) as [E'|]; [|reflexivity].
    exfalso. apply Hn. rewrite E, <- E'. apply in_map. exact He.
  - f_equal. apply IH. exact Ht.
Qed.

Lemma update_by_id_ids (id : string) f (ds : list sdoc) :
  map d_id (update_by_id id f ds) = map d_id ds.
Proof.
  induction ds as [|d t IH]; simpl; [reflexivity|].
  destruct (String.eqb (d_id d) id); simpl; [reflexivity|]. rewrite IH. reflexivity.
Qed.

Lemma find_by_id_update_same (id : string) f (ds : list sdoc) (d : sdoc) :
  find_by_id ds id = Some d ->
  find_by_id (update_by_id id f ds) id = Some (mk_sdoc id (f (d_fields d))).
Proof.
  unfold find_by_id. induction ds as [|e t IH]; simpl; [discriminate|].
  destruct (String.eqb_spec (d_id e) id) as [E|E].
  - intros [= <-]. simpl. rewrite E, String.eqb_refl. reflexivity.
  - intros H. simpl. apply String.eqb_neq in E. rewrite E. exact (IH H).
Qed.

Lemma find_by_id_update_other (id id2 : string) f (ds : list sdoc) :
  id <> id2 -> find_by_id (update_by_id id f ds) id2 = find_by_id ds id2.
Proof.
  unfold find_by_id. intros Hne. induction ds as [|e t IH]; simpl; [reflexivity|].
  destruct (String.eqb_spec (d_id e) id) as [E|E]; simpl.
  - rewrite E. apply String.eqb_neq in Hne. rewrite Hne.
    destruct (String.eqb (d_id e) id2); reflexivity.
  - destruct (String.eqb (d_id e) id2); [reflexivity|exact IH].
Qed.

(** A query on a collection where one document is rewritten so that it
    no longer matches. *)
Lemma find_eq_update_drop (k : string) (v : sval) (id : string) f (ds : list sdoc) :
  NoDup (map d_id ds) ->
  (forall fs, field_is k v (mk_sdoc id (f fs)) = false) ->
  find_eq k v (update_by_id id f ds) =
  filter (fun d => negb (String.eqb (d_id d) id)) (find_eq k v ds).
Proof.
  intros Hn Hf. rewrite update_by_id_map by exact Hn. unfold find_eq.
  clear Hn. induction ds as [|d t IH]; simpl; [reflexivity|].
  destruct (String.eqb_spec (d_id d) id) as [E|E].
  - rewrite E, Hf.
    destruct (field_is k v d); cbn [filter]; rewrite ?E, ?String.eqb_refl; exact IH.
  - destruct (field_is k v d); simpl; [|exact IH].
    apply String.eqb_neq in E. rewrite E. simpl. f_equal. exact IH.
Qed.

(** [check_pw] on a stored value with fewer than two [$]. *)
Lemma split_once_count (s x y : string) :
  split_once s = Some (x, y) -> Py.count dollar s = S (Py.count dollar y).
Proof.
  revert x. induction s as [|c r IH]; intros x; simpl; [discriminate|].
  destruct (Ascii.eqb_spec c dollar) as [->|Hc].
  - intros [= <- <-]. reflexivity.
  - destruct (split_once r) as [[a b]|] eqn:E; [|discriminate].
    intros [= <- <-]. simpl. exact (IH a eq_refl).
Qed.

Lemma check_pw_few_dollars hi ms (stored provided : string) :
  (Py.count dollar stored < 2)%nat -> check_pw hi ms stored provided = false.
Proof.
  intros H. unfold check_pw, check_password_hash.
  destruct (split_once stored) as [[m rest]|] eqn:E1; [|reflexivity].
  apply split_once_count in E1.
  destruct (split_once rest) as [[salt hv]|] eqn:E2; [|reflexivity].
  apply split_once_count in E2. lia.
Qed.

Lemma is_hashed_generated hi (salt p : string) :
  is_hashed (hash_password hi salt p) = true.
Proof. reflexivity. Qed.

Lemma check_pw_val_generated hi ms (salt p : string) :
  ms default_method = true -> Py.count dollar salt = 0%nat ->
  check_pw_val hi ms (SStr (hash_password hi salt p)) p = true.
Proof.
  intros Hm Hs. unfold check_pw_val, hash_password.
  rewrite (check_pw_generated hi ms salt p p Hm Hs). apply String.eqb_refl.
Qed.

End StaffFacts.

Module StaffFacts2.
Import Users Account UserFacts SecurityFacts Staff StaffFacts.

Lemma existsb_id_absent (id : string) (ds : list sdoc) :
  ~ In id (map d_id ds) -> existsb (fun e => String.eqb (d_id e) id) ds = false.
Proof.
  intros H. apply Bool.not_true_iff_false. intros Hx.
  apply existsb_exists in Hx. destruct Hx as [e [He Hq]].
  apply String.eqb_eq in Hq. apply H. rewrite <- Hq. apply in_map. exact He.
Qed.

Lemma existsb_id_present (id : string) (ds : list sdoc) :
  In id (map d_id ds) -> existsb (fun e => String.eqb (d_id e) id) ds = true.
Proof.
  intros H. apply existsb_exists. apply in_map_iff in H. destruct H as [e [<- He]].
  exists e. split; [exact He|apply String.eqb_refl].
Qed.

Lemma update_by_id_last (id : string) f (ds : list sdoc) (t : sdoc) :
  ~ In id (map d_id ds) -> d_id t = id ->
  update_by_id id f (ds ++ [t]) = (ds ++ [mk_sdoc id (f (d_fields t))])%list.
Proof.
  intros H Ht. induction ds as [|d r IH]; simpl.
  - rewrite Ht, String.eqb_refl. reflexivity.
  - destruct (String.eqb_spec (d_id d) id) as [E|E].
    + exfalso. apply H. left. exact E.
    + rewrite IH; [reflexivity|]. intros Hi. apply H. right. exact Hi.
Qed.

Lemma find_skip {A} (p : A -> bool) (l l2 : list A) :
  (forall x, In x l -> p x = false) -> find p (l ++ l2) = find p l2.
Proof.
  induction l as [|x r IH]; intros H; simpl; [reflexivity|].
  rewrite (H x (or_introl eq_refl)). apply IH. intros y Hy. apply H. right. exact Hy.
Qed.

Lemma signup_store hi (ds : list sdoc) (tid un p name salt now : string) :
  ~ In tid (map d_id ds) ->
  create_teacher_request hi (Some ds) tid un p name salt now =
  (Some (mk_sdoc tid
     [("username", SStr un); ("password", SStr (hash_password hi salt p));
      ("name", SStr name); ("status", SStr "pending");
      ("created_at", SStr now); ("last_active", SStr now)]),
   Some (ds ++ [mk_sdoc tid
     [("username", SStr un); ("password", SStr (hash_password hi salt p));
      ("name", SStr name); ("status", SStr "pending");
      ("created_at", SStr now); ("last_active", SStr now)]])%list).
Proof.
  intros H. unfold create_teacher_request, insert_one. cbn [d_id].
  rewrite (existsb_id_absent tid ds H). reflexivity.
Qed.

Lemma find_by_id_in (ds : list sdoc) (id : string) :
  In id (map d_id ds) -> exists d, find_by_id ds id = Some d.
Proof.
  unfold find_by_id. induction ds as [|e t IH]; simpl; [contradiction|].
  intros [E|H].
  - rewrite E, String.eqb_refl. eexists. reflexivity.
  - destruct (String.eqb (d_id e) id); [eexists; reflexivity|exact (IH H)].
Qed.

(** A query on a collection where one document is rewritten so that it
    matches. *)
Lemma find_eq_update_add (k : string) (v : sval) (id : string) f (ds : list sdoc) :
  NoDup (map d_id ds) ->
  (forall fs, field_is k v (mk_sdoc id (f fs)) = true) ->
  map d_id (find_eq k v (update_by_id id f ds)) =
  map d_id (filter (fun d => field_is k v d || String.eqb (d_id d) id) ds).
Proof.
  intros Hn Hf. rewrite update_by_id_map by exact Hn. unfold find_eq.
  clear Hn. induction ds as [|d t IH]; simpl; [reflexivity|].
  destruct (String.eqb_spec (d_id d) id) as [E|E].
  - rewrite E, Hf, orb_true_r. simpl. rewrite E. f_equal. exact IH.
  - rewrite orb_false_r. destruct (field_is k v d); simpl; [f_equal|]; exact IH.
Qed.

End StaffFacts2.

Module StaffClaims.
Import Users Account UserFacts SecurityFacts Staff StaffFacts StaffFacts2.

(** X15.  A sign-up with a fresh id (and a username no other teacher
    has) is stored as a pending teacher appended to the pending list;
    the teacher cannot log in while pending or after rejection; after
    approval the teacher logs in with the sign-up password and only with
    a password that hashes the same, and is no longer pending.  A second
    sign-up with the same id returns [None] and changes nothing. *)
Theorem teacher_signup_lifecycle
    (hi : string -> string -> string -> string) (ms : string -> bool)
    (ds : list sdoc) (tid un p name salt now salt' now' : string) :
  ~ In tid (map d_id ds) ->
  (forall d, In d ds -> field_is "username" (SStr un) d = false) ->
  ms default_method = true -> Py.count dollar salt = 0%nat ->
  exists t ds1,
    create_teacher_request hi (Some ds) tid un p name salt now = (Some t, Some ds1) /\
    get_pending_teachers (Some ds1) = (get_pending_teachers (Some ds) ++ [t])%list /\
    fst (teacher_login hi ms (Some ds1) un p salt' now') = LoginPending /\
    fst (teacher_login hi ms (snd (reject_teacher (Some ds1) tid)) un p salt' now') = LoginRejected /\
    fst (teacher_login hi ms (snd (approve_teacher (Some ds1) tid)) un p salt' now') = LoginOk tid /\
    (forall q, hi default_method salt q <> hi default_method salt p ->
       fst (teacher_login hi ms (snd (approve_teacher (Some ds1) tid)) un q salt' now')
       = LoginIncorrect) /\
    get_pending_teachers (snd (approve_teacher (Some ds1) tid)) = get_pending_teachers (Some ds) /\
    get_pending_teachers (snd (reject_teacher (Some ds1) tid)) = get_pending_teachers (Some ds) /\
    (forall un2 p2 name2 salt2 now2,
       create_teacher_request hi (Some ds1) tid un2 p2 name2 salt2 now2 = (None, Some ds1)).
Proof.
  intros Hid Hun Hm Hs. rewrite (signup_store hi ds tid un p name salt now Hid).
  eexists _, _. split; [reflexivity|].
  unfold get_pending_teachers, find_eq, approve_teacher, reject_teacher, teacher_update.
  cbn [snd]. rewrite !(update_by_id_last tid _ ds (mk_sdoc tid _) Hid eq_refl).
  unfold teacher_login, get_teacher_by_username.
  rewrite !(find_skip _ _ _ Hun). rewrite !filter_app.
  cbn - [hash_password check_pw_val].
  rewrite !String.eqb_refl.
  cbn - [hash_password check_pw_val].
  rewrite (check_pw_val_generated hi ms salt p Hm Hs).
  do 4 (split; [reflexivity|]).
  split; [|split; [|split]].
  - intros q Hq. unfold check_pw_val, hash_password.
    rewrite (check_pw_generated hi ms salt p q Hm Hs).
    apply String.eqb_neq in Hq. rewrite Hq. reflexivity.
  - apply app_nil_r.
  - apply app_nil_r.
  - intros un2 p2 name2 salt2 now2. unfold create_teacher_request, insert_one. cbn [d_id].
    unfold insert_one. cbn [d_id]. rewrite existsb_id_present; [reflexivity|].
    rewrite map_app, in_app_iff. right. left. reflexivity.
Qed.

(** X16.  On a collection with distinct ids, after
    [request_teacher_password_reset] the admin's list of reset requests
    holds, in collection order, the teachers that requested before and
    the requesting teacher (if it exists), and no one else. *)
Theorem reset_request_listed (ds : list sdoc) (tid now : string) :
  NoDup (map d_id ds) ->
  map d_id (get_teachers_requesting_password_reset
              (snd (request_teacher_password_reset (Some ds) tid now))) =
  map d_id (filter (fun d => field_is "password_reset_requested" (SBool true) d
                             || String.eqb (d_id d) tid) ds).
Proof.
  intros Hn. unfold get_teachers_requesting_password_reset, request_teacher_password_reset,
    teacher_update. cbn [snd].
  apply find_eq_update_add; [exact Hn|].
  intros fs. unfold field_is, set_unset. cbn [fold_left d_fields fst snd].
  rewrite dict_get_set_other by discriminate. rewrite dict_get_set_same. reflexivity.
Qed.

(** X17.  On a collection with distinct ids, both
    [admin_reset_teacher_password] and [clear_password_reset_request]
    remove exactly that teacher from the list of reset requests; after
    the admin reset, the teacher's stored password accepts the new
    password (werkzeug's default method available, salt free of [$]). *)
Theorem reset_resolved (hi : string -> string -> string -> string) (ms : string -> bool)
    (ds : list sdoc) (tid new_password salt : string) :
  NoDup (map d_id ds) ->
  get_teachers_requesting_password_reset
    (snd (admin_reset_teacher_password hi (Some ds) tid new_password salt)) =
  filter (fun d => negb (String.eqb (d_id d) tid)) (get_teachers_requesting_password_reset (Some ds)) /\
  get_teachers_requesting_password_reset (snd (clear_password_reset_request (Some ds) tid)) =
  filter (fun d => negb (String.eqb (d_id d) tid)) (get_teachers_requesting_password_reset (Some ds)) /\
  (ms default_method = true -> Py.count dollar salt = 0%nat -> In tid (map d_id ds) ->
   (match snd (admin_reset_teacher_password hi (Some ds) tid new_password salt) with
   | Some ds' =>
       match find_by_id ds' tid with
       | Some d => match dict_get (d_fields d) "password" with
                   | Some v => check_pw_val hi ms v new_password
                   | None => false
                   end
       | None => false
       end
   | None => false
   end) = true).
Proof.
  intros Hn.
  unfold get_teachers_requesting_password_reset, admin_reset_teacher_password,
    clear_password_reset_request, teacher_update. cbn [snd].
  split; [|split].
  - apply find_eq_update_drop; [exact Hn|]. intros fs. unfold field_is, set_unset.
    cbn [fold_left d_fields fst snd]. rewrite !dict_get_unset. reflexivity.
  - apply find_eq_update_drop; [exact Hn|]. intros fs. unfold field_is, set_unset.
    cbn [fold_left d_fields fst snd]. rewrite !dict_get_unset. reflexivity.
  - intros Hm Hs Hin. destruct (find_by_id_in ds tid Hin) as [d Hd].
    rewrite (find_by_id_update_same _ _ _ d Hd). unfold set_unset.
    cbn [fold_left d_fields fst snd]. rewrite !dict_get_unset. cbn.
    rewrite dict_get_set_same. apply check_pw_val_generated; assumption.
Qed.

Lemma teacher_signup_lifecycle_witness :
  exists t ds1,
    create_teacher_request (fun _ _ p => p) (Some []) "t1" "ann" "pw" "Ann" "s" "n"
    = (Some t, Some ds1) /\
    fst (teacher_login (fun _ _ p => p) (fun _ => true) (snd (approve_teacher (Some ds1) "t1"))
           "ann" "pw" "s2" "n2") = LoginOk "t1".
Proof.
  destruct (teacher_signup_lifecycle (fun _ _ p => p) (fun _ => true) [] "t1" "ann" "pw" "Ann"
              "s" "n" "s2" "n2" (fun H => H) (fun d H => False_ind _ H) eq_refl eq_refl)
    as (t & ds1 & H1 & _ & _ & _ & H5 & _).
  exists t, ds1. split; assumption.
Defined.

Lemma reset_request_listed_witness :
  map d_id (get_teachers_requesting_password_reset
              (snd (request_teacher_password_reset
                      (Some [mk_sdoc "t1" [("username", SStr "a")];
                             mk_sdoc "t2" [("username", SStr "b")]]) "t2" "now")))
  = ["t2"].
Proof.
  rewrite (reset_request_listed [mk_sdoc "t1" [("username", SStr "a")];
                                 mk_sdoc "t2" [("username", SStr "b")]] "t2" "now").
  - reflexivity.
  - repeat constructor; cbn; intuition discriminate.
Defined.

Lemma reset_resolved_witness :
  get_teachers_requesting_password_reset
    (snd (admin_reset_teacher_password (fun _ _ p => p)
            (Some [mk_sdoc "t1" [("username", SStr "a"); ("password_reset_requested", SBool true)]])
            "t1" "new" "s")) = [].
Proof.
  rewrite (proj1 (reset_resolved (fun _ _ p => p) (fun _ => true)
    [mk_sdoc "t1" [("username", SStr "a"); ("password_reset_requested", SBool true)]]
    "t1" "new" "s" ltac:(repeat constructor; cbn; intuition discriminate))).
  reflexivity.
Defined.

End StaffClaims.

Module AdminFacts.
Import Users Account UserFacts SecurityFacts Staff StaffFacts StaffFacts2.

Lemma find_by_id_update (id : string) f (ds : list sdoc) :
  find_by_id (update_by_id id f ds) id =
  option_map (fun d => mk_sdoc id (f (d_fields d))) (find_by_id ds id).
Proof.
  unfold find_by_id. induction ds as [|e t IH]; simpl; [reflexivity|].
  destruct (String.eqb_spec (d_id e) id) as [E|E]; simpl.
  - rewrite E, String.eqb_refl. reflexivity.
  - apply String.eqb_neq in E. rewrite E. exact IH.
Qed.

Lemma find_by_id_nodup_in (ds : list sdoc) (a : sdoc) :
  NoDup (map d_id ds) -> In a ds -> find_by_id ds (d_id a) = Some a.
Proof.
  unfold find_by_id. induction ds as [|e t IH]; simpl; [contradiction|].
  intros Hn [<-|Ha]; inversion Hn as [|? ? He Ht]; subst.
  - rewrite String.eqb_refl. reflexivity.
  - destruct (String.eqb_spec (d_id e) (d_id a)) as [E|E].
    + exfalso. apply He. rewrite E. apply in_map. exact Ha.
    + exact (IH Ht Ha).
Qed.

Lemma find_by_id_none_notin (ds : list sdoc) (id : string) :
  ~ In id (map d_id ds) -> find_by_id ds id = None.
Proof.
  unfold find_by_id. induction ds as [|e t IH]; simpl; [reflexivity|].
  intros H. destruct (String.eqb_spec (d_id e) id) as [E|E].
  - exfalso. apply H. left. exact E.
  - apply IH. intros Hi. apply H. right. exact Hi.
Qed.

Lemma rehash_step hi so (a : sdoc) (rest cur : list sdoc) :
  pw_is_str a ->
  rehash_admins hi so (a :: rest) cur =
  rehash_admins hi so rest
    (match plain_pw a with
     | Some s => update_by_id (d_id a)
                   (set_unset [("password", SStr (hash_password hi (so (d_id a)) s))] []) cur
     | None => cur
     end).
Proof.
  intros Ha. unfold plain_pw. cbn [rehash_admins].
  destruct (dict_get (d_fields a) "password") as [v|] eqn:E; [|reflexivity].
  destruct (Ha v E) as [s ->]. cbn [Leaderboard.get_or truthy_sval].
  destruct (Py.truthy s), (is_hashed s); reflexivity.
Qed.

Lemma rehash_find hi so (snap cur : list sdoc) :
  (forall a, In a snap -> pw_is_str a) -> NoDup (map d_id snap) ->
  forall id, find_by_id (rehash_admins hi so snap cur) id =
  match find_by_id snap id with
  | Some a =>
      match plain_pw a with
      | Some s => option_map (fun d => mk_sdoc id
                    (set_unset [("password", SStr (hash_password hi (so id) s))] [] (d_fields d)))
                    (find_by_id cur id)
      | None => find_by_id cur id
      end
  | None => find_by_id cur id
  end.
Proof.
  revert cur. induction snap as [|a rest IH]; intros cur Hs Hn id; [reflexivity|].
  inversion Hn as [|? ? Ha Hr]; subst.
  rewrite (rehash_step hi so a rest cur (Hs a (or_introl eq_refl))).
  rewrite (IH _ (fun b Hb => Hs b (or_intror Hb)) Hr id).
  assert (Hf : find_by_id (a :: rest) id =
    if String.eqb (d_id a) id then Some a else find_by_id rest id) by reflexivity.
  rewrite Hf. destruct (String.eqb_spec (d_id a) id) as [E|E].
  - subst id. rewrite (find_by_id_none_notin rest (d_id a) Ha).
    destruct (plain_pw a) as [s|]; [|reflexivity].
    apply find_by_id_update.
  - assert (Hc : find_by_id (match plain_pw a with
        | Some s => update_by_id (d_id a)
                      (set_unset [("password", SStr (hash_password hi (so (d_id a)) s))] []) cur
        | None => cur end) id = find_by_id cur id).
    { destruct (plain_pw a); [apply find_by_id_update_other; exact E|reflexivity]. }
    destruct (find_by_id rest id) as [b|]; [destruct (plain_pw b)|]; rewrite ?Hc; reflexivity.
Qed.

Lemma rehash_ids hi so (snap cur : list sdoc) :
  (forall a, In a snap -> pw_is_str a) ->
  map d_id (rehash_admins hi so snap cur) = map d_id cur.
Proof.
  revert cur. induction snap as [|a rest IH]; intros cur Hs; [reflexivity|].
  rewrite (rehash_step hi so a rest cur (Hs a (or_introl eq_refl))).
  rewrite (IH _ (fun b Hb => Hs b (or_intror Hb))).
  destruct (plain_pw a); [apply update_by_id_ids|reflexivity].
Qed.

End AdminFacts.

Module AdminClaims.
Import Users Account UserFacts SecurityFacts Staff StaffFacts StaffFacts2 AdminFacts.

(** X18.  A teacher whose stored password is a string with fewer than
    two [$] (a plain-text password such as ["secret"]) never logs in:
    [check_pw] rejects even the stored string itself, the [/login]
    route answers pending, rejected or incorrect, and nothing is
    written, so the rehash of legacy passwords on login is never
    reached for them. *)
Theorem legacy_plaintext_rejected (hi : string -> string -> string -> string)
    (ms : string -> bool) (coll : option (list sdoc)) (username password salt now : string)
    (t : sdoc) (stored : string) :
  get_teacher_by_username coll username = Some t ->
  dict_get (d_fields t) "password" = Some (SStr stored) ->
  (Py.count dollar stored < 2)%nat ->
  check_pw hi ms stored stored = false /\
  snd (teacher_login hi ms coll username password salt now) = coll /\
  (forall tid, fst (teacher_login hi ms coll username password salt now) <> LoginOk tid).
Proof.
  intros Ht Hp Hc. split; [apply check_pw_few_dollars; exact Hc|].
  unfold teacher_login. rewrite Ht.
  destruct (sval_eqb _ (SStr "pending")); [split; [reflexivity|discriminate]|].
  destruct (sval_eqb _ (SStr "rejected")); [split; [reflexivity|discriminate]|].
  rewrite Hp. cbn [check_pw_val]. rewrite (check_pw_few_dollars hi ms stored password Hc).
  split; [reflexivity|discriminate].
Qed.

(** X19.  [ensure_default_admin] on an empty collection creates the
    single admin [admin_001] named [admin], with role [admin] and a
    hashed password that accepts [admin123].  On a non-empty collection
    with distinct ids whose stored passwords are strings, it keeps the
    admins and their order, replaces each non-empty password that
    [is_hashed] does not recognise by a hash that accepts it, and
    leaves every other admin unchanged. *)
Theorem ensure_default_admin_spec (hi : string -> string -> string -> string)
    (ms : string -> bool) (salt_of : string -> string) (now : string) :
  ms default_method = true -> (forall id, Py.count dollar (salt_of id) = 0%nat) ->
  (exists a, ensure_default_admin hi (Some []) salt_of now = Some [a] /\
     d_id a = "admin_001" /\ get_admin_by_username (Some [a]) "admin" = Some a /\
     dict_get (d_fields a) "role" = Some (SStr "admin") /\
     exists h, dict_get (d_fields a) "password" = Some (SStr h) /\
       is_hashed h = true /\ check_pw hi ms h "admin123" = true) /\
  (forall ds, ds <> [] -> NoDup (map d_id ds) -> (forall a, In a ds -> pw_is_str a) ->
   exists ds', ensure_default_admin hi (Some ds) salt_of now = Some ds' /\
     map d_id ds' = map d_id ds /\
     forall a, In a ds -> exists a', find_by_id ds' (d_id a) = Some a' /\
       match dict_get (d_fields a) "password" with
       | Some (SStr s) =>
           if Py.truthy s && negb (is_hashed s)
           then exists h, d_fields a' = dict_set (d_fields a) "password" (SStr h) /\
                  is_hashed h = true /\ check_pw hi ms h s = true
           else a' = a
       | _ => a' = a
       end).
Proof.
  intros Hm Hs. split.
  - eexists. split; [reflexivity|]. split; [reflexivity|]. split.
    + cbn. reflexivity.
    + split; [reflexivity|]. eexists. split; [reflexivity|]. split; [reflexivity|].
      unfold hash_password. rewrite (check_pw_generated hi ms _ _ _ Hm (Hs _)).
      apply String.eqb_refl.
  - intros ds Hne Hn Hp. exists (rehash_admins hi salt_of ds ds). split.
    + unfold ensure_default_admin. destruct ds as [|d r]; [congruence|reflexivity].
    + split; [apply rehash_ids; exact Hp|].
      intros a Ha. rewrite (rehash_find hi salt_of ds ds Hp Hn (d_id a)).
      rewrite (find_by_id_nodup_in ds a Hn Ha).
      unfold plain_pw.
      destruct (dict_get (d_fields a) "password") as [v|] eqn:E;
        [|eexists; split; reflexivity].
      destruct (Hp a Ha v E) as [s ->].
      destruct (Py.truthy s && negb (is_hashed s)) eqn:Hc; [|eexists; split; reflexivity].
      cbn [option_map]. eexists. split; [reflexivity|].
      exists (hash_password hi (salt_of (d_id a)) s). split; [|split].
      * reflexivity.
      * apply is_hashed_generated.
      * unfold hash_password. rewrite (check_pw_generated hi ms _ _ _ Hm (Hs _)).
        apply String.eqb_refl.
Qed.

Lemma legacy_plaintext_rejected_witness :
  fst (teacher_login (fun _ _ p => p) (fun _ => true)
         (Some [mk_sdoc "t0" [("username", SStr "bob"); ("password", SStr "secret")]])
         "bob" "secret" "s" "n") <> LoginOk "t0".
Proof.
  assert (Hc : (Py.count dollar "secret" < 2)%nat) by (vm_compute; lia).
  destruct (legacy_plaintext_rejected (fun _ _ p => p) (fun _ => true)
              (Some [mk_sdoc "t0" [("username", SStr "bob"); ("password", SStr "secret")]])
              "bob" "secret" "s" "n"
              (mk_sdoc "t0" [("username", SStr "bob"); ("password", SStr "secret")]) "secret"
              eq_refl eq_refl Hc) as (_ & _ & H).
  exact (H "t0").
Defined.

Lemma ensure_default_admin_spec_witness :
  exists a, ensure_default_admin (fun _ _ p => p) (Some []) (fun _ => "salt") "now" = Some [a] /\
    d_id a = "admin_001".
Proof.
  destruct (proj1 (ensure_default_admin_spec (fun _ _ p => p) (fun _ => true) (fun _ => "salt")
                     "now" eq_refl (fun _ => eq_refl))) as (a & H1 & H2 & _).
  exists a. split; assumption.
Defined.

End AdminClaims.

(* ================================================================== *)
(** ** Deleting conversations *)

Module ConvDeleteFacts.
Import Conversations ConvDelete UserFacts PyFacts ConversationFacts.






End ConvDeleteFacts.

Module ConvDeleteClaims.
Import Conversations ConvDelete UserFacts PyFacts ConversationFacts ConvDeleteFacts.



End ConvDeleteClaims.

(* ================================================================== *)
(** ** The mistake tracker *)

Module MistakeFacts.
Import Users Mistakes UserFacts.

Section Log.
Variable E : Type.

Lemma last_n_snoc {A} (k : nat) (l : list A) (x : A) :
  Py.last_n k (Py.last_n k l ++ [x]) = Py.last_n k (l ++ [x]).
Proof.
  unfold Py.last_n.
  destruct (Nat.le_gt_cases (List.length l) k) as [Hle|Hgt].
  - replace (List.length l - k)%nat with 0%nat by lia. reflexivity.
  - assert (Hl : l = (firstn (List.length l - k) l ++ skipn (List.length l - k) l)%list)
      by (symmetry; apply firstn_skipn).
    assert (Hq : List.length (skipn (List.length l - k) l) = k) by (rewrite length_skipn; lia).
    assert (Hp : List.length (firstn (List.length l - k) l) = (List.length l - k)%nat)
      by (rewrite length_firstn; lia).
    set (q := skipn (List.length l - k) l) in *.
    set (p := firstn (List.length l - k) l) in *.
    rewrite length_app, Hq. cbn [List.length].
    transitivity (skipn 1 (q ++ [x])); [f_equal; lia|].
    rewrite Hl at 2. rewrite <- app_assoc.
    rewrite (skipn_app (List.length (l ++ [x]) - k) p (q ++ [x])).
    rewrite (skipn_all2 p) by (rewrite length_app; cbn; lia).
    cbn [app]. f_equal. rewrite length_app, Hp. cbn. lia.
Qed.

Lemma entries_of_snoc (t t' : string) (d : E) (now : string) calls :
  entries_of E t (calls ++ [(t', d, now)]) =
  if String.eqb t' t then (entries_of E t calls ++ [mk_entry d now])%list else entries_of E t calls.
Proof.
  unfold entries_of. rewrite filter_app. cbn [filter fst snd].
  destruct (String.eqb t' t); cbn; rewrite ?map_app; [reflexivity|apply app_nil_r].
Qed.

Lemma add_mistake_tracked (t : string) (d : E) (now : string) calls :
  t <> "total" ->
  add_mistake E t (mk_entry d now) (tracked E calls) = Some (tracked E (calls ++ [(t, d, now)])).
Proof.
  intros Ht. unfold tracked.
  rewrite !entries_of_snoc, length_app. cbn [List.length].
  replace (Z.of_nat (List.length calls + 1)) with (Z.of_nat (List.length calls) + 1) by lia.
  unfold add_mistake.
  destruct (String.eqb_spec t "pronunciation") as [->|H1]; [cbn -[Py.last_n]; rewrite last_n_snoc; reflexivity|].
  destruct (String.eqb_spec t "spelling") as [->|H2]; [cbn -[Py.last_n]; rewrite last_n_snoc; reflexivity|].
  destruct (String.eqb_spec t "vocabulary") as [->|H3]; [cbn -[Py.last_n]; rewrite last_n_snoc; reflexivity|].
  assert (N1 : String.eqb "pronunciation" t = false) by (apply String.eqb_neq; congruence).
  assert (N2 : String.eqb "spelling" t = false) by (apply String.eqb_neq; congruence).
  assert (N3 : String.eqb "vocabulary" t = false) by (apply String.eqb_neq; congruence).
  assert (N4 : String.eqb "total" t = false) by (apply String.eqb_neq; congruence).
  do 4 (cbn [dict_get]; rewrite ?N1, ?N2, ?N3, ?N4). reflexivity.
Qed.


Lemma find_set_mistakes (uid : string) (m : list (string * mval E)) (us : list (muser E)) :
  find (fun v => String.eqb (mu_id v) uid) (set_mistakes E uid m us) =
  option_map (fun v => mk_muser (mu_id v) (Some (MDict m)))
    (find (fun v => String.eqb (mu_id v) uid) us).
Proof.
  induction us as [|v t IH]; simpl; [reflexivity|].
  destruct (String.eqb (mu_id v) uid) eqn:E0; simpl; rewrite E0; [reflexivity|exact IH].
Qed.

Lemma log_all_tracked (us : list (muser E)) (uid : string) (u : muser E)
    (pre calls : list (string * E * string)) :
  find (fun v => String.eqb (mu_id v) uid) us = Some u ->
  mu_mistakes u = Some (MDict (tracked E pre)) ->
  (forall c, In c calls -> fst (fst c) <> "total") ->
  exists us' u', log_all E (Some us) uid calls = Some us' /\
    find (fun v => String.eqb (mu_id v) uid) us' = Some u' /\
    mu_mistakes u' = Some (MDict (tracked E (pre ++ calls))).
Proof.
  revert us u pre. induction calls as [|[[t d] now] rest IH]; intros us u pre Hf Hm Ht.
  - exists us, u. rewrite app_nil_r. split; [reflexivity|split; assumption].
  - assert (Ht0 : t <> "total") by exact (Ht _ (or_introl eq_refl)).
    cbn [log_all]. unfold log_mistake. rewrite Hf, Hm. cbv beta iota.
    rewrite (add_mistake_tracked t d now pre Ht0).
    replace (pre ++ (t, d, now) :: rest)%list with ((pre ++ [(t, d, now)]) ++ rest)%list
      by (rewrite <- app_assoc; reflexivity).
    apply (IH _ (mk_muser (mu_id u) (Some (MDict (tracked E (pre ++ [(t, d, now)])%list))))).
    + rewrite find_set_mistakes, Hf. reflexivity.
    + reflexivity.
    + intros c Hc. exact (Ht c (or_intror Hc)).
Qed.

End Log.
End MistakeFacts.

Module MistakeClaims.
Import Users Mistakes MistakeFacts.

(** X21.  Starting from the [mistakes] dict [create_user] stores, after
    any sequence of [log_mistake] calls for a user (none with type
    [total]), each of [pronunciation], [spelling] and [vocabulary] holds
    the last 50 entries logged with that type, oldest first, and
    [total] counts every call, including those whose type is not
    tracked and whose entry is dropped. *)
Theorem mistakes_tracked (E : Type) (us : list (muser E)) (uid : string) (u : muser E)
    (calls : list (string * E * string)) :
  find (fun v => String.eqb (mu_id v) uid) us = Some u ->
  mu_mistakes u = Some (MDict (default_mistakes E)) ->
  (forall c, In c calls -> fst (fst c) <> "total") ->
  exists us' u', log_all E (Some us) uid calls = Some us' /\
    find (fun v => String.eqb (mu_id v) uid) us' = Some u' /\
    mu_mistakes u' = Some (MDict (tracked E calls)).
Proof.
  intros Hf Hm Ht. exact (log_all_tracked E us uid u [] calls Hf Hm Ht).
Qed.

Lemma mistakes_tracked_witness :
  exists us' u',
    log_all nat (Some [mk_muser "u" (Some (MDict (default_mistakes nat)))]) "u"
      [("spelling", 1%nat, "t1"); ("grammar", 2%nat, "t2")] = Some us' /\
    find (fun v => String.eqb (mu_id v) "u") us' = Some u' /\
    mu_mistakes u' = Some (MDict (tracked nat [("spelling", 1%nat, "t1"); ("grammar", 2%nat, "t2")])).
Proof.
  apply (mistakes_tracked nat [mk_muser "u" (Some (MDict (default_mistakes nat)))] "u"
           (mk_muser "u" (Some (MDict (default_mistakes nat))))
           [("spelling", 1%nat, "t1"); ("grammar", 2%nat, "t2")]).
  - reflexivity.
  - reflexivity.
  - intros c [<-|[<-|[]]]; discriminate.
Defined.

End MistakeClaims.

Module NewUserFacts.
Import Users NewUser.

Lemma find_user_app_fresh (us : list user) (u : user) :
  existsb (fun v => String.eqb (u_id v) (u_id u)) us = false ->
  find_user (us ++ [u])%list (u_id u) = Some u.
Proof.
  unfold find_user. induction us as [|v t IH]; simpl; intros H.
  - rewrite String.eqb_refl. reflexivity.
  - apply orb_false_iff in H as [H1 H2]. rewrite H1. exact (IH H2).
Qed.

End NewUserFacts.

Module NewUserClaims.
Import Users NewUser NewUserFacts.

(** X22. [create_user] with an [_id] not in the collection appends a
    level-1 user with 0 XP and returns it, and [check_and_award_badges]
    on that user awards no badge and leaves the collection unchanged;
    with an [_id] already taken it returns [None] and changes nothing. *)
Theorem create_user_spec (us : list user) (user_id username user_type : string) :
  match create_user (Some us) user_id username user_type with
  | (Some u, Some us') =>
      existsb (fun v => String.eqb (u_id v) user_id) us = false /\
      us' = (us ++ [u])%list /\ u_id u = user_id /\
      u_level u = Some 1 /\ u_total_xp u = Some 0 /\
      check_and_award_badges (Some us') user_id = ([], Some us')
  | (None, Some us') =>
      existsb (fun v => String.eqb (u_id v) user_id) us = true /\ us' = us
  | _ => False
  end.
Proof.
  unfold create_user.
  destruct (existsb (fun v => String.eqb (u_id v) user_id) us) eqn:E.
  - split; reflexivity.
  - set (u := mk_user user_id (Some username) None None None (Some user_type)
                (Some 0) (Some 1) (Some (ADict init_user_achievements)) None None None None).
    split; [reflexivity|]. split; [reflexivity|]. split; [reflexivity|].
    split; [reflexivity|]. split; [reflexivity|].
    assert (Hf : find_user (us ++ [u])%list user_id = Some u)
      by exact (find_user_app_fresh us u E).
    unfold check_and_award_badges, check_and_award_badges_m, catch_m, catch,
      check_and_award_badges_body, bind, find_one, ret.
    rewrite Hf. reflexivity.
Qed.

End NewUserClaims.
